(** * The SARIF upload-and-report pipeline

    A shallow embedding of [src/upload-lib.ts] and [lib/util.js]: the
    functions that merge result files, deliver the payload through the
    client of [api-client.ts], and build and send status reports.

    The JavaScript program talks to three things it does not own: the
    process environment ([process.env], published to later steps with
    [core.exportVariable]), the HTTP transport behind [api.getApiClient()]
    and the file system.  The embedding makes them explicit: the mutable
    part is a [State] threaded through a state-and-exception monad [M],
    the read-only part is a [Host] record. *)

From Stdlib Require Import ZArith String Ascii List Lia Bool Sorted.
From Stdlib Require Import QArith Qround Lqa.
From stdpp Require Import base option gmap strings list pretty.

Open Scope string_scope.
Open Scope Z_scope.

(** ** JavaScript values that the code inspects *)

(** String concatenation of a possibly [undefined] string. *)
Definition str_undef (o : option string) : string :=
  match o with Some s => s | None => "undefined" end.

(** String concatenation of a possibly [undefined] or [NaN] integer. *)
Definition str_status (o : option Z) : string :=
  match o with Some z => pretty z | None => "undefined" end.

(** Truthiness of a string-or-[undefined] value: [undefined] and the empty
    string are falsy. *)
Definition truthy (o : option string) : bool :=
  match o with
  | Some s => negb (String.eqb s "")
  | None => false
  end.

(** [a || ''] on a string-or-[undefined] value. *)
Definition or_empty (o : option string) : string :=
  match o with
  | Some s => s
  | None => ""
  end.

(** A [Date]; only its ISO rendering is observed. *)
Record Date := { toISOString : string }.

(** ** SARIF documents

    A JSON text is represented by the tree it parses to.  Of a parsed
    document only the members that the code reads are kept.  [version] is
    [undefined] (member absent), [null] or a string; [runs] is absent or an
    array. *)

Inductive JsVersion :=
| VUndefined
| VNull
| VString (s : string).

Definition str_version (v : JsVersion) : string :=
  match v with
  | VUndefined => "undefined"
  | VNull => "null"
  | VString s => s
  end.

(** Strict equality [===] on versions. *)
Definition version_eqb (a b : JsVersion) : bool :=
  match a, b with
  | VUndefined, VUndefined => true
  | VNull, VNull => true
  | VString s, VString t => String.eqb s t
  | _, _ => false
  end.

(** [driver.name] is kept when [typeof driver.name === "string"]. *)
Record Driver := { name : option string }.
Record Tool := { driver : option Driver }.

(** A run: its [tool] member (absent or falsy is [None]) and its [results]
    array, each result kept as opaque JSON text. *)
Record Run := { tool : option Tool; results : option (list string) }.

Record SarifObject := { version : JsVersion; runs : option (list Run) }.

(** The contents of a file or of a string handed to [JSON.parse]. *)
Inductive Text :=
| Malformed
| Json (o : SarifObject).

(** ** Exceptions *)

Inductive Exn :=
| Error (message : string)              (* throw new Error(message) *)
| ThrownString (s : string)             (* throw "..." *)
| SyntaxError                           (* JSON.parse on a malformed text *)
| TypeError                             (* iterating or reading what is undefined *)
| SystemError (code : string) (path : string)   (* fs errors *)
| HttpError (code : option Z) (request_id : option string)
            (message : string).         (* the API client rejects *)

Inductive Outcome (A : Type) :=
| Return (a : A)
| Throw (e : Exn).
Arguments Return {A} a.
Arguments Throw {A} e.

(** ** Payloads and reports *)

Record UploadPayload := {
  commit_oid : string;
  ref : string;
  analysis_key : string;
  analysis_name : string;
  sarif : string;
  workflow_run_id : Z;
  checkout_uri : string;
  environment : option string;
  started_at : option string;
  tool_names : list string
}.

Record StatusReport := {
  sr_workflow_run_id : option Z;        (* [None] is NaN *)
  sr_workflow_name : string;
  sr_job_name : string;
  sr_analysis_key : string;
  sr_commit_oid : string;
  sr_ref : string;
  sr_action_name : string;
  sr_action_oid : string;
  sr_started_at : string;
  sr_action_started_at : string;
  sr_status : string;
  sr_cause : option string;
  sr_exception : option string;
  sr_completed_at : option string;
  sr_matrix_vars : option string
}.

(** ** The HTTP transport *)

Inductive Body :=
| NoBody
| RunIdBody (run_id : option Z)
| PayloadBody (p : UploadPayload)
| StatusBody (r : StatusReport).

Record Request := {
  route : string;
  owner : option string;
  repo : option string;
  body : Body
}.

(** A response: [status], the [x-github-request-id] header, the body as
    [JSON.stringify(response.data)] prints it, and the two members of
    [response.data] that [getWorkflowPath] reads. *)
Record Response := {
  status : option Z;
  x_github_request_id : option string;
  data : string;
  data_workflow_url : option string;
  data_path : option string
}.

(** ** State and host *)

Inductive Event :=
| EvRequest (r : Request)
| EvSleep (ms : Z)
| EvExport (key value : string).

(** The mutable world: [process.env], the effects performed so far (oldest
    first), the message of the last [core.setFailed], and the number of
    times the wall clock was read. *)
Record State := {
  env : gmap string string;
  trace : list Event;
  failed : option string;
  clock_reads : nat
}.

(** What the program is given and cannot change.  [server n r] is what
    comes back from the network for request [r] when [n] requests were made
    before it; a [status] that is absent stands for a transport failure.
    [git_rev_parse_head] is [None] when calling git fails.  The two names
    at the end are the constants of the [shared-environment] module, under
    which the cached values are stored. *)
Record Host := {
  server : nat -> Request -> Response;
  files : string -> option Text;
  schema_errors : SarifObject -> list string;
  addFingerprints : Text -> Text;
  gzip_base64 : Text -> string;
  text_length : Text -> Z;
  getInput : string -> string;
  git_rev_parse_head : option string;
  fileUrl : string -> string;
  clock : nat -> string;
  Number : string -> option Z;
  parseInt10 : string -> option Z;
  CODEQL_ACTION_ANALYSIS_KEY : string;
  CODEQL_WORKFLOW_STARTED_AT : string
}.

(** ** The monad *)

Definition M (A : Type) : Type := State -> Outcome A * State.

Definition ret {A} (a : A) : M A := fun st => (Return a, st).

Definition throw {A} (e : Exn) : M A := fun st => (Throw e, st).

Definition bind {A B} (m : M A) (k : A -> M B) : M B :=
  fun st =>
    match m st with
    | (Return a, st') => k a st'
    | (Throw e, st') => (Throw e, st')
    end.

Notation "'let*' x ':=' m 'in' k" := (bind m (fun x => k))
  (at level 10, x pattern, m at level 100, k at level 200).
Notation "m '>>' k" := (bind m (fun _ => k))
  (at level 100, k at level 200, right associativity).

(** ** Primitive effects *)

Definition emit (e : Event) : M unit :=
  fun st =>
    (Return tt,
     {| env := env st; trace := trace st ++ [e];
        failed := failed st; clock_reads := clock_reads st |}).

(** [process.env[key]] *)
Definition getenv (key : string) : M (option string) :=
  fun st => (Return (env st !! key), st).

(** [core.exportVariable(key, value)] *)
Definition exportVariable (key value : string) : M unit :=
  fun st =>
    (Return tt,
     {| env := <[key := value]> (env st);
        trace := trace st ++ [EvExport key value];
        failed := failed st; clock_reads := clock_reads st |}).

(** [core.setFailed(message)] *)
Definition setFailed (message : string) : M unit :=
  fun st =>
    (Return tt,
     {| env := env st; trace := trace st;
        failed := Some message; clock_reads := clock_reads st |}).

(** [new Date().toISOString()] *)
Definition now (h : Host) : M string :=
  fun st =>
    (Return (clock h (clock_reads st)),
     {| env := env st; trace := trace st;
        failed := failed st; clock_reads := S (clock_reads st) |}).

Definition requests_of (t : list Event) : list Request :=
  omap (fun e => match e with EvRequest r => Some r | _ => None end) t.

Definition sleeps_of (t : list Event) : list Z :=
  omap (fun e => match e with EvSleep ms => Some ms | _ => None end) t.

Definition exports_of (t : list Event) : list (string * string) :=
  omap (fun e => match e with EvExport k v => Some (k, v) | _ => None end) t.

(** The client of [api-client.ts] is an Octokit ([new github.GitHub]):
    its [request] resolves to the response only when the server answered
    with a status below 400 (other than 304); on a status of 400 or more,
    on 304 and on a transport failure it rejects, with an [HttpError] made
    from what came back. *)
Definition rejected (response : Response) : bool :=
  match status response with
  | None => true
  | Some c => (c =? 304) || (400 <=? c)
  end.

Definition http_error (response : Response) : Exn :=
  HttpError (status response) (x_github_request_id response) (data response).

(** [await api.getApiClient().request(route, params)]: none of the calls
    in the program is inside a [try]. *)
Definition request (h : Host) (r : Request) : M Response :=
  fun st =>
    let response := server h (length (requests_of (trace st))) r in
    (if rejected response then Throw (http_error response)
     else Return response,
     {| env := env st; trace := trace st ++ [EvRequest r];
        failed := failed st; clock_reads := clock_reads st |}).

(** [await new Promise(r => setTimeout(r, ms))] *)
Definition sleep (ms : Z) : M unit := emit (EvSleep ms).

(** ** lib/util.js *)

(** [getRequiredEnvParam]: the value, or an error when it is unset or
    empty. *)
Definition getRequiredEnvParam (paramName : string) : M string :=
  let* value := getenv paramName in
  match value with
  | Some v =>
      if String.eqb v "" then
        throw (Error (paramName +:+ " environment variable must be set"))
      else ret v
  | None => throw (Error (paramName +:+ " environment variable must be set"))
  end.

(** [s.split("/")], with at least one component. *)
Fixpoint split_slash (s : string) : list string :=
  match s with
  | EmptyString => [""]
  | String c s' =>
      if Ascii.eqb c "/"%char then "" :: split_slash s'
      else match split_slash s' with
           | x :: xs => String c x :: xs
           | [] => [String c ""]
           end
  end.

(** [getCommitOid]: the trimmed output of [git rev-parse HEAD], or, when
    calling git throws, [GITHUB_SHA] from the [catch] branch. *)
Definition getCommitOid (h : Host) : M string :=
  match git_rev_parse_head h with
  | Some commitOid => ret commitOid
  | None => getRequiredEnvParam "GITHUB_SHA"
  end.

Definition runs_route : string :=
  "GET /repos/:owner/:repo/actions/runs/:run_id".

(** [getWorkflowPath]: two requests to the workflow-metadata service. *)
Definition getWorkflowPath (h : Host) : M (option string) :=
  let* nwo := getRequiredEnvParam "GITHUB_REPOSITORY" in
  let repo_nwo := split_slash nwo in
  let* run_id_str := getRequiredEnvParam "GITHUB_RUN_ID" in
  let run_id := Number h run_id_str in
  let* runsResponse :=
    request h {| route := runs_route; owner := repo_nwo !! 0%nat;
                 repo := repo_nwo !! 1%nat; body := RunIdBody run_id |} in
  let workflowUrl := data_workflow_url runsResponse in
  let* workflowResponse :=
    request h {| route := "GET " +:+ str_undef workflowUrl; owner := None;
                 repo := None; body := NoBody |} in
  ret (data_path workflowResponse).

(** [getAnalysisKey]: the cached key, or the workflow path and the job
    name, computed and cached. *)
Definition getAnalysisKey (h : Host) : M string :=
  let* cached := getenv (CODEQL_ACTION_ANALYSIS_KEY h) in
  match cached with
  | Some analysisKey => ret analysisKey
  | None =>
      let* workflowPath := getWorkflowPath h in
      let* jobName := getRequiredEnvParam "GITHUB_JOB" in
      let analysisKey := str_undef workflowPath +:+ ":" +:+ jobName in
      exportVariable (CODEQL_ACTION_ANALYSIS_KEY h) analysisKey >>
      ret analysisKey
  end.

(** *** The regular expression of [getRef]: [/refs\/pull\/(\d+)\/merge/] *)

(** [strip_prefix p s] is the rest of [s] after the literal [p]. *)
Fixpoint strip_prefix (p s : string) : option string :=
  match p, s with
  | EmptyString, _ => Some s
  | String a p', String b s' =>
      if Ascii.eqb a b then strip_prefix p' s' else None
  | String _ _, EmptyString => None
  end.

(** [\d] *)
Definition is_digit (c : ascii) : bool :=
  let n := N_of_ascii c in ((48 <=? n) && (n <=? 57))%N.

(** The longest run of digits at the head of [s], and what follows it. *)
Fixpoint span_digits (s : string) : string * string :=
  match s with
  | String c s' =>
      if is_digit c then
        let (ds, rest) := span_digits s' in (String c ds, rest)
      else (EmptyString, s)
  | EmptyString => (EmptyString, EmptyString)
  end.

(** A match that starts at the head of [s]: the group [(\d+)] and the text
    after the match.  [\d+] is greedy, and since the next pattern character
    is not a digit no shorter run can match. *)
Definition pull_ref_match_here (s : string) : option (string * string) :=
  match strip_prefix "refs/pull/" s with
  | Some r1 =>
      let (ds, r2) := span_digits r1 in
      if String.eqb ds "" then None
      else match strip_prefix "/merge" r2 with
           | Some r3 => Some (ds, r3)
           | None => None
           end
  | None => None
  end.

(** The leftmost match in [s]: the text before it, the group, the text
    after it. *)
Fixpoint pull_ref_exec (s : string) : option (string * string * string) :=
  match pull_ref_match_here s with
  | Some (ds, after) => Some (EmptyString, ds, after)
  | None =>
      match s with
      | String c s' =>
          match pull_ref_exec s' with
          | Some (before, ds, after) => Some (String c before, ds, after)
          | None => None
          end
      | EmptyString => None
      end
  end.

(** [pull_ref_regex.test(ref)] *)
Definition pull_ref_test (s : string) : bool :=
  match pull_ref_exec s with Some _ => true | None => false end.

(** [ref.replace(pull_ref_regex, 'refs/pull/$1/head')]: the regular
    expression has no [g] flag, so the first match only is replaced. *)
Definition pull_ref_replace (s : string) : string :=
  match pull_ref_exec s with
  | Some (before, ds, after) =>
      before +:+ "refs/pull/" +:+ ds +:+ "/head" +:+ after
  | None => s
  end.

Definition getRef : M string :=
  let* ref := getRequiredEnvParam "GITHUB_REF" in
  if pull_ref_test ref then ret (pull_ref_replace ref) else ret ref.

(** [createStatusReportBase] *)
Definition is_terminal (status : string) : bool :=
  String.eqb status "success" || String.eqb status "failure" ||
  String.eqb status "aborted".

(** An optional member that is attached when its value is truthy. *)
Definition if_truthy (o : option string) : option string :=
  if truthy o then o else None.

Definition createStatusReportBase (h : Host) (actionName status : string)
    (actionStartedAt : Date) (cause exception : option string)
  : M StatusReport :=
  let* sha := getenv "GITHUB_SHA" in
  let commitOid := or_empty sha in
  let* ref := getRef in
  let* workflowRunIDStr := getenv "GITHUB_RUN_ID" in
  let workflowRunID :=
    if truthy workflowRunIDStr then parseInt10 h (or_empty workflowRunIDStr)
    else Some (-1) in
  let* wf := getenv "GITHUB_WORKFLOW" in
  let workflowName := or_empty wf in
  let* job := getenv "GITHUB_JOB" in
  let jobName := or_empty job in
  let* analysis_key := getAnalysisKey h in
  let* cachedStartedAt := getenv (CODEQL_WORKFLOW_STARTED_AT h) in
  let* workflowStartedAt :=
    match cachedStartedAt with
    | Some t => ret t
    | None =>
        exportVariable (CODEQL_WORKFLOW_STARTED_AT h)
                       (toISOString actionStartedAt) >>
        ret (toISOString actionStartedAt)
    end in
  let* completed_at :=
    if is_terminal status then
      let* t := now h in ret (Some t)
    else ret None in
  let matrix := getInput h "matrix" in
  ret {| sr_workflow_run_id := workflowRunID;
         sr_workflow_name := workflowName;
         sr_job_name := jobName;
         sr_analysis_key := analysis_key;
         sr_commit_oid := commitOid;
         sr_ref := ref;
         sr_action_name := actionName;
         sr_action_oid := "unknown";
         sr_started_at := workflowStartedAt;
         sr_action_started_at := toISOString actionStartedAt;
         sr_status := status;
         sr_cause := if_truthy cause;
         sr_exception := if_truthy exception;
         sr_completed_at := completed_at;
         sr_matrix_vars := if_truthy (Some matrix) |}.

Definition status_route : string :=
  "PUT /repos/:owner/:repo/code-scanning/analysis/status".

(** [sendStatusReport] *)
Definition sendStatusReport (h : Host) (statusReport : StatusReport)
    (ignoreFailures : bool) : M bool :=
  let* nwo := getRequiredEnvParam "GITHUB_REPOSITORY" in
  let parts := split_slash nwo in
  let* statusResponse :=
    request h {| route := status_route; owner := parts !! 0%nat;
                 repo := parts !! 1%nat; body := StatusBody statusReport |} in
  if negb ignoreFailures then
    if bool_decide (status statusResponse = Some 403) then
      setFailed "The repo on which this action is running is not opted-in to CodeQL code scanning." >>
      ret false
    else if bool_decide (status statusResponse = Some 404) then
      setFailed "Not authorized to used the CodeQL code scanning feature on this repo." >>
      ret false
    else ret true
  else ret true.

(** *** Objects used as sets of keys

    [getToolNames] collects names as the keys of an object and returns
    [Object.keys] of it.  An object lists its own keys with the array
    indices first, in ascending numeric order, and the other strings after
    them in the order in which they were created. *)

Definition is_Some_b {A} (o : option A) : bool :=
  match o with Some _ => true | None => false end.

Fixpoint parse_digits (acc : N) (s : string) : option N :=
  match s with
  | EmptyString => Some acc
  | String c s' =>
      if is_digit c then parse_digits (10 * acc + (N_of_ascii c - 48))%N s'
      else None
  end.

(** The number that a key denotes when it is an array index: a decimal
    numeral without leading zero, below [2^32 - 1]. *)
Definition array_index (k : string) : option N :=
  match k with
  | EmptyString => None
  | String c k' =>
      if Ascii.eqb c "0"%char && negb (String.eqb k' "") then None
      else match parse_digits 0 k with
           | Some n => if (n <? 2 ^ 32 - 1)%N then Some n else None
           | None => None
           end
  end.

Section JsObject.
Context {V : Type}.

(** Own properties, in order of creation. *)
Definition JsObject : Type := list (string * V).

Definition obj_has (o : JsObject) (k : string) : bool :=
  existsb (fun p => String.eqb (fst p) k) o.

Fixpoint obj_update (o : JsObject) (k : string) (v : V) : JsObject :=
  match o with
  | [] => []
  | (k', v') :: o' =>
      if String.eqb k' k then (k', v) :: o'
      else (k', v') :: obj_update o' k v
  end.

(** [o[k] = v] for a primitive [v] on an object created by [{}]: the
    key [__proto__] reaches the inherited setter, which ignores a
    primitive; any other key is updated in place or created last. *)
Definition obj_set (o : JsObject) (k : string) (v : V) : JsObject :=
  if String.eqb k "__proto__" then o
  else if obj_has o k then obj_update o k v
  else (o ++ [(k, v)])%list.

Fixpoint insert_index (x : N * string) (l : list (N * string))
  : list (N * string) :=
  match l with
  | [] => [x]
  | y :: l' =>
      if (fst x <=? fst y)%N then x :: l else y :: insert_index x l'
  end.

Definition sort_indices (l : list (N * string)) : list (N * string) :=
  foldr insert_index [] l.

Definition index_keys (ks : list string) : list (N * string) :=
  omap (fun k => match array_index k with
                 | Some n => Some (n, k)
                 | None => None
                 end) ks.

Definition Object_keys (o : JsObject) : list string :=
  let ks := map fst o in
  map snd (sort_indices (index_keys ks)) ++
  List.filter (fun k => negb (is_Some_b (array_index k))) ks.
End JsObject.

(** *** Pure computations that may throw *)

Definition obind {A B} (m : Outcome A) (k : A -> Outcome B) : Outcome B :=
  match m with
  | Return a => k a
  | Throw e => Throw e
  end.

Notation "'let?' x ':=' m 'in' k" := (obind m (fun x => k))
  (at level 10, x pattern, m at level 100, k at level 200).

Definition lift {A} (o : Outcome A) : M A := fun st => (o, st).

(** [JSON.parse] *)
Definition JSON_parse (t : Text) : Outcome SarifObject :=
  match t with
  | Json o => Return o
  | Malformed => Throw SyntaxError
  end.

(** [fs.readFileSync(path, 'utf8')] *)
Definition readFileSync (h : Host) (path : string) : Outcome Text :=
  match files h path with
  | Some t => Return t
  | None => Throw (SystemError "ENOENT" path)
  end.

(** The body of the loop of [getToolNames]. *)
Definition add_tool_name (toolNames : @JsObject bool) (run : Run)
  : @JsObject bool :=
  match tool run with
  | Some t =>
      match driver t with
      | Some d =>
          match name d with
          | Some n =>
              if (0 <? String.length n)%nat then obj_set toolNames n true
              else toolNames
          | None => toolNames
          end
      | None => toolNames
      end
  | None => toolNames
  end.

Definition getToolNames (sarifContents : Text) : Outcome (list string) :=
  let? sarif := JSON_parse sarifContents in
  let toolNames := fold_left add_tool_name (default [] (runs sarif)) [] in
  Return (Object_keys toolNames).

(** ** src/upload-lib.ts: merging, counting, validating *)

Record Combined := { c_version : JsVersion; c_runs : list Run }.

Definition JSON_stringify (c : Combined) : Text :=
  Json {| version := c_version c; runs := Some (c_runs c) |}.

Definition version_mismatch_message (a b : JsVersion) : string :=
  "Different SARIF versions encountered: " +:+ str_version a +:+ " and " +:+
  str_version b.

(** The loop of [combineSarifFiles] over the files that are left. *)
Fixpoint combine_loop (h : Host) (sarifFiles : list string)
    (combinedSarif : Combined) : Outcome Combined :=
  match sarifFiles with
  | [] => Return combinedSarif
  | sarifFile :: rest =>
      let? text := readFileSync h sarifFile in
      let? sarifObject := JSON_parse text in
      let? v :=
        if version_eqb (c_version combinedSarif) VNull then
          Return (version sarifObject)
        else if negb (version_eqb (c_version combinedSarif)
                                  (version sarifObject)) then
          Throw (ThrownString (version_mismatch_message
                                 (c_version combinedSarif)
                                 (version sarifObject)))
        else Return (c_version combinedSarif) in
      match runs sarifObject with
      | Some rs =>
          combine_loop h rest
            {| c_version := v; c_runs := c_runs combinedSarif ++ rs |}
      | None => Throw TypeError
      end
  end.

Definition combineSarifFiles (h : Host) (sarifFiles : list string)
  : Outcome Text :=
  let? combinedSarif :=
    combine_loop h sarifFiles {| c_version := VNull; c_runs := [] |} in
  Return (JSON_stringify combinedSarif).

Fixpoint count_loop (rs : list Run) (numResults : Z) : Outcome Z :=
  match rs with
  | [] => Return numResults
  | run :: rest =>
      match results run with
      | Some res => count_loop rest (numResults + Z.of_nat (length res))
      | None => Throw TypeError
      end
  end.

Definition countResultsInSarif (sarif : Text) : Outcome Z :=
  let? o := JSON_parse sarif in
  match runs o with
  | Some rs => count_loop rs 0
  | None => Throw TypeError
  end.

Definition dquote : string := String (ascii_of_nat 34) EmptyString.
Definition newline : string := String (ascii_of_nat 10) EmptyString.

(** [xs.join(sep)] *)
Fixpoint join (sep : string) (xs : list string) : string :=
  match xs with
  | [] => ""
  | [x] => x
  | x :: rest => x +:+ sep +:+ join sep rest
  end.

Definition invalid_sarif_message (sarifFilePath : string)
    (errors : list string) : string :=
  "Unable to upload " +:+ dquote +:+ sarifFilePath +:+ dquote +:+
  " as it is not valid SARIF:" +:+ newline +:+
  join newline (map (fun e => "- " +:+ e) errors).

(** [validateSarifFileSchema]: [schema_errors] stands for the [stack]s of
    the errors that the schema validator reports. *)
Definition validateSarifFileSchema (h : Host) (sarifFilePath : string)
  : Outcome unit :=
  let? text := readFileSync h sarifFilePath in
  let? sarif := JSON_parse text in
  match schema_errors h sarif with
  | [] => Return tt
  | errors => Throw (Error (invalid_sarif_message sarifFilePath errors))
  end.

(** ** src/upload-lib.ts: delivery *)

Definition backoffPeriods : list Z := [1; 5; 15].

Definition upload_route : string :=
  "PUT /repos/:owner/:repo/code-scanning/analysis".

Definition upload_failed_message (response : Response) : string :=
  "Upload failed (" +:+ str_undef (x_github_request_id response) +:+ "): (" +:+
  str_status (status response) +:+ ") " +:+ data response.

(** [!statusCode || statusCode < 500 || statusCode >= 600] *)
Definition not_5xx (statusCode : option Z) : bool :=
  match statusCode with
  | None => true
  | Some c => (c =? 0) || (c <? 500) || (c >=? 600)
  end.

(** The [for] loop of [uploadPayload]: [remaining] iterations are left and
    the next one has index [attempt].  It is entered with
    [remaining = backoffPeriods.length + 1] and [attempt = 0], so the loop
    condition [attempt <= backoffPeriods.length] holds exactly while
    [remaining] is positive. *)
Fixpoint upload_attempts (h : Host) (req : Request) (remaining attempt : nat)
  : M unit :=
  match remaining with
  | O => throw (Error "Upload failed")
  | S remaining' =>
      let* response := request h req in
      let statusCode := status response in
      if bool_decide (statusCode = Some 202) then ret tt
      else if not_5xx statusCode then
        throw (Error (upload_failed_message response))
      else if bool_decide (attempt < length backoffPeriods)%nat then
        sleep (default 0 (backoffPeriods !! attempt) * 1000) >>
        upload_attempts h req remaining' (S attempt)
      else
        throw (Error (upload_failed_message response))
  end.

Definition uploadPayload (h : Host) (payload : Body) : M unit :=
  let* test_mode := getenv "TEST_MODE" in
  if bool_decide (test_mode = Some "true") then ret tt
  else
    let* nwo := getRequiredEnvParam "GITHUB_REPOSITORY" in
    let parts := split_slash nwo in
    let req := {| route := upload_route; owner := parts !! 0%nat;
                  repo := parts !! 1%nat; body := payload |} in
    upload_attempts h req (length backoffPeriods + 1) 0.


(** ** src/upload-lib.ts: the orchestrator *)

Record UploadStatusReport := {
  raw_upload_size_bytes : Z;
  zipped_upload_size_bytes : Z;
  num_results_in_sarif : Z
}.

Definition sentinelEnvVar : string := "CODEQL_UPLOAD_SARIF".

Definition duplicate_upload_message : string :=
  "Aborting upload: only one run of the codeql/analyze or codeql/upload-sarif actions is allowed per job".

(** [for (const file of sarifFiles) validateSarifFileSchema(file)] *)
Fixpoint validate_all (h : Host) (sarifFiles : list string) : Outcome unit :=
  match sarifFiles with
  | [] => Return tt
  | file :: rest =>
      let? _ := validateSarifFileSchema h file in
      validate_all h rest
  end.

Definition uploadFiles (h : Host) (sarifFiles : list string)
  : M UploadStatusReport :=
  let* sentinel := getenv sentinelEnvVar in
  if truthy sentinel then throw (Error duplicate_upload_message)
  else
    exportVariable sentinelEnvVar sentinelEnvVar >>
    let* _ := lift (validate_all h sarifFiles) in
    let* commitOid := getCommitOid h in
    let* workflowRunIDStr := getRequiredEnvParam "GITHUB_RUN_ID" in
    let* ref := getRef in
    let* analysisKey := getAnalysisKey h in
    let* analysisName := getRequiredEnvParam "GITHUB_WORKFLOW" in
    let* startedAt := getenv (CODEQL_WORKFLOW_STARTED_AT h) in
    let* combined := lift (combineSarifFiles h sarifFiles) in
    let sarifPayload := addFingerprints h combined in
    let zipped_sarif := gzip_base64 h sarifPayload in
    let checkoutPath := getInput h "checkout_path" in
    let checkoutURI := fileUrl h checkoutPath in
    match parseInt10 h workflowRunIDStr with
    | None =>
        throw (Error "GITHUB_RUN_ID must define a non NaN workflow run ID")
    | Some workflowRunID =>
        let matrix :=
          let m := getInput h "matrix" in
          if String.eqb m "null" || String.eqb m "" then None else Some m in
        let* toolNames := lift (getToolNames sarifPayload) in
        let payload :=
          {| commit_oid := commitOid;
             ref := ref;
             analysis_key := analysisKey;
             analysis_name := analysisName;
             sarif := zipped_sarif;
             workflow_run_id := workflowRunID;
             checkout_uri := checkoutURI;
             environment := matrix;
             started_at := startedAt;
             tool_names := toolNames |} in
        let rawUploadSizeBytes := text_length h sarifPayload in
        let zippedUploadSizeBytes := Z.of_nat (String.length zipped_sarif) in
        let* numResultInSarif := lift (countResultsInSarif sarifPayload) in
        uploadPayload h (PayloadBody payload) >>
        ret {| raw_upload_size_bytes := rawUploadSizeBytes;
               zipped_upload_size_bytes := zippedUploadSizeBytes;
               num_results_in_sarif := numResultInSarif |}
    end.

(** ** A host and states to run the functions on *)

(** A decimal numeral, as [parseInt] and [Number] read it; anything else
    is NaN here. *)
Definition decimal (s : string) : option Z :=
  match s with
  | EmptyString => None
  | _ => match parse_digits 0 s with
         | Some n => Some (Z.of_N n)
         | None => None
         end
  end.

Definition response_of (code : Z) : Response :=
  {| status := Some code; x_github_request_id := Some "F00D";
     data := "{}"; data_workflow_url := Some "/workflows/7";
     data_path := Some ".github/workflows/codeql.yml" |}.

(** A host whose server answers the [n]-th request with the [n]-th status
    code of [codes] (and 200 after them), with the files [fs] and a schema
    that accepts version 2.1.0 only. *)
Definition test_host (codes : list Z) (fs : list (string * Text)) : Host :=
  {| server := fun n _ => response_of (default 200 (codes !! n));
     files := fun p => snd <$> List.find (fun e => String.eqb (fst e) p) fs;
     schema_errors := fun o =>
       if version_eqb (version o) (VString "2.1.0") then []
       else ["instance.version is not one of enum values: 2.1.0"];
     addFingerprints := fun t => t;
     gzip_base64 := fun _ => "H4sIAAAAAAAAA6tWKkstKs7Mz1OyUjLSM9QzUKoFAJ0xtQ4VAAAA";
     text_length := fun _ => 21;
     getInput := fun _ => "";
     git_rev_parse_head := Some "5e7a1c0ffee";
     fileUrl := fun p => "file://" +:+ p;
     clock := fun n => "2020-06-01T12:00:0" +:+ pretty (Z.of_nat n) +:+ ".000Z";
     Number := decimal;
     parseInt10 := decimal;
     CODEQL_ACTION_ANALYSIS_KEY := "CODEQL_ACTION_ANALYSIS_KEY";
     CODEQL_WORKFLOW_STARTED_AT := "CODEQL_WORKFLOW_STARTED_AT" |}.

Definition state_of (e : list (string * string)) : State :=
  {| env := list_to_map e; trace := []; failed := None; clock_reads := 0 |}.

(** The environment of a job that has run no step of this program yet. *)
Definition job_env : list (string * string) :=
  [("GITHUB_REPOSITORY", "octo/demo"); ("GITHUB_RUN_ID", "42");
   ("GITHUB_REF", "refs/pull/7/merge"); ("GITHUB_JOB", "analyze");
   ("GITHUB_WORKFLOW", "CodeQL"); ("GITHUB_SHA", "5e7a1c0ffee")].

Definition run_named (n : string) : Run :=
  {| tool := Some {| driver := Some {| name := Some n |} |};
     results := Some [] |}.

Definition doc (v : string) (names : list string) : Text :=
  Json {| version := VString v; runs := Some (map run_named names) |}.

(** ** lib/util.js: the abort check *)

(** [should_abort]: the name of the variable that marks a completed init
    action is a constant of the [shared-environment] module, taken as the
    first argument. *)
Definition should_abort (CODEQL_ACTION_INIT_COMPLETED : string)
    (actionName : string) (requireInitActionHasRun : bool) : M bool :=
  let* ref := getenv "GITHUB_REF" in
  match ref with
  | None => setFailed "GITHUB_REF must be set." >> ret true
  | Some _ =>
      let* init := getenv CODEQL_ACTION_INIT_COMPLETED in
      if requireInitActionHasRun && negb (is_Some_b init) then
        setFailed ("The CodeQL " +:+ actionName +:+
                   " action cannot be used unless the CodeQL init action is run first. Aborting.") >>
        ret true
      else ret false
  end.

(** ** lib/util.js: the memory and threads flags *)

(** A JavaScript number: a double is a rational, an infinity or NaN.  The
    two zeros are one number here: they compare equal and print alike. *)
Inductive JsNumber :=
| NaN
| Num (q : Q)
| Infinity (negative : bool).

(** The machine and the conversions: [os.cpus().length], [os.totalmem()],
    [Number(s)] and the conversion of a number to a string. *)
Record Os := {
  cpus_length : nat;
  totalmem : N;
  ToNumber : string -> JsNumber;
  ToString : JsNumber -> string
}.

Definition isNaN (a : JsNumber) : bool :=
  match a with NaN => true | _ => false end.

(** [a < b] *)
Definition js_lt (a b : JsNumber) : bool :=
  match a, b with
  | NaN, _ | _, NaN => false
  | Num x, Num y => negb (Qle_bool y x)
  | Num _, Infinity negative => negb negative
  | Infinity negative, Num _ => negative
  | Infinity n1, Infinity n2 => n1 && negb n2
  end.

(** [a <= b] *)
Definition js_le (a b : JsNumber) : bool :=
  match a, b with
  | NaN, _ | _, NaN => false
  | Num x, Num y => Qle_bool x y
  | Num _, Infinity negative => negb negative
  | Infinity negative, Num _ => negative
  | Infinity n1, Infinity n2 => n1 || negb n2
  end.

(** [Math.floor(a)] *)
Definition Math_floor (a : JsNumber) : JsNumber :=
  match a with
  | Num q => Num (inject_Z (Qfloor q))
  | _ => a
  end.

Definition invalid_ram_message (memoryToUseString : string) : string :=
  "Invalid RAM setting " +:+ dquote +:+ memoryToUseString +:+ dquote +:+
  ", specified.".

Definition getMemoryFlag (os : Os) (h : Host) : Outcome string :=
  let memoryToUseString := getInput h "ram" in
  let? memoryToUseMegaBytes :=
    if negb (String.eqb memoryToUseString "") then
      let memoryToUseMegaBytes := ToNumber os memoryToUseString in
      if isNaN memoryToUseMegaBytes || js_le memoryToUseMegaBytes (Num 0)
      then Throw (Error (invalid_ram_message memoryToUseString))
      else Return memoryToUseMegaBytes
    else
      let totalMemoryBytes := inject_Z (Z.of_N (totalmem os)) in
      let totalMemoryMegaBytes :=
        (totalMemoryBytes / inject_Z (1024 * 1024))%Q in
      let systemReservedMemoryMegaBytes := inject_Z 256 in
      Return (Num (totalMemoryMegaBytes - systemReservedMemoryMegaBytes)%Q) in
  Return ("--ram=" +:+ ToString os (Math_floor memoryToUseMegaBytes)).

Definition invalid_threads_message (numThreadsString : string) : string :=
  "Invalid threads setting " +:+ dquote +:+ numThreadsString +:+ dquote +:+
  ", specified.".

Definition getThreadsFlag (os : Os) (h : Host) : Outcome string :=
  let numThreadsString := getInput h "threads" in
  let? numThreads :=
    if negb (String.eqb numThreadsString "") then
      let numThreads := ToNumber os numThreadsString in
      if isNaN numThreads
      then Throw (Error (invalid_threads_message numThreadsString))
      else
        let maxThreads := Num (inject_Z (Z.of_nat (cpus_length os))) in
        let numThreads :=
          if js_lt maxThreads numThreads then maxThreads else numThreads in
        let minThreads :=
          Num (- inject_Z (Z.of_nat (cpus_length os)))%Q in
        let numThreads :=
          if js_lt numThreads minThreads then minThreads else numThreads in
        Return numThreads
    else Return (Num 1) in
  Return ("--threads=" +:+ ToString os numThreads).

(** ** src/upload-lib.ts: the entry point *)

(** [s.endsWith(suffix)] *)
Fixpoint ends_with (s suffix : string) : bool :=
  String.eqb s suffix ||
  match s with
  | EmptyString => false
  | String _ s' => ends_with s' suffix
  end.

(** The directory operations that [upload] uses: [fs.lstatSync(p)
    .isDirectory()], [fs.readdirSync(p)] and [path.resolve(p, f)]. *)
Record Disk := {
  lstat_isDirectory : string -> Outcome bool;
  readdirSync : string -> Outcome (list string);
  path_resolve : string -> string -> string
}.

Definition no_sarif_message (input : string) : string :=
  "No SARIF files found to upload in " +:+ dquote +:+ input +:+ dquote +:+ ".".

Definition upload (d : Disk) (h : Host) (input : string)
  : M UploadStatusReport :=
  let* isDirectory := lift (lstat_isDirectory d input) in
  if isDirectory : bool then
    let* entries := lift (readdirSync d input) in
    let sarifFiles :=
      map (path_resolve d input)
          (List.filter (fun f => ends_with f ".sarif") entries) in
    if (length sarifFiles =? 0)%nat then throw (Error (no_sarif_message input))
    else uploadFiles h sarifFiles
  else uploadFiles h [input].

(** ** src/upload-lib.ts: paths of the configuration file *)

(** The regular expressions of the module are built from classes of
    characters, [*] on a class, [$], sequence and alternative. *)
Inductive CharClass :=
| Lit (c : ascii)                 (* the character itself *)
| Dot                             (* [.]: any character but a line terminator *)
| OneOf (cs : list ascii)         (* [[...]] *)
| NoneOf (cs : list ascii).       (* [[^...]] *)

Inductive Regex :=
| Chr (k : CharClass)
| Star (k : CharClass)
| End
| Seq (a b : Regex)
| Alt (a b : Regex).

Definition in_chars (c : ascii) (cs : list ascii) : bool :=
  existsb (Ascii.eqb c) cs.

Definition line_terminators : list ascii :=
  [ascii_of_nat 10; ascii_of_nat 13].

Definition class_test (k : CharClass) (c : ascii) : bool :=
  match k with
  | Lit c' => Ascii.eqb c c'
  | Dot => negb (in_chars c line_terminators)
  | OneOf cs => in_chars c cs
  | NoneOf cs => negb (in_chars c cs)
  end.

(** A backtracking matcher: [k] is what is left to match after [r].
    [Star] takes as many characters as it can and gives them back one by
    one. *)
Fixpoint star_match (p : ascii -> bool) (k : string -> bool) (s : string)
  : bool :=
  match s with
  | String c s' => (p c && star_match p k s') || k s
  | EmptyString => k s
  end.

Fixpoint rmatch (r : Regex) (s : string) (k : string -> bool) : bool :=
  match r with
  | Chr c =>
      match s with
      | String x s' => class_test c x && k s'
      | EmptyString => false
      end
  | Star c => star_match (class_test c) k s
  | End => match s with EmptyString => k s | String _ _ => false end
  | Seq a b => rmatch a s (fun s' => rmatch b s' k)
  | Alt a b => rmatch a s k || rmatch b s k
  end.

(** [s.match(r)] is not null: [r] matches from some position of [s]. *)
Fixpoint regex_test (r : Regex) (s : string) : bool :=
  rmatch r s (fun _ => true) ||
  match s with
  | EmptyString => false
  | String _ s' => regex_test r s'
  end.

Definition two_stars : Regex := Seq (Chr (Lit "*")) (Chr (Lit "*")).

(** [pathStarsRegex]: after [.*], one of [\*\*[^/].*], [\*\*$] and
    [[^/]\*\*.*]. *)
Definition pathStarsRegex : Regex :=
  Seq (Star Dot)
      (Alt (Seq two_stars (Seq (Chr (NoneOf ["/"%char])) (Star Dot)))
           (Alt (Seq two_stars End)
                (Seq (Chr (NoneOf ["/"%char])) (Seq two_stars (Star Dot))))).

(** [filterPatternCharactersRegex]: [.*], one of the characters
    [? + [ ] !], then [.*]. *)
Definition filterPatternCharactersRegex : Regex :=
  Seq (Star Dot)
      (Seq (Chr (OneOf ["?"; "+"; "["; "]"; "!"]%char)) (Star Dot)).

Definition getConfigFilePropertyError (configFile property error : string)
  : string :=
  "The configuration file " +:+ dquote +:+ configFile +:+ dquote +:+
  " is invalid: property " +:+ dquote +:+ property +:+ dquote +:+ " " +:+
  error.

(** [while (path.charAt(0) === '/') path = path.substring(1)] *)
Fixpoint strip_leading_slashes (path : string) : string :=
  match path with
  | String c path' =>
      if Ascii.eqb c "/" then strip_leading_slashes path' else path
  | EmptyString => path
  end.

Definition backslash : ascii := ascii_of_nat 92.

(** [s.indexOf(c)], for a character [c] *)
Fixpoint indexOf (s : string) (c : ascii) : Z :=
  match s with
  | EmptyString => -1
  | String x s' =>
      if Ascii.eqb x c then 0
      else let i := indexOf s' c in if i =? -1 then -1 else i + 1
  end.

Definition empty_path_error (originalPath : string) : string :=
  dquote +:+ originalPath +:+ dquote +:+ " is not an invalid path. " +:+
  "It is not necessary to include it, and it is not allowed to exclude it.".

Definition invalid_stars_error (originalPath : string) : string :=
  dquote +:+ originalPath +:+ dquote +:+ " contains an invalid " +:+ dquote +:+
  "**" +:+ dquote +:+ " wildcard. " +:+
  "They must be immediately preceeded and followed by a slash as in " +:+
  dquote +:+ "/**/" +:+ dquote +:+ ", or come at the start or end.".

Definition unsupported_character_error (originalPath : string) : string :=
  dquote +:+ originalPath +:+ dquote +:+ " contains an unsupported character. " +:+
  "The filter pattern characters ?, +, [, ], ! are not supported and will be matched literally.".

Definition backslash_error (originalPath : string) : string :=
  dquote +:+ originalPath +:+ dquote +:+ " contains an " +:+ dquote +:+
  String backslash EmptyString +:+ dquote +:+
  " character. These are not allowed in filters. " +:+
  "If running on windows we recommend using " +:+ dquote +:+ "/" +:+ dquote +:+
  " instead for path filters.".

(** [validateAndSanitisePath]: the warnings given to [core.warning], and
    the path or the error. *)
Definition validateAndSanitisePath (originalPath propertyName configFile : string)
  : list string * Outcome string :=
  let path := strip_leading_slashes originalPath in
  let path :=
    if ends_with path "/**"
    then String.substring 0 (String.length path - 2) path
    else path in
  if String.eqb path "" then
    ([], Throw (Error (getConfigFilePropertyError configFile propertyName
                         (empty_path_error originalPath))))
  else if regex_test pathStarsRegex path then
    ([], Throw (Error (getConfigFilePropertyError configFile propertyName
                         (invalid_stars_error originalPath))))
  else
    let warnings :=
      if regex_test filterPatternCharactersRegex path
      then [getConfigFilePropertyError configFile propertyName
              (unsupported_character_error originalPath)]
      else [] in
    if negb (indexOf path backslash =? -1) then
      (warnings,
       Throw (Error (getConfigFilePropertyError configFile propertyName
                       (backslash_error originalPath))))
    else (warnings, Return path).

(** ** src/upload-lib.ts: the languages of the repository *)

(** The names that every object inherits from [Object.prototype]: the [in]
    operator finds them in [codeqlLanguages] too. *)
Definition Object_prototype_names : list string :=
  ["constructor"; "__defineGetter__"; "__defineSetter__"; "hasOwnProperty";
   "__lookupGetter__"; "__lookupSetter__"; "isPrototypeOf";
   "propertyIsEnumerable"; "toString"; "valueOf"; "__proto__";
   "toLocaleString"].

Definition codeqlLanguages : list (string * string) :=
  [("C", "cpp"); ("C++", "cpp"); ("C#", "csharp"); ("Go", "go");
   ("Java", "java"); ("JavaScript", "javascript");
   ("TypeScript", "javascript"); ("Python", "python")].

(** A member of the set of languages: a language, or what an inherited
    name stands for. *)
Inductive LangValue :=
| Lang (l : string)
| Inherited (name : string).

Definition LangValue_eqb (a b : LangValue) : bool :=
  match a, b with
  | Lang x, Lang y => String.eqb x y
  | Inherited x, Inherited y => String.eqb x y
  | _, _ => false
  end.

(** [lang in codeqlLanguages], and then [codeqlLanguages[lang]] *)
Definition codeqlLanguages_get (lang : string) : option LangValue :=
  match List.find (fun e => String.eqb (fst e) lang) codeqlLanguages with
  | Some e => Some (Lang (snd e))
  | None =>
      if existsb (String.eqb lang) Object_prototype_names
      then Some (Inherited lang)
      else None
  end.

(** [languages.add(x)] on a [Set], kept in insertion order. *)
Definition Set_add (languages : list LangValue) (x : LangValue)
  : list LangValue :=
  if existsb (LangValue_eqb x) languages then languages
  else languages ++ [x].

Definition languages_route : string := "GET /repos/:owner/:repo/languages".

(** [getLanguagesInRepo]: [data_keys] gives the names that [for (let lang
    in response.data)] goes through, in its order. *)
Definition getLanguagesInRepo (data_keys : Response -> list string)
    (h : Host) : M (list LangValue) :=
  let* nwo := getenv "GITHUB_REPOSITORY" in
  match nwo with
  | Some nwo =>
      let repo_nwo := split_slash nwo in
      let* response :=
        request h {| route := languages_route; owner := repo_nwo !! 0%nat;
                     repo := repo_nwo !! 1%nat; body := NoBody |} in
      ret (fold_left
             (fun languages lang =>
                match codeqlLanguages_get lang with
                | Some v => Set_add languages v
                | None => languages
                end)
             (data_keys response) [])
  | None => ret []
  end.

(** ** Vocabulary of the statements *)

(** [st] after the further effects [t]. *)
Definition with_trace (st : State) (t : list Event) : State :=
  {| env := env st; trace := trace st ++ t;
     failed := failed st; clock_reads := clock_reads st |}.

(** A status in [[500, 600)]. *)
Definition is_5xx (s : option Z) : bool :=
  match s with
  | Some c => (500 <=? c) && (c <? 600)
  | None => false
  end.

(** What one answer to the upload request leads to. *)
Definition upload_outcome (r : Response) : Outcome unit :=
  if rejected r then Throw (http_error r)
  else if bool_decide (status r = Some 202) then Return tt
  else Throw (Error (upload_failed_message r)).

(** Delivery is not short-circuited by test mode and the repository is
    known. *)
Definition delivery_ready (st : State) (nwo : string) : Prop :=
  env st !! "TEST_MODE" ≠ Some "true" ∧
  env st !! "GITHUB_REPOSITORY" = Some nwo ∧ nwo ≠ "".

Definition upload_request (nwo : string) (payload : Body) : Request :=
  {| route := upload_route; owner := split_slash nwo !! 0%nat;
     repo := split_slash nwo !! 1%nat; body := payload |}.

(** The answer to the [i]-th request made from [st] on. *)
Definition response_at (h : Host) (st : State) (req : Request) (i : nat)
  : Response :=
  server h (length (requests_of (trace st)) + i) req.

Definition sum_list (l : list Z) : Z := foldr Z.add 0 l.

(** The environment after the exports among the events [t]. *)
Definition apply_event (e : gmap string string) (ev : Event)
  : gmap string string :=
  match ev with
  | EvExport k v => <[k := v]> e
  | _ => e
  end.

Definition apply_exports (t : list Event) (e : gmap string string)
  : gmap string string :=
  fold_left apply_event t e.

(** Every export among [t], run from the environment [e], writes a key
    that is absent at that moment. *)
Fixpoint write_once (e : gmap string string) (t : list Event) : Prop :=
  match t with
  | [] => True
  | EvExport k v :: t' => e !! k = None ∧ write_once (<[k := v]> e) t'
  | _ :: t' => write_once e t'
  end.

(** A run from [st] to [st'] that only reads the environment. *)
Definition silent (st st' : State) : Prop :=
  env st' = env st ∧
  ∃ t, trace st' = (trace st ++ t)%list ∧ exports_of t = [].

(** A run from [st] to [st'] whose writes to the environment are its
    exports, each to a key found absent. *)
Definition write_once_run (st st' : State) : Prop :=
  ∃ t, trace st' = (trace st ++ t)%list ∧
       env st' = apply_exports t (env st) ∧
       write_once (env st) t.

(** The sentinel flag is set: the test that [uploadFiles] makes. *)
Definition sentinel_set (st : State) : Prop :=
  ∃ v, env st !! sentinelEnvVar = Some v ∧ v ≠ "".

(** The workflow-metadata lookups among the events [t]: one per request
    that carries a run id, the first of the two that a lookup makes. *)
Definition is_lookup (r : Request) : bool :=
  match body r with RunIdBody _ => true | _ => false end.

Definition lookups_of (t : list Event) : list Request :=
  List.filter is_lookup (requests_of t).

(** The two requests of a workflow lookup, and a server that answers
    both when they are made from [st]. *)
Definition lookup_request (h : Host) (nwo run_id : string) : Request :=
  {| route := runs_route; owner := split_slash nwo !! 0%nat;
     repo := split_slash nwo !! 1%nat; body := RunIdBody (Number h run_id) |}.

Definition workflow_request (url : option string) : Request :=
  {| route := "GET " +:+ str_undef url; owner := None; repo := None;
     body := NoBody |}.

Definition lookups_answered (h : Host) (st : State) : Prop :=
  ∀ nwo run_id,
    env st !! "GITHUB_REPOSITORY" = Some nwo →
    env st !! "GITHUB_RUN_ID" = Some run_id →
    let answer := response_at h st (lookup_request h nwo run_id) 0 in
    rejected answer = false ∧
    rejected (response_at h st
                (workflow_request (data_workflow_url answer)) 1) = false.

(** The variables that the runner gives to every step of a job are set. *)
Definition set_in (st : State) (key : string) : Prop :=
  ∃ v, env st !! key = Some v ∧ v ≠ "".

Definition job_ready (st : State) : Prop :=
  set_in st "GITHUB_REF" ∧ set_in st "GITHUB_REPOSITORY" ∧
  set_in st "GITHUB_RUN_ID" ∧ set_in st "GITHUB_JOB".

Definition status_request (nwo : string) (report : StatusReport) : Request :=
  {| route := status_route; owner := split_slash nwo !! 0%nat;
     repo := split_slash nwo !! 1%nat; body := StatusBody report |}.

(** A job in which an earlier step left the sentinel variable defined but
    empty. *)
Definition stale_sentinel_state : State :=
  state_of (("CODEQL_UPLOAD_SARIF", "") :: job_env).

(** The file [f] holds a result document with version [v] and runs
    [rs]. *)
Definition holds_document (h : Host) (f : string) (d : string * list Run)
  : Prop :=
  files h f = Some (Json {| version := VString (fst d); runs := Some (snd d) |}).

(** A report of a failed upload. *)
Definition failure_report : StatusReport :=
  {| sr_workflow_run_id := Some 42;
     sr_workflow_name := "CodeQL";
     sr_job_name := "analyze";
     sr_analysis_key := ".github/workflows/codeql.yml:analyze";
     sr_commit_oid := "5e7a1c0ffee";
     sr_ref := "refs/heads/main";
     sr_action_name := "upload-sarif";
     sr_action_oid := "unknown";
     sr_started_at := "2020-06-01T12:00:00.000Z";
     sr_action_started_at := "2020-06-01T12:00:00.000Z";
     sr_status := "failure";
     sr_cause := Some "Upload failed";
     sr_exception := None;
     sr_completed_at := Some "2020-06-01T12:00:30.000Z";
     sr_matrix_vars := None |}.

(** The driver name of a run, when it has one that is a string. *)
Definition driver_name (r : Run) : option string :=
  match tool r with
  | Some t => match driver t with
              | Some d => name d
              | None => None
              end
  | None => None
  end.

(** The driver names of the runs, in the order of the runs. *)
Definition driver_names (rs : list Run) : list string := omap driver_name rs.

(** [l] without repetitions: each element stays where it first appears. *)
Fixpoint first_appearances (l : list string) : list string :=
  match l with
  | [] => []
  | x :: l' =>
      x :: List.filter (fun y => negb (String.eqb y x)) (first_appearances l')
  end.

(** A name is kept when it is not empty and is not [__proto__]. *)
Definition kept_name (n : string) : bool :=
  negb (String.eqb n "") && negb (String.eqb n "__proto__").

Definition is_index (n : string) : bool := is_Some_b (array_index n).

Definition index_value (n : string) : N := default 0%N (array_index n).

Definition mem (k : string) (ks : list string) : bool :=
  existsb (fun x => String.eqb x k) ks.

(** The payloads sent among the events [t]. *)
Definition payloads_of (t : list Event) : list UploadPayload :=
  omap (fun e => match e with
                 | EvRequest r => match body r with
                                  | PayloadBody p => Some p
                                  | _ => None
                                  end
                 | _ => None
                 end) t.

(** Pull-request refs. *)
Definition all_digits (s : string) : bool :=
  forallb is_digit (list_ascii_of_string s).

Definition pull_merge_ref (n : string) : string :=
  "refs/pull/" +:+ n +:+ "/merge".

Definition pull_head_ref (n : string) : string :=
  "refs/pull/" +:+ n +:+ "/head".

(** A job that runs on a push to the branch [refs/pull/1/merge]. *)
Definition branch_push_state : State :=
  state_of [("GITHUB_REF", "refs/heads/refs/pull/1/merge")].

(** Two files of different versions; the schema of [test_host] rejects
    the second. *)
Definition mixed_files : list (string * Text) :=
  [("a.sarif", doc "2.1.0" ["ESLint"]); ("c.sarif", doc "2.0.0" ["CodeQL"])].

(** The file [f] holds a JSON object whose [runs] member is the array
    [rs]. *)
Definition file_runs (h : Host) (f : string) (rs : list Run) : Prop :=
  ∃ v, files h f = Some (Json {| version := v; runs := Some rs |}).

(** The number of results of a run that has a [results] array. *)
Definition run_results_count (r : Run) : Z :=
  Z.of_nat (length (default [] (results r))).

Definition has_results (r : Run) : Prop := is_Some (results r).

(** A run of the tool [n] with [k] results. *)
Definition run_of (n : string) (k : nat) : Run :=
  {| tool := Some {| driver := Some {| name := Some n |} |};
     results := Some (replicate k "{}") |}.

(** Two files, with 3 and 5 results. *)
Definition counted_files : list (string * Text) :=
  [("a.sarif", Json {| version := VString "2.1.0";
                       runs := Some [run_of "ESLint" 3] |});
   ("b.sarif", Json {| version := VString "2.1.0";
                       runs := Some [run_of "CodeQL" 2; run_of "ESLint" 3] |})].

(** A disk with one directory, [results], of the given entries. *)
Definition results_dir (entries : list string) : Disk :=
  {| lstat_isDirectory := fun p =>
       if String.eqb p "results" then Return true
       else if String.eqb p "a.sarif" then Return false
       else Throw (SystemError "ENOENT" p);
     readdirSync := fun p =>
       if String.eqb p "results" then Return entries
       else Throw (SystemError "ENOTDIR" p);
     path_resolve := fun p f => "/work/" +:+ p +:+ "/" +:+ f |}.

(** [s] has a [**] that ends the string, or is followed by a character
    other than a slash, or is preceded by one. *)
Definition misplaced_stars (s : string) : Prop :=
  ∃ a b, s = a +:+ "**" +:+ b ∧
    (b = "" ∨
     (∃ c b', b = String c b' ∧ c ≠ "/"%char) ∨
     (∃ a' c, a = a' +:+ String c "" ∧ c ≠ "/"%char)).

Definition has_char (s : string) (c : ascii) : Prop :=
  In c (list_ascii_of_string s).

Definition only_slashes (s : string) : bool :=
  forallb (fun c => Ascii.eqb c "/") (list_ascii_of_string s).

(** [n] slashes. *)
Fixpoint slashes (n : nat) : string :=
  match n with
  | O => ""
  | S n' => String "/" (slashes n')
  end.

(** A machine with the given processors and memory, that reads decimal
    numerals and the word [Infinity]. *)
Definition test_os (cpus : nat) (memory : N) : Os :=
  {| cpus_length := cpus;
     totalmem := memory;
     ToNumber := fun s =>
       if String.eqb s "Infinity" then Infinity false
       else match decimal s with
            | Some n => Num (inject_Z n)
            | None => NaN
            end;
     ToString := fun a =>
       match a with
       | NaN => "NaN"
       | Infinity negative => if negative then "-Infinity" else "Infinity"
       | Num q => pretty (Qfloor q)
       end |}.

(** A host whose inputs are the given ones. *)
Definition host_with_inputs (inputs : list (string * string)) : Host :=
  {| server := server (test_host [] []);
     files := files (test_host [] []);
     schema_errors := schema_errors (test_host [] []);
     addFingerprints := addFingerprints (test_host [] []);
     gzip_base64 := gzip_base64 (test_host [] []);
     text_length := text_length (test_host [] []);
     getInput := fun k =>
       default "" (snd <$> List.find (fun e => String.eqb (fst e) k) inputs);
     git_rev_parse_head := git_rev_parse_head (test_host [] []);
     fileUrl := fileUrl (test_host [] []);
     clock := clock (test_host [] []);
     Number := Number (test_host [] []);
     parseInt10 := parseInt10 (test_host [] []);
     CODEQL_ACTION_ANALYSIS_KEY := CODEQL_ACTION_ANALYSIS_KEY (test_host [] []);
     CODEQL_WORKFLOW_STARTED_AT := CODEQL_WORKFLOW_STARTED_AT (test_host [] []) |}.

(** The values of [l] without repetitions: each stays where it first
    appears. *)
Fixpoint first_values (l : list LangValue) : list LangValue :=
  match l with
  | [] => []
  | x :: l' =>
      x :: List.filter (fun y => negb (LangValue_eqb y x)) (first_values l')
  end.

(** The host [h] with the schema validator [f] in place of its own. *)
Definition with_schema_errors (h : Host) (f : SarifObject → list string)
  : Host :=
  {| server := server h; files := files h; schema_errors := f;
     addFingerprints := addFingerprints h; gzip_base64 := gzip_base64 h;
     text_length := text_length h; getInput := getInput h;
     git_rev_parse_head := git_rev_parse_head h; fileUrl := fileUrl h;
     clock := clock h; Number := Number h; parseInt10 := parseInt10 h;
     CODEQL_ACTION_ANALYSIS_KEY := CODEQL_ACTION_ANALYSIS_KEY h;
     CODEQL_WORKFLOW_STARTED_AT := CODEQL_WORKFLOW_STARTED_AT h |}.

(** The validator [f] rules as that of [h] does on the document of every
    file of [sarifFiles]. *)
Definition agrees_on_files (h : Host) (f : SarifObject → list string)
    (sarifFiles : list string) : Prop :=
  ∀ file o, file ∈ sarifFiles → files h file = Some (Json o) →
            f o = schema_errors h o.

(** The steps of [uploadFiles] between the validation and the merge
    succeed from [st], the analysis key leaves the state [s1], and the
    delivery is enabled there for the repository [nwo]. *)
Definition prepared (h : Host) (st s1 : State) (nwo : string) : Prop :=
  let s0 := snd (exportVariable sentinelEnvVar sentinelEnvVar st) in
  (∃ oid, getCommitOid h s0 = (Return oid, s0)) ∧
  (∃ rid wid, env s0 !! "GITHUB_RUN_ID" = Some rid ∧ rid ≠ "" ∧
              parseInt10 h rid = Some wid) ∧
  (∃ ref, getRef s0 = (Return ref, s0)) ∧
  (∃ key, getAnalysisKey h s0 = (Return key, s1)) ∧
  set_in s1 "GITHUB_WORKFLOW" ∧
  delivery_ready s1 nwo.

(** A validator that accepts a document of at most two runs. *)
Definition two_runs_errors (o : SarifObject) : list string :=
  if (length (default [] (runs o)) <=? 2)%nat then []
  else ["instance.runs does not meet maximum length of 2"].

(** ** The monad and the primitive effects *)

Lemma bind_ret_snd {A B} (m : M A) (x : B) st :
  snd ((m >> ret x) st) = snd (m st).
Proof. unfold bind, ret. by destruct (m st) as [[a|e] s]. Qed.

Lemma with_trace_nil st : with_trace st [] = st.
Proof. destruct st; unfold with_trace; simpl. by rewrite app_nil_r. Qed.

Lemma with_trace_app st t1 t2 :
  with_trace (with_trace st t1) t2 = with_trace st (t1 ++ t2).
Proof. unfold with_trace; simpl. by rewrite app_assoc. Qed.

Lemma requests_of_app t1 t2 :
  requests_of (t1 ++ t2) = (requests_of t1 ++ requests_of t2)%list.
Proof. unfold requests_of. apply omap_app. Qed.

Lemma sleeps_of_app t1 t2 :
  sleeps_of (t1 ++ t2) = (sleeps_of t1 ++ sleeps_of t2)%list.
Proof. unfold sleeps_of. apply omap_app. Qed.

Lemma exports_of_app t1 t2 :
  exports_of (t1 ++ t2) = (exports_of t1 ++ exports_of t2)%list.
Proof. unfold exports_of. apply omap_app. Qed.

Lemma request_eq h r st :
  request h r st =
  (if rejected (response_at h st r 0)
   then Throw (http_error (response_at h st r 0))
   else Return (response_at h st r 0),
   with_trace st [EvRequest r]).
Proof. unfold request, response_at. by rewrite Nat.add_0_r. Qed.

Lemma response_at_shift h st r req i :
  response_at h (with_trace st [EvRequest r]) req i =
  response_at h st req (S i).
Proof.
  unfold response_at. simpl. rewrite requests_of_app, length_app. simpl.
  f_equal. lia.
Qed.

Lemma getRequiredEnvParam_set p v st :
  env st !! p = Some v → v ≠ "" →
  getRequiredEnvParam p st = (Return v, st).
Proof.
  intros Hv Hne. unfold getRequiredEnvParam, bind, getenv. rewrite Hv.
  by apply String.eqb_neq in Hne as ->.
Qed.

(** ** The client: which answers it rejects *)

Lemma rejected_spec r :
  rejected r = true ↔
  status r = None ∨ status r = Some 304 ∨ ∃ c, status r = Some c ∧ 400 ≤ c.
Proof.
  unfold rejected. destruct (status r) as [c|]; [|by split; [left|]].
  rewrite orb_true_iff, Z.eqb_eq, Z.leb_le. split.
  - intros [->|H]; [by right; left|]. right; right. by exists c.
  - intros [?|[[= ->]|(c' & [= <-] & H)]]; [done|by left|by right].
Qed.

Lemma is_5xx_rejected r : is_5xx (status r) = true → rejected r = true.
Proof.
  intros H. apply rejected_spec. destruct (status r) as [c|]; [|by left].
  simpl in H. apply andb_true_iff in H as [H _]. apply Z.leb_le in H.
  right; right. exists c. split; [done|lia].
Qed.

Lemma not_rejected_status r :
  rejected r = false → ∃ c, status r = Some c ∧ c < 400 ∧ c ≠ 304.
Proof.
  unfold rejected. destruct (status r) as [c|]; [|done].
  rewrite orb_false_iff, Z.eqb_neq, Z.leb_gt. intros [? ?]. exists c.
  repeat split; [lia|done].
Qed.

(** ** Delivery: the loop of [uploadPayload] *)

Lemma not_is_5xx s : is_5xx s = false → not_5xx s = true.
Proof.
  destruct s as [c|]; simpl; [|done]. intros H.
  apply andb_false_iff in H as [H|H].
  - apply Z.leb_gt in H. apply orb_true_iff. left. apply orb_true_iff. right.
    apply Z.ltb_lt. lia.
  - apply Z.ltb_ge in H. apply orb_true_iff. right.
    rewrite Z.geb_leb. apply Z.leb_le. lia.
Qed.

Lemma not_rejected_not_5xx r : rejected r = false → not_5xx (status r) = true.
Proof.
  intros H. apply not_is_5xx. apply not_true_iff_false. intros H5.
  apply is_5xx_rejected in H5. congruence.
Qed.

(** One iteration of the loop is the whole loop: the client rejects the
    answers that the loop would retry, so the iteration either returns or
    throws. *)
Lemma upload_attempts_once h req remaining attempt st :
  upload_attempts h req (S remaining) attempt st =
  (upload_outcome (response_at h st req 0), with_trace st [EvRequest req]).
Proof.
  simpl. unfold bind at 1. rewrite request_eq. unfold upload_outcome.
  destruct (rejected (response_at h st req 0)) eqn:Hrej; [done|].
  destruct (bool_decide _); [done|].
  by rewrite (not_rejected_not_5xx _ Hrej).
Qed.

Lemma uploadPayload_ready h payload st nwo :
  delivery_ready st nwo →
  uploadPayload h payload st =
  upload_attempts h (upload_request nwo payload) 4 0 st.
Proof.
  intros (Ht & Hr & Hne). unfold uploadPayload, bind at 1, getenv.
  rewrite bool_decide_eq_false_2 by done.
  unfold bind. by rewrite (getRequiredEnvParam_set _ nwo).
Qed.

(** With delivery enabled, [uploadPayload] is one request. *)
Lemma uploadPayload_once h payload st nwo :
  delivery_ready st nwo →
  uploadPayload h payload st =
  (upload_outcome (response_at h st (upload_request nwo payload) 0),
   with_trace st [EvRequest (upload_request nwo payload)]).
Proof.
  intros Hready. rewrite (uploadPayload_ready _ _ _ _ Hready).
  apply upload_attempts_once.
Qed.

Lemma getRequiredEnvParam_state p st : snd (getRequiredEnvParam p st) = st.
Proof.
  unfold getRequiredEnvParam, bind, getenv.
  destruct (env st !! p) as [v|]; [|done]. by destruct (String.eqb v "").
Qed.

(** C1.  [uploadPayload] is to retry an answer in [[500, 600)] after a
    sleep of 1 s, 5 s or 15 s, up to four attempts.  It does not: the
    client rejects such an answer, the call of [request] is not inside a
    [try], and so the first answer in [[500, 600)] ends [uploadPayload]
    with the client's error, after one request and without any sleep.  On
    the answers 503, 503, 202, which are to give success after sleeps of
    1 s and 5 s, the upload fails at the first. *)
Theorem uploadPayload_gives_up_on_5xx :
  (∀ (h : Host) (payload : Body) (st : State) (nwo : string),
     delivery_ready st nwo →
     let req := upload_request nwo payload in
     let r := response_at h st req 0 in
     is_5xx (status r) = true →
     uploadPayload h payload st =
     (Throw (HttpError (status r) (x_github_request_id r) (data r)),
      with_trace st [EvRequest req])) ∧
  delivery_ready (state_of job_env) "octo/demo" ∧
  uploadPayload (test_host [503; 503; 202] []) NoBody (state_of job_env) =
  (Throw (HttpError (Some 503) (Some "F00D") "{}"),
   with_trace (state_of job_env)
     [EvRequest (upload_request "octo/demo" NoBody)]).
Proof.
  split; [|split].
  - intros h payload st nwo Hready req r H5.
    rewrite (uploadPayload_once _ _ _ _ Hready). fold req. fold r.
    unfold upload_outcome. by rewrite (is_5xx_rejected _ H5).
  - repeat split; vm_compute; congruence.
  - reflexivity.
Qed.

(** C3. When delivery is enabled, a first answer whose status is neither
    202 nor in [[500, 600)], an absent status included, makes
    [uploadPayload] throw at once: the request is its only effect, nothing
    is retried and nothing is slept.  The error carries the status, the
    request id and the body of the answer; it is the client's own error
    when the client rejects the answer (no status, 304, or 400 and more),
    and the error that [uploadPayload] builds otherwise.  A 404 on the first
    attempt leaves one request and no sleep. *)
Theorem uploadPayload_fails_fast (h : Host) (payload : Body) (st : State)
    (nwo : string) :
  delivery_ready st nwo →
  let req := upload_request nwo payload in
  let r := response_at h st req 0 in
  (status r ≠ Some 202 → is_5xx (status r) = false →
   ∃ e, uploadPayload h payload st =
          (Throw e, with_trace st [EvRequest req]) ∧
        ((rejected r = true ∧
          e = HttpError (status r) (x_github_request_id r) (data r)) ∨
         (rejected r = false ∧
          e = Error ("Upload failed (" +:+ str_undef (x_github_request_id r)
                     +:+ "): (" +:+ str_status (status r) +:+ ") " +:+
                     data r)))) ∧
  (rejected r = true ↔
   status r = None ∨ status r = Some 304 ∨ ∃ c, status r = Some c ∧ 400 ≤ c) ∧
  (status r = Some 404 →
   fst (uploadPayload h payload st) =
     Throw (HttpError (Some 404) (x_github_request_id r) (data r)) ∧
   trace (snd (uploadPayload h payload st)) = (trace st ++ [EvRequest req])%list).
Proof.
  intros Hready req r.
  rewrite (uploadPayload_once _ _ _ _ Hready). fold req. fold r.
  split; [|split; [apply rejected_spec|]].
  - intros Hn202 _. unfold upload_outcome.
    destruct (rejected r) eqn:Hrej.
    + eexists. split; [reflexivity|]. by left.
    + rewrite bool_decide_eq_false_2 by done.
      eexists. split; [reflexivity|]. by right.
  - intros H404. unfold upload_outcome, rejected, http_error.
    rewrite H404. simpl. done.
Qed.

(** C3 at work: a 404 on the first attempt. *)
Lemma uploadPayload_fails_fast_witness :
  uploadPayload (test_host [404] []) NoBody (state_of job_env) =
  (Throw (HttpError (Some 404) (Some "F00D") "{}"),
   with_trace (state_of job_env)
     [EvRequest (upload_request "octo/demo" NoBody)]).
Proof.
  destruct (uploadPayload_fails_fast (test_host [404] []) NoBody
              (state_of job_env) "octo/demo") as (Hgen & _ & _).
  - repeat split; vm_compute; congruence.
  - destruct Hgen as (e & Hrun & [[_ He]|[Hrej _]]).
    + vm_compute. congruence.
    + reflexivity.
    + rewrite Hrun, He. reflexivity.
    + vm_compute in Hrej. discriminate Hrej.
Defined.

(** ** Footprints: what a run may do to the environment and the trace *)

Lemma apply_exports_app t1 t2 e :
  apply_exports (t1 ++ t2) e = apply_exports t2 (apply_exports t1 e).
Proof. unfold apply_exports. apply fold_left_app. Qed.

Lemma write_once_app t1 t2 e :
  write_once e (t1 ++ t2) ↔
  write_once e t1 ∧ write_once (apply_exports t1 e) t2.
Proof.
  revert e. induction t1 as [|ev t1 IH]; intros e; simpl.
  - tauto.
  - destruct ev; simpl; rewrite ?IH; tauto.
Qed.

Lemma apply_exports_silent t e : exports_of t = [] → apply_exports t e = e.
Proof.
  revert e. induction t as [|ev t IH]; intros e H; [done|].
  destruct ev; simpl in *; try done; by apply IH.
Qed.

Lemma write_once_silent t e : exports_of t = [] → write_once e t.
Proof.
  revert e. induction t as [|ev t IH]; intros e H; [done|].
  destruct ev; simpl in *; try done; by apply IH.
Qed.

(** Under [write_once] a stored value stays, and its key is not exported
    again. *)
Lemma write_once_keeps t :
  ∀ e k v, write_once e t → e !! k = Some v →
    apply_exports t e !! k = Some v ∧ ∀ v', EvExport k v' ∉ t.
Proof.
  induction t as [|ev t IH]; intros e k v Hw Hk; simpl.
  - split; [done|]. intros v' H. by apply elem_of_nil in H.
  - destruct ev as [r|ms|k0 v0]; simpl in Hw.
    + destruct (IH e k v Hw Hk) as [H1 H2]. split; [done|].
      intros v' H. apply elem_of_cons in H as [H|H]; [done|]. by eapply H2.
    + destruct (IH e k v Hw Hk) as [H1 H2]. split; [done|].
      intros v' H. apply elem_of_cons in H as [H|H]; [done|]. by eapply H2.
    + destruct Hw as [Hnone Hw].
      assert (k0 ≠ k) as Hne by (intros ->; congruence).
      destruct (IH (<[k0:=v0]> e) k v Hw) as [H1 H2].
      { by rewrite lookup_insert_ne. }
      split; [done|].
      intros v' H. apply elem_of_cons in H as [H|H]; [congruence|].
      by eapply H2.
Qed.

Lemma silent_refl st : silent st st.
Proof. split; [done|]. exists []. by rewrite app_nil_r. Qed.

Lemma silent_trans st1 st2 st3 : silent st1 st2 → silent st2 st3 → silent st1 st3.
Proof.
  intros [He1 (t1 & Ht1 & Hx1)] [He2 (t2 & Ht2 & Hx2)]. split; [congruence|].
  exists (t1 ++ t2)%list. rewrite Ht2, Ht1, <- app_assoc. split; [done|].
  by rewrite exports_of_app, Hx1, Hx2.
Qed.

Lemma silent_write_once st st' : silent st st' → write_once_run st st'.
Proof.
  intros [He (t & Ht & Hx)]. exists t. split; [done|].
  rewrite apply_exports_silent by done. split; [done|].
  by apply write_once_silent.
Qed.

Lemma write_once_run_refl st : write_once_run st st.
Proof. apply silent_write_once, silent_refl. Qed.

Lemma write_once_run_trans st1 st2 st3 :
  write_once_run st1 st2 → write_once_run st2 st3 → write_once_run st1 st3.
Proof.
  intros (t1 & Ht1 & He1 & Hw1) (t2 & Ht2 & He2 & Hw2).
  exists (t1 ++ t2)%list. rewrite Ht2, Ht1, <- app_assoc. split; [done|].
  rewrite apply_exports_app, <- He1. split; [done|].
  apply write_once_app. by rewrite <- He1.
Qed.

Lemma write_once_run_keeps st st' k v :
  write_once_run st st' → env st !! k = Some v → env st' !! k = Some v.
Proof.
  intros (t & Ht & He & Hw) Hk. rewrite He.
  by apply (write_once_keeps t (env st) k v).
Qed.

Lemma silent_with_trace st t : exports_of t = [] → silent st (with_trace st t).
Proof. intros H. split; [done|]. by exists t. Qed.

(** An export to an absent key. *)
Lemma exportVariable_write_once k v st :
  env st !! k = None → write_once_run st (snd (exportVariable k v st)).
Proof. intros H. exists [EvExport k v]. simpl. done. Qed.

Lemma getRequiredEnvParam_inv p st o st' :
  getRequiredEnvParam p st = (o, st') →
  st' = st ∧
  match o with
  | Return v => env st !! p = Some v ∧ v ≠ ""
  | Throw e => e = Error (p +:+ " environment variable must be set")
  end.
Proof.
  unfold getRequiredEnvParam, bind, getenv.
  destruct (env st !! p) as [v|] eqn:Hv.
  - destruct (String.eqb v "") eqn:Hb; intros [= <- <-]; split; try done.
    split; [done|]. by apply String.eqb_neq.
  - by intros [= <- <-].
Qed.

Lemma getRef_state st : snd (getRef st) = st.
Proof.
  unfold getRef, bind.
  pose proof (getRequiredEnvParam_state "GITHUB_REF" st) as H.
  destruct (getRequiredEnvParam "GITHUB_REF" st) as [[v|e] st']; simpl in H;
    subst; [|done].
  by destruct (pull_ref_test v).
Qed.

Lemma getCommitOid_state h st : snd (getCommitOid h st) = st.
Proof.
  unfold getCommitOid.
  destruct (git_rev_parse_head h); [done|].
  apply getRequiredEnvParam_state.
Qed.

(** [getWorkflowPath] makes no request when the environment is incomplete;
    otherwise it makes the first, and the second unless the client rejects
    the first answer. *)
Lemma getWorkflowPath_inv h st o st' :
  getWorkflowPath h st = (o, st') →
  (∃ e, o = Throw e ∧ st' = st) ∨
  (∃ r1, is_lookup r1 = true ∧
     ((∃ e, o = Throw e ∧ st' = with_trace st [EvRequest r1]) ∨
      (∃ r2, is_lookup r2 = false ∧
             st' = with_trace st [EvRequest r1; EvRequest r2]))).
Proof.
  unfold getWorkflowPath, bind at 1.
  destruct (getRequiredEnvParam "GITHUB_REPOSITORY" st) as [[nwo|e] s1] eqn:H1;
    apply getRequiredEnvParam_inv in H1 as [-> H1];
    [|intros [= <- <-]; left; eauto].
  unfold bind at 1.
  destruct (getRequiredEnvParam "GITHUB_RUN_ID" st) as [[rid|e] s2] eqn:H2;
    apply getRequiredEnvParam_inv in H2 as [-> H2];
    [|intros [= <- <-]; left; eauto].
  unfold bind at 1. rewrite request_eq.
  match goal with |- context [with_trace st [EvRequest ?a]] =>
    set (r1 := a) end.
  destruct (rejected (response_at h st r1 0)).
  { intros [= <- <-]. right. exists r1. split; [done|]. left. eauto. }
  unfold bind. rewrite request_eq.
  match goal with |- context [with_trace _ [EvRequest ?b]] =>
    match b with r1 => fail 1 | _ => set (r2 := b) end end.
  intros Hrun. right. exists r1. split; [done|]. right. exists r2.
  split; [done|]. rewrite with_trace_app in Hrun. simpl app in Hrun.
  by destruct (rejected _); injection Hrun as <- <-.
Qed.

(** [getAnalysisKey] returns the cached key untouched, or looks the
    workflow up once and caches the key it computes. *)
Lemma getAnalysisKey_inv h st o st' :
  getAnalysisKey h st = (o, st') →
  match env st !! CODEQL_ACTION_ANALYSIS_KEY h with
  | Some key => o = Return key ∧ st' = st
  | None =>
      ∃ t, exports_of t = [] ∧ (length (lookups_of t) ≤ 1)%nat ∧
        ((∃ e, o = Throw e ∧ st' = with_trace st t) ∨
         (∃ key, o = Return key ∧ length (lookups_of t) = 1%nat ∧
            st' = snd (exportVariable (CODEQL_ACTION_ANALYSIS_KEY h) key
                         (with_trace st t))))
  end.
Proof.
  unfold getAnalysisKey, bind at 1, getenv.
  destruct (env st !! CODEQL_ACTION_ANALYSIS_KEY h) as [key|] eqn:Hk.
  - by intros [= <- <-].
  - unfold bind at 1.
    destruct (getWorkflowPath h st) as [[p|e] s1] eqn:H1;
      apply getWorkflowPath_inv in H1
        as [(e' & He & ->)|
            (r1 & Hr1 & [(e' & He & ->)|(r2 & Hr2 & ->)])];
      try discriminate.
    + unfold bind at 1.
      destruct (getRequiredEnvParam "GITHUB_JOB" _) as [[job|e] s2] eqn:H2;
        apply getRequiredEnvParam_inv in H2 as [-> H2].
      * unfold bind. simpl. intros [= <- <-].
        exists [EvRequest r1; EvRequest r2]. split; [done|]. split.
        { unfold lookups_of. simpl. rewrite Hr1, Hr2. simpl. lia. }
        right. eexists. split; [done|]. split; [|done].
        unfold lookups_of. simpl. by rewrite Hr1, Hr2.
      * intros [= <- <-].
        exists [EvRequest r1; EvRequest r2]. split; [done|]. split.
        { unfold lookups_of. simpl. rewrite Hr1, Hr2. simpl. lia. }
        left. eauto.
    + intros [= <- <-]. exists []. split; [done|]. split; [simpl; lia|].
      left. rewrite with_trace_nil. eauto.
    + intros [= <- <-]. exists [EvRequest r1]. split; [done|]. split.
      { unfold lookups_of. simpl. rewrite Hr1. simpl. lia. }
      left. eauto.
    + intros [= <- <-]. exists [EvRequest r1; EvRequest r2].
      split; [done|]. split.
      { unfold lookups_of. simpl. rewrite Hr1, Hr2. simpl. lia. }
      left. eauto.
Qed.

Lemma getAnalysisKey_write_once h st :
  write_once_run st (snd (getAnalysisKey h st)).
Proof.
  destruct (getAnalysisKey h st) as [o st'] eqn:H.
  apply getAnalysisKey_inv in H. simpl.
  destruct (env st !! CODEQL_ACTION_ANALYSIS_KEY h) eqn:Hk.
  - destruct H as [_ ->]. apply write_once_run_refl.
  - destruct H as (t & Hx & _ & [(e & _ & ->)|(key & _ & _ & ->)]).
    + by apply silent_write_once, silent_with_trace.
    + eapply write_once_run_trans.
      * by apply silent_write_once, silent_with_trace.
      * by apply exportVariable_write_once.
Qed.

(** ** Status reports *)

(** What a report returned by [createStatusReportBase] is made of: the
    analysis key that [getAnalysisKey] returns, and the cached start time
    or, when none is cached, the start time of this action, which is then
    cached. *)
Lemma createStatusReportBase_inv h actionName status started cause exception
    st r st' :
  createStatusReportBase h actionName status started cause exception st =
    (Return r, st') →
  ∃ st1,
    getRef st = (Return (sr_ref r), st) ∧
    getAnalysisKey h st = (Return (sr_analysis_key r), st1) ∧
    match env st1 !! CODEQL_WORKFLOW_STARTED_AT h with
    | Some t =>
        sr_started_at r = t ∧ env st' = env st1 ∧ trace st' = trace st1
    | None =>
        sr_started_at r = toISOString started ∧
        env st' = <[CODEQL_WORKFLOW_STARTED_AT h := toISOString started]> (env st1) ∧
        trace st' =
          (trace st1 ++ [EvExport (CODEQL_WORKFLOW_STARTED_AT h)
                                  (toISOString started)])%list
    end.
Proof.
  unfold createStatusReportBase.
  unfold bind at 1, getenv at 1. unfold bind at 1.
  pose proof (getRef_state st) as Href.
  destruct (getRef st) as [[ref|e] s0]; simpl in Href; subst s0; [|done].
  unfold bind at 1, getenv at 1. unfold bind at 1, getenv at 1.
  unfold bind at 1, getenv at 1. unfold bind at 1.
  destruct (getAnalysisKey h st) as [[key|e] st1]; [|done].
  unfold bind at 1, getenv at 1. unfold bind at 1.
  destruct (env st1 !! CODEQL_WORKFLOW_STARTED_AT h) as [t|] eqn:Hs.
  - unfold ret at 1. unfold bind at 1.
    destruct (is_terminal status); unfold bind, now, ret;
      intros [= <- <-]; exists st1; simpl; rewrite ?Hs; done.
  - unfold bind at 1, exportVariable at 1, ret at 1. unfold bind at 1.
    destruct (is_terminal status); unfold bind, now, ret;
      intros [= <- <-]; exists st1; simpl; rewrite ?Hs; done.
Qed.

Lemma createStatusReportBase_write_once h actionName status started cause
    exception st :
  write_once_run st
    (snd (createStatusReportBase h actionName status started cause exception
            st)).
Proof.
  unfold createStatusReportBase.
  unfold bind at 1, getenv at 1. unfold bind at 1.
  pose proof (getRef_state st) as Href.
  destruct (getRef st) as [[ref|e] s0]; simpl in Href; subst s0;
    [|apply write_once_run_refl].
  unfold bind at 1, getenv at 1. unfold bind at 1, getenv at 1.
  unfold bind at 1, getenv at 1. unfold bind at 1.
  pose proof (getAnalysisKey_write_once h st) as Hkey.
  destruct (getAnalysisKey h st) as [[key|e] st1]; simpl in Hkey; [|done].
  eapply write_once_run_trans; [exact Hkey|].
  unfold bind at 1, getenv at 1. unfold bind at 1.
  destruct (env st1 !! CODEQL_WORKFLOW_STARTED_AT h) as [t|] eqn:Hs.
  - unfold ret at 1. unfold bind at 1.
    destruct (is_terminal status); unfold bind, now, ret; simpl;
      apply silent_write_once; (split; [done|]); exists [];
      by rewrite app_nil_r.
  - unfold bind at 1, exportVariable at 1, ret at 1. unfold bind at 1.
    destruct (is_terminal status); unfold bind, now, ret; simpl;
      exists [EvExport (CODEQL_WORKFLOW_STARTED_AT h) (toISOString started)];
      simpl; done.
Qed.

Lemma sendStatusReport_silent h report ignoreFailures st :
  silent st (snd (sendStatusReport h report ignoreFailures st)).
Proof.
  unfold sendStatusReport, bind at 1.
  pose proof (getRequiredEnvParam_state "GITHUB_REPOSITORY" st) as H.
  destruct (getRequiredEnvParam _ st) as [[nwo|e] s0]; simpl in H; subst s0;
    [|apply silent_refl].
  unfold bind at 1. rewrite request_eq.
  destruct (rejected _); [by apply silent_with_trace|].
  destruct (negb ignoreFailures); [|by apply silent_with_trace].
  repeat (destruct (bool_decide _));
    unfold bind, setFailed, ret; simpl; (split; [done|]);
    by eexists [_].
Qed.

(** With the repository known, [sendStatusReport] is one request: it
    throws the client's error when the client rejects the answer, and
    returns [true] otherwise. *)
Lemma sendStatusReport_once h report ignoreFailures st nwo :
  env st !! "GITHUB_REPOSITORY" = Some nwo → nwo ≠ "" →
  let req := status_request nwo report in
  let r := response_at h st req 0 in
  sendStatusReport h report ignoreFailures st =
  (if rejected r then Throw (http_error r) else Return true,
   with_trace st [EvRequest req]).
Proof.
  intros Hnwo Hne req r. unfold sendStatusReport, bind at 1.
  rewrite (getRequiredEnvParam_set _ nwo) by done.
  unfold bind at 1. fold (status_request nwo report). fold req.
  rewrite request_eq. fold r.
  destruct (rejected r) eqn:Hrej; [done|].
  apply not_rejected_status in Hrej as (c & Hc & Hlt & _). rewrite Hc.
  destruct (negb ignoreFailures); [|done].
  rewrite !bool_decide_eq_false_2; [done| |]; intros [= ->]; lia.
Qed.

(** C7.  [sendStatusReport] is to return [false], and to mark the action
    failed, when failures are not ignored and the endpoint answers 403 or
    404, and to return [true] on every other answer and whenever failures
    are ignored.  It does not: the client rejects an answer of 400 or more,
    the call of [request] is not inside a [try], and so on a 403 or a 404
    [sendStatusReport] throws the client's error in both modes, returns
    nothing and marks nothing; the answers on which it returns are below
    400, and on them it returns [true]. *)
Theorem sendStatusReport_throws_on_403 :
  (∀ (h : Host) (report : StatusReport) (ignoreFailures : bool) (st : State)
     (nwo : string),
     env st !! "GITHUB_REPOSITORY" = Some nwo → nwo ≠ "" →
     let req := status_request nwo report in
     let r := response_at h st req 0 in
     let run := sendStatusReport h report ignoreFailures st in
     (status r = Some 403 ∨ status r = Some 404 →
      run = (Throw (HttpError (status r) (x_github_request_id r) (data r)),
             with_trace st [EvRequest req])) ∧
     (∀ b, fst run = Return b → b = true) ∧
     failed (snd run) = failed st) ∧
  (∀ ignoreFailures,
     sendStatusReport (test_host [403] []) failure_report ignoreFailures
       (state_of job_env) =
     (Throw (HttpError (Some 403) (Some "F00D") "{}"),
      with_trace (state_of job_env)
        [EvRequest (status_request "octo/demo" failure_report)])).
Proof.
  split.
  - intros h report ignoreFailures st nwo Hnwo Hne req r run. subst run.
    rewrite (sendStatusReport_once _ _ _ _ _ Hnwo Hne). fold req. fold r.
    split; [|split].
    + intros H.
      assert (rejected r = true) as ->; [|done].
      apply rejected_spec. right; right.
      destruct H as [H|H]; eexists; (split; [exact H|lia]).
    + intros b. by destruct (rejected r); intros [= <-].
    + done.
  - intros ignoreFailures.
    by rewrite (sendStatusReport_once _ _ _ _ "octo/demo").
Qed.

Lemma set_in_param st p :
  set_in st p → ∃ v, getRequiredEnvParam p st = (Return v, st).
Proof. intros (v & Hv & Hne). exists v. by apply getRequiredEnvParam_set. Qed.

Lemma set_in_keeps st st' p : write_once_run st st' → set_in st p → set_in st' p.
Proof.
  intros Hrun (v & Hv & Hne). exists v. split; [|done].
  by eapply write_once_run_keeps.
Qed.

Lemma getWorkflowPath_answered h st nwo rid :
  env st !! "GITHUB_REPOSITORY" = Some nwo → nwo ≠ "" →
  env st !! "GITHUB_RUN_ID" = Some rid → rid ≠ "" →
  lookups_answered h st →
  ∃ p r2, is_lookup r2 = false ∧
    getWorkflowPath h st =
    (Return p,
     with_trace st [EvRequest (lookup_request h nwo rid); EvRequest r2]).
Proof.
  intros Hnwo Hne Hrid Hne' Hans.
  destruct (Hans nwo rid Hnwo Hrid) as [Ha1 Ha2]. cbv zeta in Ha2.
  unfold getWorkflowPath, bind at 1.
  rewrite (getRequiredEnvParam_set _ nwo) by done.
  unfold bind at 1. rewrite (getRequiredEnvParam_set _ rid) by done.
  unfold bind at 1. rewrite request_eq.
  fold (lookup_request h nwo rid). rewrite Ha1.
  unfold bind at 1. rewrite request_eq, response_at_shift.
  fold (workflow_request
          (data_workflow_url (response_at h st (lookup_request h nwo rid) 0))).
  rewrite Ha2. unfold ret. rewrite with_trace_app. simpl app.
  eexists _, _. split; [|reflexivity]. done.
Qed.

Lemma getAnalysisKey_returns h st :
  job_ready st →
  (env st !! CODEQL_ACTION_ANALYSIS_KEY h = None → lookups_answered h st) →
  ∃ key st', getAnalysisKey h st = (Return key, st').
Proof.
  intros (_ & Hrepo & Hrun & Hjob) Hans.
  unfold getAnalysisKey, bind at 1, getenv.
  destruct (env st !! CODEQL_ACTION_ANALYSIS_KEY h); [by eauto|].
  destruct Hrepo as (nwo & Hnwo & Hne). destruct Hrun as (rid & Hrid & Hne').
  destruct Hjob as (job & Hjob & Hnej).
  destruct (getWorkflowPath_answered h st nwo rid) as (p & r2 & _ & Hwf);
    try done; [by apply Hans|].
  unfold bind at 1. rewrite Hwf. unfold bind at 1.
  rewrite (getRequiredEnvParam_set _ job) by done.
  unfold bind. simpl. eauto.
Qed.

Lemma createStatusReportBase_returns h actionName status started cause
    exception st :
  job_ready st →
  (env st !! CODEQL_ACTION_ANALYSIS_KEY h = None → lookups_answered h st) →
  ∃ r st',
    createStatusReportBase h actionName status started cause exception st =
      (Return r, st').
Proof.
  intros Hready Hans.
  destruct (getAnalysisKey_returns h st Hready Hans) as (key & st1 & Hkey).
  destruct Hready as ((ref & Href & Hne) & _).
  unfold createStatusReportBase.
  unfold bind at 1, getenv at 1. unfold bind at 1, getRef at 1.
  unfold bind at 1. rewrite (getRequiredEnvParam_set _ ref) by done.
  assert (∀ A (x y : A) (b : bool) s,
            (if b then ret x else ret y) s = (Return (if b then x else y), s))
    as Hif by (by intros ? ? ? []).
  rewrite Hif.
  unfold bind at 1, getenv at 1. unfold bind at 1, getenv at 1.
  unfold bind at 1, getenv at 1. unfold bind at 1. rewrite Hkey.
  unfold bind at 1, getenv at 1. unfold bind at 1.
  destruct (env st1 !! CODEQL_WORKFLOW_STARTED_AT h).
  - unfold ret at 1. unfold bind at 1.
    destruct (is_terminal status); unfold bind, now, ret; eauto.
  - unfold bind at 1, exportVariable at 1, ret at 1. unfold bind at 1.
    destruct (is_terminal status); unfold bind, now, ret; eauto.
Qed.

(** After [createStatusReportBase] has returned, the environment holds the
    analysis key and the start time of its report. *)
Lemma createStatusReportBase_caches h actionName status started cause
    exception st r st' :
  createStatusReportBase h actionName status started cause exception st =
    (Return r, st') →
  env st' !! CODEQL_ACTION_ANALYSIS_KEY h = Some (sr_analysis_key r) ∧
  env st' !! CODEQL_WORKFLOW_STARTED_AT h = Some (sr_started_at r).
Proof.
  intros Hrun.
  apply createStatusReportBase_inv in Hrun as (st1 & _ & Hkey & Hstart).
  assert (env st1 !! CODEQL_ACTION_ANALYSIS_KEY h = Some (sr_analysis_key r))
    as Hcached.
  { apply getAnalysisKey_inv in Hkey.
    destruct (env st !! CODEQL_ACTION_ANALYSIS_KEY h) as [k|] eqn:Hk.
    - destruct Hkey as [[= <-] ->]. done.
    - destruct Hkey as (t & _ & _ & [(e & [=] & _)|(k & [= <-] & _ & ->)]).
      simpl. by rewrite lookup_insert_eq. }
  destruct (env st1 !! CODEQL_WORKFLOW_STARTED_AT h) as [t0|] eqn:Hs.
  - destruct Hstart as (-> & -> & _). done.
  - destruct Hstart as (-> & -> & _).
    rewrite lookup_insert_eq. split; [|done].
    rewrite lookup_insert_ne; [done|]. intros Heq. congruence.
Qed.

(** C8. In a job whose runner variables are set, two consecutive calls of
    [createStatusReportBase] both return a report, provided the server
    answers the workflow lookup when no key is cached.  Whenever they
    return, the two reports have the same [analysis_key] and the same
    [started_at];
    after the first call both values are in the environment and the second
    call neither writes nor sends anything; the two calls together make at
    most one workflow lookup, and exactly one when no key was cached
    before; and when no start time was cached before, the job-wide
    [started_at] is the start time passed to the first call. *)
Theorem createStatusReportBase_twice (h : Host)
    (name1 status1 : string) (started1 : Date) (cause1 exception1 : option string)
    (name2 status2 : string) (started2 : Date) (cause2 exception2 : option string)
    (st : State) :
  let K1 := CODEQL_ACTION_ANALYSIS_KEY h in
  let K2 := CODEQL_WORKFLOW_STARTED_AT h in
  let call1 := createStatusReportBase h name1 status1 started1 cause1 exception1 in
  let call2 := createStatusReportBase h name2 status2 started2 cause2 exception2 in
  (job_ready st → (env st !! K1 = None → lookups_answered h st) →
   ∃ r1 st1 r2 st2,
     call1 st = (Return r1, st1) ∧ call2 st1 = (Return r2, st2)) ∧
  (∀ r1 st1 r2 st2,
     call1 st = (Return r1, st1) → call2 st1 = (Return r2, st2) →
     sr_analysis_key r2 = sr_analysis_key r1 ∧
     sr_started_at r2 = sr_started_at r1 ∧
     env st1 !! K1 = Some (sr_analysis_key r1) ∧
     env st1 !! K2 = Some (sr_started_at r1) ∧
     env st2 = env st1 ∧ trace st2 = trace st1 ∧
     (∃ t, trace st2 = (trace st ++ t)%list ∧
           (length (lookups_of t) ≤ 1)%nat ∧
           (env st !! K1 = None → length (lookups_of t) = 1%nat)) ∧
     (env st !! K2 = None → K1 ≠ K2 →
      sr_started_at r1 = toISOString started1)).
Proof.
  intros K1 K2 call1 call2. split.
  - intros Hready Hans.
    destruct (createStatusReportBase_returns h name1 status1 started1 cause1
                exception1 st Hready Hans) as (r1 & st1 & H1).
    assert (job_ready st1) as Hready1.
    { pose proof (createStatusReportBase_write_once h name1 status1 started1
                    cause1 exception1 st) as Hrun.
      fold call1 in H1. unfold call1 in H1. rewrite H1 in Hrun. simpl in Hrun.
      destruct Hready as (Ha & Hb & Hc & Hd).
      repeat split; by eapply set_in_keeps. }
    destruct (createStatusReportBase_returns h name2 status2 started2 cause2
                exception2 st1 Hready1) as (r2 & st2 & H2).
    { intros Hnone.
      destruct (createStatusReportBase_caches _ _ _ _ _ _ _ _ _ H1)
        as [Hkey _].
      congruence. }
    by exists r1, st1, r2, st2.
  - intros r1 st1 r2 st2 H1 H2.
    apply createStatusReportBase_inv in H1 as (sa & _ & Hk1 & Hs1).
    apply createStatusReportBase_inv in H2 as (sb & _ & Hk2 & Hs2).
    fold K1 K2 in Hs1, Hs2.
    (* the first call: where the key ends up *)
    pose proof (getAnalysisKey_inv _ _ _ _ Hk1) as Hinv1. fold K1 in Hinv1.
    assert (env sa !! K1 = Some (sr_analysis_key r1) ∧
            (env st !! K2 = None → K1 ≠ K2 → env sa !! K2 = None) ∧
            ∃ t, trace sa = (trace st ++ t)%list ∧
                 (length (lookups_of t) ≤ 1)%nat ∧
                 (env st !! K1 = None → length (lookups_of t) = 1%nat))
      as (Hsa & Hfresh & ta & Hta & Hle & Hone).
    { destruct (env st !! K1) as [key|] eqn:Hst.
      - destruct Hinv1 as [[= ->] ->]. split; [done|]. split; [done|].
        exists []. rewrite app_nil_r. split; [done|]. split; [simpl; lia|done].
      - destruct Hinv1
          as (t & Hx & Hlen & [(e & [=] & _)|(key & [= <-] & Hl & ->)]).
        simpl. split; [apply lookup_insert_eq|]. split.
        + intros H0 Hne. by rewrite lookup_insert_ne.
        + exists (t ++ [EvExport K1 (sr_analysis_key r1)])%list.
          rewrite app_assoc. split; [done|].
          unfold lookups_of in *. rewrite requests_of_app. simpl.
          rewrite app_nil_r. split; [lia|done]. }
    (* the first call: where the start time ends up *)
    assert (env st1 !! K1 = Some (sr_analysis_key r1) ∧
            env st1 !! K2 = Some (sr_started_at r1) ∧
            ∃ t, trace st1 = (trace st ++ t)%list ∧
                 (length (lookups_of t) ≤ 1)%nat ∧
                 (env st !! K1 = None → length (lookups_of t) = 1%nat))
      as (Hc1 & Hc2 & t1 & Ht1 & Hle1 & Hone1).
    { destruct (env sa !! K2) as [t|] eqn:Hsa2.
      - destruct Hs1 as (-> & He & Ht). rewrite He.
        split; [done|]. split; [done|].
        exists ta. rewrite Ht. done.
      - destruct Hs1 as (-> & He & Ht). rewrite He.
        assert (K2 ≠ K1) by congruence.
        split; [by rewrite lookup_insert_ne|].
        split; [by rewrite lookup_insert_eq|].
        exists (ta ++ [EvExport K2 (toISOString started1)])%list.
        rewrite Ht, Hta, app_assoc. split; [done|].
        unfold lookups_of in *. rewrite requests_of_app. simpl.
        rewrite app_nil_r. done. }
    (* the second call finds both *)
    pose proof (getAnalysisKey_inv _ _ _ _ Hk2) as Hinv2. fold K1 in Hinv2.
    rewrite Hc1 in Hinv2. destruct Hinv2 as [[= Hkey] ->].
    rewrite Hc2 in Hs2. destruct Hs2 as (Hstart & He2 & Ht2).
    split; [done|]. split; [done|]. split; [done|]. split; [done|].
    split; [done|]. split; [done|]. split.
    + exists t1. rewrite Ht2. done.
    + intros H0 Hne. rewrite (Hfresh H0 Hne) in Hs1. by destruct Hs1.
Qed.

(** C8 at work: two reports in a fresh job have the same key and the
    same start time. *)
Lemma createStatusReportBase_twice_witness :
  ∃ r1 st1 r2 st2,
    createStatusReportBase (test_host [] []) "init" "starting"
      {| toISOString := "2020-06-01T12:00:00.000Z" |} None None
      (state_of job_env) = (Return r1, st1) ∧
    createStatusReportBase (test_host [] []) "finish" "success"
      {| toISOString := "2020-06-01T12:30:00.000Z" |} None None
      st1 = (Return r2, st2).
Proof.
  apply (createStatusReportBase_twice (test_host [] [])).
  - repeat split; eexists; (split; [reflexivity|vm_compute; congruence]).
  - intros _ nwo run_id _ _. split; reflexivity.
Defined.


(** ** The orchestrator and the environment *)

Lemma upload_attempts_silent h req remaining :
  ∀ attempt st, silent st (snd (upload_attempts h req remaining attempt st)).
Proof.
  intros attempt st. destruct remaining as [|remaining].
  - apply silent_refl.
  - rewrite upload_attempts_once. by apply silent_with_trace.
Qed.

Lemma uploadPayload_silent h payload st :
  silent st (snd (uploadPayload h payload st)).
Proof.
  unfold uploadPayload, bind at 1, getenv.
  destruct (bool_decide _); [apply silent_refl|].
  unfold bind.
  pose proof (getRequiredEnvParam_state "GITHUB_REPOSITORY" st) as Hst.
  destruct (getRequiredEnvParam "GITHUB_REPOSITORY" st) as [[nwo|e] st'];
    simpl in Hst; subst st'; [|apply silent_refl].
  apply upload_attempts_silent.
Qed.

Lemma sentinel_set_truthy st :
  sentinel_set st ↔ truthy (env st !! sentinelEnvVar) = true.
Proof.
  unfold sentinel_set, truthy. destruct (env st !! sentinelEnvVar) as [v|].
  - rewrite negb_true_iff, String.eqb_neq. split.
    + by intros (? & [= <-] & ?).
    + eauto.
  - split; [by intros (? & [=] & _)|done].
Qed.

(** Past the sentinel, [uploadFiles] writes the analysis key at most, and
    only when it finds none. *)
Lemma uploadFiles_after_sentinel h sarifFiles st :
  truthy (env st !! sentinelEnvVar) = false →
  write_once_run (snd (exportVariable sentinelEnvVar sentinelEnvVar st))
                 (snd (uploadFiles h sarifFiles st)).
Proof.
  intros Hunset. unfold uploadFiles, bind at 1, getenv at 1. rewrite Hunset.
  unfold bind at 1.
  set (st1 := snd (exportVariable sentinelEnvVar sentinelEnvVar st)).
  replace (exportVariable sentinelEnvVar sentinelEnvVar st)
    with (Return tt, st1) by done.
  unfold bind at 1, lift at 1.
  destruct (validate_all h sarifFiles) as [[]|e]; [|apply write_once_run_refl].
  unfold bind at 1.
  pose proof (getCommitOid_state h st1) as H.
  destruct (getCommitOid h st1) as [[commitOid|e] s]; simpl in H; subst s;
    [|apply write_once_run_refl].
  unfold bind at 1.
  pose proof (getRequiredEnvParam_state "GITHUB_RUN_ID" st1) as H.
  destruct (getRequiredEnvParam _ st1) as [[rid|e] s]; simpl in H; subst s;
    [|apply write_once_run_refl].
  unfold bind at 1.
  pose proof (getRef_state st1) as H.
  destruct (getRef st1) as [[ref|e] s]; simpl in H; subst s;
    [|apply write_once_run_refl].
  unfold bind at 1.
  pose proof (getAnalysisKey_write_once h st1) as Hkey.
  destruct (getAnalysisKey h st1) as [[key|e] st2]; simpl in Hkey; [|done].
  eapply write_once_run_trans; [exact Hkey|]. apply silent_write_once.
  unfold bind at 1.
  pose proof (getRequiredEnvParam_state "GITHUB_WORKFLOW" st2) as H.
  destruct (getRequiredEnvParam _ st2) as [[wf|e] s]; simpl in H; subst s;
    [|apply silent_refl].
  unfold bind at 1, getenv at 1. unfold bind at 1, lift at 1.
  destruct (combineSarifFiles h sarifFiles) as [combined|e];
    [|apply silent_refl].
  destruct (parseInt10 h rid) as [workflowRunID|]; [|apply silent_refl].
  unfold bind at 1, lift at 1.
  destruct (getToolNames _) as [toolNames|e]; [|apply silent_refl].
  unfold bind at 1, lift at 1.
  destruct (countResultsInSarif _) as [n|e]; [|apply silent_refl].
  unfold bind at 1.
  match goal with |- context [uploadPayload h ?p st2] =>
    pose proof (uploadPayload_silent h p st2) as Hup;
    destruct (uploadPayload h p st2) as [[[]|e] st3] end; done.
Qed.

(** C2. If the sentinel flag is set when [uploadFiles] is called, the call
    throws the duplicate-upload error and leaves the state as it was: no
    request is made.  Otherwise its first effect is to export the sentinel,
    before any request; it exports it no second time, and the flag is set
    when the call ends, however it ends. *)
Theorem uploadFiles_sentinel (h : Host) (sarifFiles : list string) (st : State) :
  (sentinel_set st →
   uploadFiles h sarifFiles st = (Throw (Error duplicate_upload_message), st)) ∧
  (¬ sentinel_set st →
   let st' := snd (uploadFiles h sarifFiles st) in
   (∃ t, trace st' =
           (trace st ++ EvExport sentinelEnvVar sentinelEnvVar :: t)%list ∧
         ∀ v, EvExport sentinelEnvVar v ∉ t) ∧
   sentinel_set st').
Proof.
  split.
  - intros Hset. apply sentinel_set_truthy in Hset.
    unfold uploadFiles, bind at 1, getenv at 1. by rewrite Hset.
  - intros Hunset st'.
    assert (truthy (env st !! sentinelEnvVar) = false) as Hfalse.
    { destruct (truthy _) eqn:Ht; [|done].
      by apply sentinel_set_truthy in Ht. }
    destruct (uploadFiles_after_sentinel h sarifFiles st Hfalse)
      as (t & Ht & He & Hw).
    fold st' in Ht, He. simpl in Ht, He, Hw.
    destruct (write_once_keeps t _ sentinelEnvVar sentinelEnvVar Hw)
      as [Hkeep Hno]; [apply lookup_insert_eq|].
    split.
    + exists t. rewrite Ht, <- app_assoc. done.
    + exists sentinelEnvVar. rewrite He. done.
Qed.

(** C2 at work: a second call in the same job. *)
Lemma uploadFiles_sentinel_witness :
  let st1 := snd (uploadFiles (test_host [200; 200; 202]
                                 [("a.sarif", doc "2.1.0" ["ESLint"])])
                    ["a.sarif"] (state_of job_env)) in
  uploadFiles (test_host [] []) ["a.sarif"] st1 =
  (Throw (Error duplicate_upload_message), st1).
Proof.
  intros st1.
  apply (uploadFiles_sentinel (test_host [] []) ["a.sarif"] st1).
  exists "CODEQL_UPLOAD_SARIF". split; [reflexivity|vm_compute; congruence].
Defined.

(** C6, as stated, fails: an empty sentinel value is a stored value, and
    [uploadFiles] replaces it. *)
Lemma uploadFiles_overwrites_empty_sentinel :
  env stale_sentinel_state !! sentinelEnvVar = Some "" ∧
  env (snd (uploadFiles (test_host [] []) [] stale_sentinel_state))
    !! sentinelEnvVar = Some "CODEQL_UPLOAD_SARIF".
Proof. split; reflexivity. Qed.

(** C6, amended.  [getAnalysisKey] and [createStatusReportBase] export a
    variable only after finding it absent, and [sendStatusReport] exports
    nothing.  [uploadFiles] does the same when the sentinel is not stored
    empty; the sentinel it writes after finding it absent or empty.  So no
    operation replaces a stored value other than an empty sentinel. *)
Theorem environment_write_once (h : Host) (st : State) :
  write_once_run st (snd (getAnalysisKey h st)) ∧
  (∀ actionName status started cause exception,
     write_once_run st
       (snd (createStatusReportBase h actionName status started cause
               exception st))) ∧
  (∀ report ignoreFailures,
     silent st (snd (sendStatusReport h report ignoreFailures st))) ∧
  (∀ sarifFiles,
     env st !! sentinelEnvVar ≠ Some "" →
     write_once_run st (snd (uploadFiles h sarifFiles st))) ∧
  (∀ sarifFiles k v,
     env st !! k = Some v → (k = sentinelEnvVar → v ≠ "") →
     env (snd (uploadFiles h sarifFiles st)) !! k = Some v).
Proof.
  split; [apply getAnalysisKey_write_once|].
  split; [intros; apply createStatusReportBase_write_once|].
  split; [intros; apply sendStatusReport_silent|].
  assert (∀ sarifFiles,
            truthy (env st !! sentinelEnvVar) = true →
            snd (uploadFiles h sarifFiles st) = st) as Hdup.
  { intros sarifFiles Ht. unfold uploadFiles, bind at 1, getenv at 1.
    by rewrite Ht. }
  split.
  - intros sarifFiles Hne.
    destruct (truthy (env st !! sentinelEnvVar)) eqn:Ht.
    + rewrite Hdup by done. apply write_once_run_refl.
    + eapply write_once_run_trans;
        [|by apply uploadFiles_after_sentinel].
      apply exportVariable_write_once.
      unfold truthy in Ht. destruct (env st !! sentinelEnvVar) as [v|]; [|done].
      apply negb_false_iff, String.eqb_eq in Ht. congruence.
  - intros sarifFiles k v Hk Hv.
    destruct (truthy (env st !! sentinelEnvVar)) eqn:Ht.
    + by rewrite Hdup.
    + eapply write_once_run_keeps; [by apply uploadFiles_after_sentinel|].
      simpl. destruct (decide (k = sentinelEnvVar)) as [->|Hne].
      * rewrite Hk in Ht. simpl in Ht.
        apply negb_false_iff, String.eqb_eq in Ht. by destruct (Hv eq_refl).
      * by rewrite lookup_insert_ne.
Qed.

(** C6 amended, at work: in a job with no sentinel yet, [uploadFiles]
    keeps the repository name. *)
Lemma environment_write_once_witness :
  env (snd (uploadFiles (test_host [503] []) [] (state_of job_env)))
    !! "GITHUB_REPOSITORY" = Some "octo/demo".
Proof.
  destruct (environment_write_once (test_host [503] []) (state_of job_env))
    as (_ & _ & _ & _ & H).
  apply H; [reflexivity|vm_compute; congruence].
Defined.

(** ** Merging *)

Lemma version_eqb_string a b :
  version_eqb (VString a) (VString b) = String.eqb a b.
Proof. done. Qed.

(** Once a version is fixed, files that declare it are appended. *)
Lemma combine_loop_same h v :
  ∀ sarifFiles docs acc,
    Forall2 (holds_document h) sarifFiles docs →
    (∀ d, d ∈ docs → fst d = v) →
    c_version acc = VString v →
    combine_loop h sarifFiles acc =
    Return {| c_version := VString v;
              c_runs := c_runs acc ++ concat (map snd docs) |}.
Proof.
  intros sarifFiles docs acc Hdocs. revert acc.
  induction Hdocs as [|f d fs ds Hf Hrest IH]; intros acc Hv Hacc.
  - simpl. rewrite app_nil_r. destruct acc; simpl in *. by subst.
  - simpl. unfold readFileSync. rewrite Hf. simpl.
    rewrite Hacc. simpl.
    rewrite (Hv d) by apply list_elem_of_here.
    rewrite String.eqb_refl. simpl.
    rewrite IH.
    + simpl. by rewrite <- app_assoc.
    + intros d' Hd'. apply Hv. by apply list_elem_of_further.
    + done.
Qed.

(** Once a version is fixed, the first file that declares another one
    stops the loop. *)
Lemma combine_loop_mismatch h v :
  ∀ sarifFiles docs acc,
    Forall2 (holds_document h) sarifFiles docs →
    (∃ d, d ∈ docs ∧ fst d ≠ v) →
    c_version acc = VString v →
    ∃ d, d ∈ docs ∧ fst d ≠ v ∧
      combine_loop h sarifFiles acc =
      Throw (ThrownString ("Different SARIF versions encountered: " +:+ v
                           +:+ " and " +:+ fst d)).
Proof.
  intros sarifFiles docs acc Hdocs. revert acc.
  induction Hdocs as [|f d fs ds Hf Hrest IH]; intros acc Hex Hacc.
  - destruct Hex as (d & Hd & _). by apply elem_of_nil in Hd.
  - simpl. unfold readFileSync. rewrite Hf. simpl. rewrite Hacc. simpl.
    destruct (String.eqb v (fst d)) eqn:Heq; simpl.
    + apply String.eqb_eq in Heq.
      destruct (IH {| c_version := VString v; c_runs := c_runs acc ++ snd d |})
        as (d' & Hd' & Hne & Hthrow); [|done|].
      * destruct Hex as (d' & Hd' & Hne).
        apply elem_of_cons in Hd' as [->|Hd']; [congruence|]. eauto.
      * exists d'. split; [by apply list_elem_of_further|]. done.
    + apply String.eqb_neq in Heq. exists d.
      split; [apply list_elem_of_here|]. split; [congruence|]. done.
Qed.

(** C5. For a non-empty list of files that each hold a result document:
    when all declare the version [v], [combineSarifFiles] returns the
    document with version [v] whose runs are the files' runs, file after
    file and in the order they have within each file, none removed; when a
    file after the first declares a version other than the first file's, it
    throws a message that names the first file's version and a later
    file's version that differs from it. *)
Theorem combineSarifFiles_merge (h : Host) (sarifFiles : list string)
    (docs : list (string * list Run)) :
  sarifFiles ≠ [] →
  Forall2 (holds_document h) sarifFiles docs →
  (∀ v, (∀ d, d ∈ docs → fst d = v) →
     combineSarifFiles h sarifFiles =
     Return (Json {| version := VString v;
                     runs := Some (concat (map snd docs)) |})) ∧
  (∀ first rest, docs = first :: rest →
     (∃ d, d ∈ rest ∧ fst d ≠ fst first) →
     ∃ d, d ∈ rest ∧ fst d ≠ fst first ∧
       combineSarifFiles h sarifFiles =
       Throw (ThrownString ("Different SARIF versions encountered: " +:+
                            fst first +:+ " and " +:+ fst d))).
Proof.
  intros Hne Hdocs.
  destruct Hdocs as [|f d fs ds Hf Hrest]; [done|].
  unfold combineSarifFiles. simpl. unfold readFileSync. rewrite Hf. simpl.
  split.
  - intros v Hv.
    rewrite (combine_loop_same h v fs ds); simpl; try done.
    + intros d' Hd'. apply Hv. by apply list_elem_of_further.
    + f_equal. apply Hv, list_elem_of_here.
  - intros first rest [= <- <-] Hex.
    destruct (combine_loop_mismatch h (fst d) fs ds
                {| c_version := VString (fst d); c_runs := snd d |})
      as (d' & Hd' & Hne' & ->); try done.
    exists d'. done.
Qed.

(** The loop takes [null] for "no version yet": a first file whose
    [version] is [null], which is no result document, leaves the version
    of the next file unchecked. *)
Lemma combineSarifFiles_null_version :
  combineSarifFiles
    (test_host [] [("n.sarif", Json {| version := VNull; runs := Some [] |});
                   ("b.sarif", doc "2.1.0" ["B"])])
    ["n.sarif"; "b.sarif"] = Return (doc "2.1.0" ["B"]).
Proof. reflexivity. Qed.

(** C5 at work: two files of version 2.1.0 with the runs [A] and [B]. *)
Lemma combineSarifFiles_merge_witness :
  combineSarifFiles
    (test_host [] [("a.sarif", doc "2.1.0" ["A"]); ("b.sarif", doc "2.1.0" ["B"])])
    ["a.sarif"; "b.sarif"] =
  Return (Json {| version := VString "2.1.0";
                  runs := Some [run_named "A"; run_named "B"] |}).
Proof.
  destruct (combineSarifFiles_merge
              (test_host [] [("a.sarif", doc "2.1.0" ["A"]);
                             ("b.sarif", doc "2.1.0" ["B"])])
              ["a.sarif"; "b.sarif"]
              [("2.1.0", [run_named "A"]); ("2.1.0", [run_named "B"])])
    as [Hsame _].
  - congruence.
  - repeat constructor.
  - apply (Hsame "2.1.0").
    intros d Hd. repeat (apply elem_of_cons in Hd as [->|Hd]; [reflexivity|]).
    by apply elem_of_nil in Hd.
Defined.

(** ** Tool names: objects as ordered sets of keys *)

Lemma filter_implied {A} (p q : A → bool) (l : list A) :
  (∀ x, p x = true → q x = true) →
  List.filter p (List.filter q l) = List.filter p l.
Proof.
  intros Hpq. induction l as [|x l IH]; [done|]. simpl.
  destruct (q x) eqn:Hq; simpl.
  - by rewrite IH.
  - destruct (p x) eqn:Hp; [|done]. apply Hpq in Hp. congruence.
Qed.

Lemma filter_both {A} (p q : A → bool) (l : list A) :
  List.filter p (List.filter q l) = List.filter (fun x => q x && p x) l.
Proof.
  induction l as [|x l IH]; [done|]. simpl.
  destruct (q x); simpl; [|done]. destruct (p x); by rewrite IH.
Qed.

Lemma filter_swap {A} (p q : A → bool) (l : list A) :
  List.filter p (List.filter q l) = List.filter q (List.filter p l).
Proof.
  rewrite !filter_both. apply List.filter_ext. intros x. apply andb_comm.
Qed.

Lemma filter_all {A} (p : A → bool) (l : list A) :
  (∀ x, p x = true) → List.filter p l = l.
Proof.
  intros Hp. induction l as [|x l IH]; [done|]. simpl. by rewrite Hp, IH.
Qed.

(** Filtering commutes with removing repetitions. *)
Lemma filter_first_appearances (p : string → bool) (l : list string) :
  List.filter p (first_appearances l) = first_appearances (List.filter p l).
Proof.
  induction l as [|x l IH]; [done|]. simpl.
  destruct (p x) eqn:Hp; simpl.
  - by rewrite filter_swap, IH.
  - rewrite filter_implied; [done|].
    intros y Hy. apply negb_true_iff, String.eqb_neq. intros ->. congruence.
Qed.

Lemma keys_obj_update {V} (o : @JsObject V) k v :
  map fst (obj_update o k v) = map fst o.
Proof.
  induction o as [|[k' v'] o IH]; [done|]. simpl.
  destruct (String.eqb k' k) eqn:Heq; simpl; [done|]. by rewrite IH.
Qed.

Lemma obj_has_mem {V} (o : @JsObject V) k : obj_has o k = mem k (map fst o).
Proof.
  unfold obj_has, mem. induction o as [|[k' v'] o IH]; [done|]. simpl.
  by rewrite IH.
Qed.

(** The keys after one iteration of the loop of [getToolNames]. *)
Lemma keys_add_tool_name (o : @JsObject bool) (r : Run) :
  map fst (add_tool_name o r) =
  match driver_name r with
  | Some n =>
      if kept_name n && negb (mem n (map fst o)) then (map fst o ++ [n])%list
      else map fst o
  | None => map fst o
  end.
Proof.
  unfold add_tool_name, driver_name.
  destruct (tool r) as [t|]; [|done]. destruct (driver t) as [d|]; [|done].
  destruct (name d) as [n|]; [|done]. unfold kept_name, obj_set.
  destruct n as [|c n]; [done|]. simpl Nat.ltb. cbv iota.
  change (String.eqb (String c n) "") with false. simpl negb at 1.
  rewrite andb_true_l.
  destruct (String.eqb (String c n) "__proto__"); [done|]. simpl negb.
  rewrite andb_true_l, obj_has_mem.
  destruct (mem (String c n) (map fst o)); simpl.
  - apply keys_obj_update.
  - by rewrite map_app.
Qed.

(** The keys after the loop: those of before, then the kept names that
    are new, in order of first appearance. *)
Lemma keys_fold_add_tool_name (rs : list Run) :
  ∀ o : @JsObject bool,
    map fst (fold_left add_tool_name rs o) =
    (map fst o ++
     List.filter (fun x => negb (mem x (map fst o)))
       (first_appearances (List.filter kept_name (driver_names rs))))%list.
Proof.
  induction rs as [|r rs IH]; intros o.
  - simpl. by rewrite app_nil_r.
  - simpl fold_left. rewrite IH, keys_add_tool_name.
    unfold driver_names. simpl omap. fold (driver_names rs).
    destruct (driver_name r) as [n|]; [|done]. simpl List.filter.
    destruct (kept_name n) eqn:Hkept; [|done]. simpl andb.
    simpl first_appearances. simpl List.filter.
    destruct (mem n (map fst o)) eqn:Hmem; simpl negb; cbv iota.
    + f_equal. rewrite filter_implied; [done|].
      intros y Hy. apply negb_true_iff, String.eqb_neq. intros ->.
      rewrite Hmem in Hy. done.
    + rewrite <- app_assoc. simpl. do 2 f_equal.
      rewrite filter_both. apply List.filter_ext. intros y.
      unfold mem. rewrite existsb_app. simpl.
      rewrite orb_false_r, negb_orb, (String.eqb_sym n y). apply andb_comm.
Qed.

Lemma is_index_kept n : is_index n = true → kept_name n = true.
Proof.
  unfold kept_name. intros H.
  destruct (String.eqb n "") eqn:H1;
    [apply String.eqb_eq in H1; by subst|].
  destruct (String.eqb n "__proto__") eqn:H2;
    [apply String.eqb_eq in H2; by subst|].
  done.
Qed.

(** Insertion sort of the array indices. *)
Lemma insert_index_Permutation x l : insert_index x l ≡ₚ x :: l.
Proof.
  induction l as [|y l IH]; [done|]. simpl.
  destruct (fst x <=? fst y)%N; [done|]. rewrite IH. apply Permutation_swap.
Qed.

Lemma sort_indices_Permutation l : sort_indices l ≡ₚ l.
Proof.
  induction l as [|x l IH]; [done|]. simpl.
  by rewrite insert_index_Permutation, IH.
Qed.

Lemma insert_index_sorted x l :
  StronglySorted (fun a b => (fst a ≤ fst b)%N) l →
  StronglySorted (fun a b => (fst a ≤ fst b)%N) (insert_index x l).
Proof.
  induction 1 as [|y l Hl IH Hy]; simpl.
  - repeat constructor.
  - destruct (fst x <=? fst y)%N eqn:Hle.
    + apply N.leb_le in Hle. constructor; [by constructor|].
      constructor; [done|].
      eapply Forall_impl; [exact Hy|]. simpl. intros; lia.
    + apply N.leb_gt in Hle. constructor; [done|].
      rewrite insert_index_Permutation. constructor; [lia|done].
Qed.

Lemma sort_indices_sorted l :
  StronglySorted (fun a b => (fst a ≤ fst b)%N) (sort_indices l).
Proof.
  induction l as [|x l IH]; simpl; [constructor|].
  by apply insert_index_sorted.
Qed.

Lemma index_keys_spec ks :
  map snd (index_keys ks) = List.filter is_index ks ∧
  Forall (fun x => fst x = index_value (snd x)) (index_keys ks).
Proof.
  unfold index_keys, is_index, index_value.
  induction ks as [|k ks [IH1 IH2]]; [by split|]. simpl.
  destruct (array_index k) as [n|] eqn:Hk; simpl; [|split; assumption].
  split; [f_equal; exact IH1|]. constructor; [|exact IH2]. simpl.
  by rewrite Hk.
Qed.

Lemma sorted_by_index_value l :
  Forall (fun x => fst x = index_value (snd x)) l →
  StronglySorted (fun a b => (fst a ≤ fst b)%N) l →
  StronglySorted (fun a b => (index_value a ≤ index_value b)%N) (map snd l).
Proof.
  intros Hval Hs. induction Hs as [|x l Hl IH Hx]; simpl; [constructor|].
  apply Forall_cons in Hval as [Hx0 Hval].
  constructor; [by apply IH|].
  apply Forall_map. rewrite Forall_forall in *. intros y Hy. simpl.
  rewrite <- Hx0, <- (Hval y Hy). by apply Hx.
Qed.

Lemma getToolNames_keys (o : SarifObject) :
  getToolNames (Json o) =
  Return
    (map snd (sort_indices
                (index_keys
                   (first_appearances
                      (List.filter kept_name
                         (driver_names (default [] (runs o))))))) ++
     first_appearances
       (List.filter (fun n => kept_name n && negb (is_index n))
          (driver_names (default [] (runs o)))))%list.
Proof.
  unfold getToolNames, Object_keys. simpl. rewrite keys_fold_add_tool_name.
  simpl map. rewrite app_nil_l.
  rewrite !(filter_all (fun x => negb (mem x []))) by done.
  change (fun k => negb (is_Some_b (array_index k)))
    with (fun k => negb (is_index k)).
  by rewrite filter_first_appearances, filter_both.
Qed.

(** C9, as stated, fails: a driver name that is an array index comes
    before the names that appeared earlier. *)
Lemma getToolNames_index_name_first :
  first_appearances (driver_names (map run_named ["b"; "1"])) = ["b"; "1"] ∧
  getToolNames (doc "2.1.0" ["b"; "1"]) = Return ["1"; "b"].
Proof. split; reflexivity. Qed.

(** C9, amended.  [getToolNames] returns the driver names of the runs
    that are non-empty and other than [__proto__], without repetition:
    first those that are array indices, in ascending numeric order, then
    all the others in order of first appearance.  When no driver name is an
    array index the result is the kept names in order of first
    appearance; two runs of ESLint and one of CodeQL give exactly
    ESLint, CodeQL. *)
Theorem getToolNames_order (o : SarifObject) :
  let names := driver_names (default [] (runs o)) in
  (∃ idx,
     getToolNames (Json o) =
     Return (idx ++ first_appearances
                      (List.filter (fun n => kept_name n && negb (is_index n))
                                   names))%list ∧
     idx ≡ₚ first_appearances (List.filter is_index names) ∧
     StronglySorted (fun a b => (index_value a ≤ index_value b)%N) idx) ∧
  ((∀ n, n ∈ names → is_index n = false) →
   getToolNames (Json o) =
   Return (first_appearances (List.filter kept_name names))) ∧
  getToolNames (doc "2.1.0" ["ESLint"; "ESLint"; "CodeQL"]) =
    Return ["ESLint"; "CodeQL"].
Proof.
  intros names.
  set (ks := first_appearances (List.filter kept_name names)).
  destruct (index_keys_spec ks) as [Hsnd Hval].
  assert (map snd (sort_indices (index_keys ks)) ≡ₚ
          first_appearances (List.filter is_index names)) as Hperm.
  { rewrite sort_indices_Permutation, Hsnd. unfold ks.
    rewrite filter_first_appearances, filter_implied; [done|].
    apply is_index_kept. }
  split; [|split; [|reflexivity]].
  - exists (map snd (sort_indices (index_keys ks))).
    split; [apply getToolNames_keys|]. split; [exact Hperm|].
    apply sorted_by_index_value; [|apply sort_indices_sorted].
    eapply Forall_forall. intros x Hx.
    rewrite Forall_forall in Hval. apply Hval.
    by rewrite <- sort_indices_Permutation.
  - intros Hnone. rewrite getToolNames_keys. fold names. fold ks.
    assert (List.filter is_index names = []) as Hnil.
    { clear -Hnone. induction names as [|n l IH]; [done|]. simpl.
      rewrite (Hnone n) by apply list_elem_of_here.
      apply IH. intros m Hm. apply Hnone. by apply list_elem_of_further. }
    rewrite Hnil in Hperm. simpl in Hperm.
    apply Permutation_nil_r in Hperm. rewrite Hperm. simpl. unfold ks.
    do 2 f_equal. apply List.filter_ext_in. intros n Hn.
    rewrite (Hnone n); [by rewrite andb_true_r|]. by apply list_elem_of_In.
Qed.

(** C9 amended, at work: names that are not array indices. *)
Lemma getToolNames_order_witness :
  getToolNames (doc "2.1.0" ["ESLint"; "ESLint"; "CodeQL"]) =
  Return (first_appearances ["ESLint"; "ESLint"; "CodeQL"]).
Proof.
  destruct (getToolNames_order
              {| version := VString "2.1.0";
                 runs := Some (map run_named ["ESLint"; "ESLint"; "CodeQL"]) |})
    as (_ & H & _).
  apply H. intros n Hn.
  repeat (apply elem_of_cons in Hn as [->|Hn]; [reflexivity|]).
  by apply elem_of_nil in Hn.
Defined.

(** ** The ref under analysis *)

Lemma span_digits_run n rest :
  all_digits n = true →
  match rest with
  | String c _ => is_digit c = false
  | EmptyString => True
  end →
  span_digits (n +:+ rest) = (n, rest).
Proof.
  unfold all_digits. intros Hn Hrest.
  induction n as [|c n IH]; simpl in *.
  - destruct rest as [|c rest]; [done|]. simpl. by rewrite Hrest.
  - apply andb_true_iff in Hn as [Hc Hn]. by rewrite Hc, IH.
Qed.

Lemma strip_prefix_app p s : strip_prefix p (p +:+ s) = Some s.
Proof.
  induction p as [|c p IH]; simpl; [by destruct s|].
  by rewrite Ascii.eqb_refl.
Qed.

(** On a pull-request merge ref, [getRef] returns the head ref. *)
Lemma getRef_pull_request st n :
  n ≠ "" → all_digits n = true →
  env st !! "GITHUB_REF" = Some (pull_merge_ref n) →
  getRef st = (Return (pull_head_ref n), st).
Proof.
  intros Hne Hn Href. unfold getRef, bind.
  rewrite (getRequiredEnvParam_set _ (pull_merge_ref n)) by done.
  assert (pull_ref_exec (pull_merge_ref n) = Some ("", n, "")) as Hexec.
  { unfold pull_merge_ref.
    assert (pull_ref_match_here ("refs/pull/" +:+ n +:+ "/merge") =
            Some (n, "")) as Hhere.
    { unfold pull_ref_match_here. rewrite strip_prefix_app.
      rewrite span_digits_run by done.
      apply String.eqb_neq in Hne as ->. done. }
    change ("refs/pull/" +:+ n +:+ "/merge")
      with (String "r" ("efs/pull/" +:+ n +:+ "/merge")) in *.
    unfold pull_ref_exec. by rewrite Hhere. }
  unfold pull_ref_test, pull_ref_replace. rewrite Hexec. done.
Qed.

Lemma getRef_pull_request_example :
  getRef (state_of job_env) = (Return "refs/pull/7/head", state_of job_env).
Proof. apply (getRef_pull_request _ "7"); [congruence|reflexivity..]. Qed.

(** The ref of a status report is the one [getRef] returns. *)
Lemma createStatusReportBase_ref h actionName status started cause exception
    st r st' :
  createStatusReportBase h actionName status started cause exception st =
    (Return r, st') →
  fst (getRef st) = Return (sr_ref r).
Proof.
  intros H. apply createStatusReportBase_inv in H as (st1 & Href & _).
  by rewrite Href.
Qed.

(** C10.  [getRef] turns a ref of the form [refs/pull/<N>/merge] into
    [refs/pull/<N>/head] and is to return every other ref unchanged.  It
    does not: the pattern is searched anywhere in the ref, so in a job
    pushed to the branch [refs/pull/1/merge], whose ref is not of that
    form, the occurrence inside the ref is rewritten. *)
Theorem getRef_rewrites_inside_branch_ref :
  (∀ n, env branch_push_state !! "GITHUB_REF" ≠ Some (pull_merge_ref n)) ∧
  env branch_push_state !! "GITHUB_REF" = Some "refs/heads/refs/pull/1/merge" ∧
  getRef branch_push_state =
    (Return "refs/heads/refs/pull/1/head", branch_push_state).
Proof.
  split; [|split; reflexivity].
  intros n. change (env branch_push_state !! "GITHUB_REF")
    with (Some "refs/heads/refs/pull/1/merge").
  unfold pull_merge_ref. simpl. intros H. inversion H.
Qed.

(** ** The order of the phases *)

Lemma payloads_of_app t1 t2 :
  payloads_of (t1 ++ t2) = (payloads_of t1 ++ payloads_of t2)%list.
Proof. unfold payloads_of. apply omap_app. Qed.

Lemma upload_attempts_payloads h req p remaining :
  body req = PayloadBody p →
  ∀ attempt st,
    ∃ t, trace (snd (upload_attempts h req remaining attempt st)) =
           (trace st ++ t)%list ∧
         Forall (eq p) (payloads_of t).
Proof.
  intros Hbody attempt st. destruct remaining as [|remaining].
  - exists []. simpl. by rewrite app_nil_r.
  - rewrite upload_attempts_once. exists [EvRequest req]. split; [done|].
    simpl. rewrite Hbody. by repeat constructor.
Qed.

Lemma uploadPayload_payloads h p st :
  ∃ t, trace (snd (uploadPayload h (PayloadBody p) st)) = (trace st ++ t)%list ∧
       Forall (eq p) (payloads_of t).
Proof.
  unfold uploadPayload, bind at 1, getenv.
  destruct (bool_decide _); [exists []; simpl; by rewrite app_nil_r|].
  unfold bind.
  pose proof (getRequiredEnvParam_state "GITHUB_REPOSITORY" st) as Hst.
  destruct (getRequiredEnvParam "GITHUB_REPOSITORY" st) as [[nwo|e] st'];
    simpl in Hst; subst st'; [|exists []; simpl; by rewrite app_nil_r].
  by apply upload_attempts_payloads.
Qed.

Lemma getAnalysisKey_no_payload h st :
  ∃ t, trace (snd (getAnalysisKey h st)) = (trace st ++ t)%list ∧
       payloads_of t = [].
Proof.
  unfold getAnalysisKey, bind at 1, getenv.
  destruct (env st !! CODEQL_ACTION_ANALYSIS_KEY h);
    [exists []; simpl; by rewrite app_nil_r|].
  unfold bind at 1, getWorkflowPath. unfold bind at 1.
  pose proof (getRequiredEnvParam_state "GITHUB_REPOSITORY" st) as H.
  destruct (getRequiredEnvParam "GITHUB_REPOSITORY" st) as [[nwo|e] s];
    simpl in H; subst s; [|exists []; simpl; by rewrite app_nil_r].
  unfold bind at 1.
  pose proof (getRequiredEnvParam_state "GITHUB_RUN_ID" st) as H.
  destruct (getRequiredEnvParam "GITHUB_RUN_ID" st) as [[rid|e] s];
    simpl in H; subst s; [|exists []; simpl; by rewrite app_nil_r].
  unfold bind at 1. rewrite request_eq.
  destruct (rejected _); [by eexists [_]|].
  unfold bind at 1. rewrite request_eq.
  destruct (rejected _); [simpl; eexists [_; _]; by rewrite <- !app_assoc|].
  unfold ret at 1. unfold bind at 1.
  match goal with |- context [getRequiredEnvParam "GITHUB_JOB" ?s0] =>
    pose proof (getRequiredEnvParam_state "GITHUB_JOB" s0) as H;
    destruct (getRequiredEnvParam "GITHUB_JOB" s0) as [[job|e] s];
    simpl in H; subst s
  end.
  - unfold bind. simpl. eexists [_; _; _]. rewrite <- !app_assoc. done.
  - simpl. eexists [_; _]. rewrite <- !app_assoc. done.
Qed.

Lemma validate_all_ok h sarifFiles :
  validate_all h sarifFiles = Return tt ↔
  Forall (fun f => validateSarifFileSchema h f = Return tt) sarifFiles.
Proof.
  induction sarifFiles as [|f fs IH]; simpl.
  - split; [constructor|done].
  - rewrite Forall_cons, <- IH.
    destruct (validateSarifFileSchema h f) as [[]|e]; simpl; [tauto|].
    split; [done|]. by intros [? _].
Qed.

Lemma getRef_env st1 st2 :
  env st1 !! "GITHUB_REF" = env st2 !! "GITHUB_REF" →
  fst (getRef st1) = fst (getRef st2).
Proof.
  intros H. cbv [getRef bind getRequiredEnvParam getenv]. rewrite H.
  destruct (env st2 !! "GITHUB_REF") as [v|]; [|done].
  destruct (String.eqb v ""); [done|]. unfold ret.
  by destruct (pull_ref_test v).
Qed.

(** Whatever [uploadFiles] sends was merged from files that all passed
    validation, and was fingerprinted after the merge. *)
Lemma uploadFiles_sent h sarifFiles st t p :
  truthy (env st !! sentinelEnvVar) = false →
  trace (snd (uploadFiles h sarifFiles st)) = (trace st ++ t)%list →
  p ∈ payloads_of t →
  validate_all h sarifFiles = Return tt ∧
  ∃ merged, combineSarifFiles h sarifFiles = Return merged ∧
    sarif p = gzip_base64 h (addFingerprints h merged) ∧
    getToolNames (addFingerprints h merged) = Return (tool_names p) ∧
    fst (getRef st) = Return (ref p).
Proof.
  intros Hunset. unfold uploadFiles, bind at 1, getenv at 1. rewrite Hunset.
  unfold bind at 1.
  set (st1 := snd (exportVariable sentinelEnvVar sentinelEnvVar st)).
  replace (exportVariable sentinelEnvVar sentinelEnvVar st)
    with (Return tt, st1) by done.
  assert (trace st1 = (trace st ++ [EvExport sentinelEnvVar sentinelEnvVar])%list)
    as Hst1 by done.
  assert (∀ tk, payloads_of tk = [] →
            (trace st1 ++ tk)%list = (trace st ++ t)%list →
            p ∈ payloads_of t → False) as Hexit.
  { intros tk Htk Heq Hp. rewrite Hst1, <- app_assoc in Heq.
    apply app_inv_head in Heq. subst t.
    rewrite payloads_of_app, Htk in Hp. simpl in Hp.
    by apply elem_of_nil in Hp. }
  assert (trace st1 = (trace st ++ t)%list → p ∈ payloads_of t → False)
    as Hexit1.
  { intros Heq. apply (Hexit []); [done|]. by rewrite app_nil_r. }
  unfold bind at 1, lift at 1.
  destruct (validate_all h sarifFiles) as [[]|e]; [|intros; exfalso; eauto].
  unfold bind at 1.
  pose proof (getCommitOid_state h st1) as H.
  destruct (getCommitOid h st1) as [[commitOid|e] s]; simpl in H; subst s;
    [|intros; exfalso; eauto].
  unfold bind at 1.
  pose proof (getRequiredEnvParam_state "GITHUB_RUN_ID" st1) as H.
  destruct (getRequiredEnvParam _ st1) as [[rid|e] s]; simpl in H; subst s;
    [|intros; exfalso; eauto].
  unfold bind at 1.
  pose proof (getRef_state st1) as H.
  assert (fst (getRef st1) = fst (getRef st)) as Href.
  { apply getRef_env. unfold st1. simpl. by apply lookup_insert_ne. }
  destruct (getRef st1) as [[ref|e] s]; simpl in H; subst s;
    [|intros; exfalso; eauto].
  unfold bind at 1.
  destruct (getAnalysisKey_no_payload h st1) as (tk & Htk & Hnone).
  destruct (getAnalysisKey h st1) as [[key|e] st2]; simpl in Htk;
    [|simpl; intros Ht; rewrite Htk in Ht; intros; exfalso; eauto].
  assert (trace st2 = (trace st ++ t)%list → p ∈ payloads_of t → False)
    as Hexit2.
  { intros Heq. rewrite Htk in Heq. eauto. }
  unfold bind at 1.
  pose proof (getRequiredEnvParam_state "GITHUB_WORKFLOW" st2) as H.
  destruct (getRequiredEnvParam _ st2) as [[wf|e] s]; simpl in H; subst s;
    [|intros; exfalso; eauto].
  unfold bind at 1, getenv at 1. unfold bind at 1, lift at 1.
  destruct (combineSarifFiles h sarifFiles) as [combined|e];
    [|intros; exfalso; eauto].
  destruct (parseInt10 h rid) as [workflowRunID|]; [|intros; exfalso; eauto].
  unfold bind at 1, lift at 1.
  destruct (getToolNames _) as [toolNames|e] eqn:Htools;
    [|intros; exfalso; eauto].
  unfold bind at 1, lift at 1.
  destruct (countResultsInSarif _) as [n|e]; [|intros; exfalso; eauto].
  unfold bind at 1.
  match goal with |- context [uploadPayload h (PayloadBody ?pl) st2] =>
    destruct (uploadPayload_payloads h pl st2) as (tu & Htu & Hsent);
    destruct (uploadPayload h (PayloadBody pl) st2) as [[[]|e] st3]
  end; simpl in Htu; unfold ret; simpl;
    intros Ht Hp; rewrite Htu, Htk in Ht; rewrite ?Hst1, <- ?app_assoc in Ht;
    apply app_inv_head in Ht; subst t;
    rewrite !payloads_of_app, Hnone in Hp; simpl in Hp;
    rewrite Forall_forall in Hsent; apply Hsent in Hp; subst p; simpl;
    (split; [done|]); exists combined; rewrite <- Href; done.
Qed.

(** C4, as stated, fails: on two files of different versions, of which
    the schema rejects the second, the merge on its own throws the
    version mismatch, yet [uploadFiles] throws the validation error: the
    files are validated one by one before any merging. *)
Lemma uploadFiles_validates_before_merging :
  combineSarifFiles (test_host [] mixed_files) ["a.sarif"; "c.sarif"] =
    Throw (ThrownString "Different SARIF versions encountered: 2.1.0 and 2.0.0") ∧
  fst (uploadFiles (test_host [] mixed_files) ["a.sarif"; "c.sarif"]
         (state_of job_env)) =
    Throw (Error (invalid_sarif_message "c.sarif"
                    ["instance.version is not one of enum values: 2.1.0"])).
Proof. split; reflexivity. Qed.

(** Another validator changes nothing of what does not validate. *)
Lemma combine_loop_schema h f sarifFiles :
  ∀ acc, combine_loop (with_schema_errors h f) sarifFiles acc =
         combine_loop h sarifFiles acc.
Proof.
  induction sarifFiles as [|file rest IH]; intros acc; [done|].
  cbn [combine_loop].
  change (readFileSync (with_schema_errors h f) file)
    with (readFileSync h file).
  destruct (readFileSync h file) as [text|e]; [|done]. simpl.
  destruct (JSON_parse text) as [o|e]; [|done]. simpl.
  destruct (if version_eqb _ _ then _ else _) as [v|e]; [|done]. simpl.
  destruct (runs o); [|done]. apply IH.
Qed.

Lemma validate_all_schema h f sarifFiles :
  agrees_on_files h f sarifFiles →
  validate_all (with_schema_errors h f) sarifFiles = validate_all h sarifFiles.
Proof.
  induction sarifFiles as [|file rest IH]; intros Hagree; [done|].
  cbn [validate_all].
  rewrite IH.
  2:{ intros file' o Hin. apply Hagree. by right. }
  f_equal. unfold validateSarifFileSchema.
  change (readFileSync (with_schema_errors h f) file)
    with (readFileSync h file).
  unfold readFileSync.
  destruct (files h file) as [[|o]|] eqn:Hfile; [done| |done]. simpl.
  rewrite (Hagree file o); [done|by left|done].
Qed.

(** [uploadFiles] consults the validator on the documents of the input
    files and on nothing else. *)
Lemma uploadFiles_schema h f sarifFiles st :
  agrees_on_files h f sarifFiles →
  uploadFiles (with_schema_errors h f) sarifFiles st =
  uploadFiles h sarifFiles st.
Proof.
  intros Hagree. unfold uploadFiles.
  rewrite (validate_all_schema _ _ _ Hagree).
  unfold combineSarifFiles. rewrite combine_loop_schema.
  change (uploadPayload (with_schema_errors h f)) with (uploadPayload h).
  reflexivity.
Qed.

(** After a validation that every file passed, and the steps that read the
    job, come the merge, the fingerprints and the delivery, in this order:
    an error of the merge is the error of the call, and a merge that
    succeeds is fingerprinted and sent. *)
Lemma uploadFiles_after_validation h sarifFiles st s1 nwo :
  truthy (env st !! sentinelEnvVar) = false →
  validate_all h sarifFiles = Return tt →
  prepared h st s1 nwo →
  (∀ e, combineSarifFiles h sarifFiles = Throw e →
     uploadFiles h sarifFiles st = (Throw e, s1)) ∧
  (∀ merged names n,
     combineSarifFiles h sarifFiles = Return merged →
     getToolNames (addFingerprints h merged) = Return names →
     countResultsInSarif (addFingerprints h merged) = Return n →
     ∃ p, sarif p = gzip_base64 h (addFingerprints h merged) ∧
          tool_names p = names ∧
          snd (uploadFiles h sarifFiles st) =
          with_trace s1 [EvRequest (upload_request nwo (PayloadBody p))]).
Proof.
  intros Hfalse Hval
    ((oid & Hoid) & (rid & wid & Hrid & Hne & Hwid) & (ref & Href) &
     (key & Hkey) & (name & Hname & Hnename) & Hready).
  remember (uploadFiles h sarifFiles st) as run eqn:Hrun.
  unfold uploadFiles, bind at 1, getenv at 1 in Hrun.
  rewrite Hfalse in Hrun. unfold bind at 1 in Hrun.
  set (s0 := snd (exportVariable sentinelEnvVar sentinelEnvVar st)) in *.
  replace (exportVariable sentinelEnvVar sentinelEnvVar st)
    with (Return tt, s0) in Hrun by done.
  unfold bind at 1, lift at 1 in Hrun. rewrite Hval in Hrun.
  unfold bind at 1 in Hrun. rewrite Hoid in Hrun.
  unfold bind at 1 in Hrun.
  rewrite (getRequiredEnvParam_set _ rid) in Hrun by done.
  unfold bind at 1 in Hrun. rewrite Href in Hrun.
  unfold bind at 1 in Hrun. rewrite Hkey in Hrun.
  unfold bind at 1 in Hrun.
  rewrite (getRequiredEnvParam_set _ name) in Hrun by done.
  unfold bind at 1, getenv at 1 in Hrun.
  unfold bind at 1, lift at 1 in Hrun.
  split.
  - intros e Hmerge. by rewrite Hmerge in Hrun.
  - intros merged names n Hmerge Hnames Hn.
    rewrite Hmerge, Hwid in Hrun.
    unfold bind at 1, lift at 1 in Hrun. rewrite Hnames in Hrun.
    unfold bind at 1, lift at 1 in Hrun. rewrite Hn in Hrun.
    match type of Hrun with context [uploadPayload h (PayloadBody ?pl)] =>
      exists pl
    end.
    split; [done|]. split; [done|].
    rewrite Hrun, bind_ret_snd.
    by rewrite (uploadPayload_once _ _ _ _ Hready).
Qed.

(** C4, amended.  In an upload that passes the sentinel, the phases run
    in the order validate, merge, fingerprint, upload, and validation is of
    each input file, not of the merged document.  A validation failure ends
    the call with that error before anything is requested.  Every payload
    that is sent carries the fingerprinted merge of files that each passed
    validation, with the tool names of the fingerprinted document.  The
    validator is consulted on the documents of the input files and on
    nothing else: another validator that rules alike on them, whatever it
    says of the merged document, gives the same run.  And after a
    validation that every file passed, once the job has been read, an
    error of the merge is the error of the call, and a merge that succeeds
    is fingerprinted and sent. *)
Theorem uploadFiles_phase_order (h : Host) (sarifFiles : list string)
    (st : State) :
  ¬ sentinel_set st →
  let run := uploadFiles h sarifFiles st in
  (∀ e, validate_all h sarifFiles = Throw e →
     fst run = Throw e ∧
     requests_of (trace (snd run)) = requests_of (trace st)) ∧
  (∀ t p, trace (snd run) = (trace st ++ t)%list → p ∈ payloads_of t →
     Forall (fun f => validateSarifFileSchema h f = Return tt) sarifFiles ∧
     ∃ merged, combineSarifFiles h sarifFiles = Return merged ∧
       sarif p = gzip_base64 h (addFingerprints h merged) ∧
       getToolNames (addFingerprints h merged) = Return (tool_names p)) ∧
  (∀ f, agrees_on_files h f sarifFiles →
     uploadFiles (with_schema_errors h f) sarifFiles st = run) ∧
  (Forall (fun f => validateSarifFileSchema h f = Return tt) sarifFiles →
   ∀ s1 nwo, prepared h st s1 nwo →
     (∀ e, combineSarifFiles h sarifFiles = Throw e → run = (Throw e, s1)) ∧
     (∀ merged names n,
        combineSarifFiles h sarifFiles = Return merged →
        getToolNames (addFingerprints h merged) = Return names →
        countResultsInSarif (addFingerprints h merged) = Return n →
        ∃ p, sarif p = gzip_base64 h (addFingerprints h merged) ∧
             tool_names p = names ∧
             snd run =
             with_trace s1 [EvRequest (upload_request nwo (PayloadBody p))])).
Proof.
  intros Hunset run.
  assert (truthy (env st !! sentinelEnvVar) = false) as Hfalse.
  { destruct (truthy _) eqn:Ht; [|done]. by apply sentinel_set_truthy in Ht. }
  split; [|split; [|split]].
  - intros e Hv.
    assert (run = (Throw e,
                   snd (exportVariable sentinelEnvVar sentinelEnvVar st)))
      as ->.
    { subst run. unfold uploadFiles, bind at 1, getenv at 1. rewrite Hfalse.
      unfold bind at 1. simpl. unfold bind at 1, lift at 1. by rewrite Hv. }
    simpl. split; [done|]. rewrite requests_of_app. simpl.
    by rewrite app_nil_r.
  - intros t p Ht Hp.
    destruct (uploadFiles_sent h sarifFiles st t p Hfalse Ht Hp)
      as (Hvalid & merged & Hmerge & Hsarif & Htools & _).
    split; [by apply validate_all_ok|]. by exists merged.
  - intros f Hagree. by apply uploadFiles_schema.
  - intros Hvalid s1 nwo Hprep. apply validate_all_ok in Hvalid.
    by apply uploadFiles_after_validation.
Qed.

(** C4 amended, at work.  The second file fails validation, and nothing is
    requested.  And with a validator that accepts two runs at most, each
    of two files passes, their merge of three runs would not, and it is
    sent all the same. *)
Lemma uploadFiles_phase_order_witness :
  requests_of
    (trace (snd (uploadFiles (test_host [] mixed_files) ["a.sarif"; "c.sarif"]
                   (state_of job_env)))) = [] ∧
  let h := with_schema_errors (test_host [200; 200; 202] counted_files)
             two_runs_errors in
  let run := uploadFiles h ["a.sarif"; "b.sarif"] (state_of job_env) in
  ∃ merged o p,
    combineSarifFiles h ["a.sarif"; "b.sarif"] = Return merged ∧
    JSON_parse merged = Return o ∧
    schema_errors h o = ["instance.runs does not meet maximum length of 2"] ∧
    sarif p = gzip_base64 h (addFingerprints h merged) ∧
    payloads_of (trace (snd run)) = [p].
Proof.
  split.
  - destruct (uploadFiles_phase_order (test_host [] mixed_files)
                ["a.sarif"; "c.sarif"] (state_of job_env)) as [H _].
    + intros (v & Hv & _). vm_compute in Hv. congruence.
    + by destruct (H _ eq_refl) as [_ ->].
  - intros h run.
    destruct (uploadFiles_phase_order h ["a.sarif"; "b.sarif"]
                (state_of job_env)) as (_ & _ & _ & H).
    { intros (v & Hv & _). vm_compute in Hv. congruence. }
    destruct (H ltac:(repeat constructor)
                (snd (getAnalysisKey h
                        (snd (exportVariable sentinelEnvVar sentinelEnvVar
                                (state_of job_env)))))
                "octo/demo") as [_ Hsent].
    { unfold prepared. cbv zeta.
      split; [eexists; vm_compute; reflexivity|].
      split; [exists "42", 42; repeat split; vm_compute; congruence|].
      split; [eexists; vm_compute; reflexivity|].
      split; [eexists; vm_compute; reflexivity|].
      split; [exists "CodeQL"; split; vm_compute; congruence|].
      repeat split; vm_compute; congruence. }
    destruct (Hsent _ _ _ eq_refl eq_refl eq_refl) as (p & Hsarif & _ & Hsnd).
    eexists _, _, p. split; [reflexivity|]. split; [reflexivity|].
    split; [reflexivity|]. split; [exact Hsarif|].
    fold run in Hsnd. rewrite Hsnd. simpl trace. rewrite payloads_of_app.
    reflexivity.
Defined.

(** The ref of an upload payload is the one [getRef] returns. *)
Lemma uploadFiles_payload_ref h sarifFiles st t p :
  ¬ sentinel_set st →
  trace (snd (uploadFiles h sarifFiles st)) = (trace st ++ t)%list →
  p ∈ payloads_of t →
  fst (getRef st) = Return (ref p).
Proof.
  intros Hunset Ht Hp.
  assert (truthy (env st !! sentinelEnvVar) = false) as Hfalse.
  { destruct (truthy _) eqn:Hs; [|done]. by apply sentinel_set_truthy in Hs. }
  by destruct (uploadFiles_sent h sarifFiles st t p Hfalse Ht Hp)
    as (_ & merged & _ & _ & _ & Href).
Qed.

(** ** Delivery, whatever the server answers *)

(** X1. Whatever the server answers and whatever the environment holds,
    the sleeps of one [uploadPayload] are the first [k] of 1 s, 5 s, 15 s
    for some [k ≤ 3], so at most 21 s in all; every request it makes is the
    same upload request with the payload it was given; it exports nothing;
    and it ends on a request, never on a sleep. *)
Theorem uploadPayload_effects (h : Host) (payload : Body) (st : State) :
  ∃ t k,
    snd (uploadPayload h payload st) = with_trace st t ∧
    (k ≤ 3)%nat ∧ sleeps_of t = take k [1000; 5000; 15000] ∧
    0 ≤ sum_list (sleeps_of t) ≤ 21000 ∧
    Forall (fun r => route r = upload_route ∧ body r = payload)
           (requests_of t) ∧
    exports_of t = [] ∧
    (t = [] ∨ ∃ t' r, t = (t' ++ [EvRequest r])%list).
Proof.
  assert (∃ t k, with_trace st [] = with_trace st t ∧
    (k ≤ 3)%nat ∧ sleeps_of t = take k [1000; 5000; 15000] ∧
    0 ≤ sum_list (sleeps_of t) ≤ 21000 ∧
    Forall (fun r => route r = upload_route ∧ body r = payload)
           (requests_of t) ∧
    exports_of t = [] ∧
    (t = [] ∨ ∃ t' r, t = (t' ++ [EvRequest r])%list)) as Hnone.
  { exists [], 0%nat. simpl.
    split; [done|]. split; [lia|]. split; [done|]. split; [lia|].
    split; [constructor|]. split; [done|by left]. }
  rewrite with_trace_nil in Hnone.
  unfold uploadPayload, bind at 1, getenv.
  destruct (bool_decide _); [exact Hnone|].
  unfold bind.
  pose proof (getRequiredEnvParam_state "GITHUB_REPOSITORY" st) as Hst.
  destruct (getRequiredEnvParam "GITHUB_REPOSITORY" st) as [[nwo|e] st'];
    simpl in Hst; subst st'; [|exact Hnone].
  fold (upload_request nwo payload).
  change (length backoffPeriods + 1)%nat with 4%nat.
  rewrite upload_attempts_once.
  exists [EvRequest (upload_request nwo payload)], 0%nat.
  split; [done|]. simpl. split; [lia|]. split; [done|]. split; [lia|].
  split; [by repeat constructor|]. split; [done|].
  right. by exists [], (upload_request nwo payload).
Qed.

(** X2. When delivery is enabled, [uploadPayload] makes one request and
    the answer to it decides the outcome: it returns exactly when the
    answer is a 202; when the client rejects the answer, as it does every
    answer in [[500, 600)], it throws the client's error; and on any other
    answer it throws the message built from that answer. *)
Theorem uploadPayload_outcome (h : Host) (payload : Body) (st : State)
    (nwo : string) :
  delivery_ready st nwo →
  let req := upload_request nwo payload in
  let r := response_at h st req 0 in
  let run := uploadPayload h payload st in
  snd run = with_trace st [EvRequest req] ∧
  (fst run = Return tt ↔ status r = Some 202) ∧
  (rejected r = true →
   fst run = Throw (HttpError (status r) (x_github_request_id r) (data r))) ∧
  (is_5xx (status r) = true → rejected r = true) ∧
  (rejected r = false → status r ≠ Some 202 →
   fst run = Throw (Error (upload_failed_message r))).
Proof.
  intros Hready req r run. subst run.
  rewrite (uploadPayload_once _ _ _ _ Hready). fold req. fold r.
  unfold upload_outcome. simpl.
  split; [done|]. split; [|split; [|split]].
  - destruct (rejected r) eqn:Hrej.
    + split; [done|]. intros H202. unfold rejected in Hrej.
      rewrite H202 in Hrej. done.
    + destruct (bool_decide _) eqn:Hb.
      * split; [|done]. intros _. by apply bool_decide_eq_true in Hb.
      * split; [done|]. intros H. by rewrite bool_decide_eq_true_2 in Hb.
  - by intros ->.
  - apply is_5xx_rejected.
  - intros -> H. by rewrite bool_decide_eq_false_2.
Qed.

(** X2 at work: a 200 is not a 202. *)
Lemma uploadPayload_outcome_witness :
  fst (uploadPayload (test_host [200] []) NoBody (state_of job_env)) =
  Throw (Error "Upload failed (F00D): (200) {}").
Proof.
  destruct (uploadPayload_outcome (test_host [200] []) NoBody
              (state_of job_env) "octo/demo") as (_ & _ & _ & _ & Hthrow).
  - repeat split; vm_compute; congruence.
  - rewrite Hthrow; [reflexivity|reflexivity|]. vm_compute. congruence.
Defined.

(** X3. When delivery is not enabled [uploadPayload] touches nothing: in
    test mode it returns at once, even if the repository is unknown; out of
    test mode, with the repository unset or empty, it throws before any
    request. *)
Theorem uploadPayload_not_ready (h : Host) (payload : Body) (st : State) :
  (env st !! "TEST_MODE" = Some "true" →
   uploadPayload h payload st = (Return tt, st)) ∧
  (env st !! "TEST_MODE" ≠ Some "true" →
   ¬ set_in st "GITHUB_REPOSITORY" →
   uploadPayload h payload st =
   (Throw (Error "GITHUB_REPOSITORY environment variable must be set"), st)).
Proof.
  split.
  - intros Ht. unfold uploadPayload, bind, getenv.
    by rewrite bool_decide_eq_true_2.
  - intros Ht Hrepo. unfold uploadPayload, bind at 1, getenv.
    rewrite bool_decide_eq_false_2 by done. unfold bind.
    destruct (getRequiredEnvParam "GITHUB_REPOSITORY" st) as [[v|e] st']
      eqn:Hp; apply getRequiredEnvParam_inv in Hp as [-> Hp].
    + destruct Hrepo. by exists v.
    + by subst e.
Qed.

(** X3 at work: test mode without a repository. *)
Lemma uploadPayload_not_ready_witness :
  uploadPayload (test_host [] []) NoBody (state_of [("TEST_MODE", "true")]) =
  (Return tt, state_of [("TEST_MODE", "true")]).
Proof.
  by apply (uploadPayload_not_ready (test_host [] []) NoBody
              (state_of [("TEST_MODE", "true")])).
Defined.

(** ** Counting results *)

Lemma count_loop_spec rs :
  ∀ n m,
    count_loop rs n = Return m ↔
    Forall has_results rs ∧ m = n + sum_list (map run_results_count rs).
Proof.
  unfold has_results, run_results_count.
  induction rs as [|r rs IH]; intros n m; simpl.
  - split.
    + intros [= <-]. split; [constructor|lia].
    + intros [_ ->]. f_equal. lia.
  - destruct (results r) as [res|] eqn:Hres; simpl.
    + rewrite IH, Forall_cons, Hres. simpl. split.
      * intros [? ->]. split; [split; [by eexists|done]|]. lia.
      * intros [[_ ?] ->]. split; [done|lia].
    + split; [done|]. intros [H _]. apply Forall_cons in H as [[? H] _].
      rewrite Hres in H. done.
Qed.

Lemma sum_list_app a b : sum_list (a ++ b) = sum_list a + sum_list b.
Proof. induction a as [|x a IH]; simpl; [done|]. rewrite IH. lia. Qed.

Lemma results_total_nonneg rs : 0 ≤ sum_list (map run_results_count rs).
Proof.
  induction rs as [|r rs IH]; simpl; [done|]. unfold run_results_count at 1.
  lia.
Qed.

(** What a successful merge was made of. *)
Lemma combine_loop_runs h :
  ∀ sarifFiles acc c,
    combine_loop h sarifFiles acc = Return c →
    ∃ rss, Forall2 (file_runs h) sarifFiles rss ∧
           c_runs c = (c_runs acc ++ concat rss)%list.
Proof.
  induction sarifFiles as [|f fs IH]; intros acc c; simpl.
  - intros [= <-]. exists []. split; [constructor|]. by rewrite app_nil_r.
  - unfold readFileSync. destruct (files h f) as [[|o]|] eqn:Hf; simpl;
      try done.
    destruct (version_eqb (c_version acc) VNull); simpl.
    + destruct (runs o) as [rs|] eqn:Hrs; [|done]. intros Hc.
      apply IH in Hc as (rss & Hrss & Hc). simpl in Hc.
      exists (rs :: rss). split.
      * constructor; [|done]. exists (version o). rewrite Hf.
        destruct o; simpl in *. by subst.
      * rewrite Hc. simpl. by rewrite <- app_assoc.
    + destruct (negb _); simpl; [done|].
      destruct (runs o) as [rs|] eqn:Hrs; [|done]. intros Hc.
      apply IH in Hc as (rss & Hrss & Hc). simpl in Hc.
      exists (rs :: rss). split.
      * constructor; [|done]. exists (version o). rewrite Hf.
        destruct o; simpl in *. by subst.
      * rewrite Hc. simpl. by rewrite <- app_assoc.
Qed.

Lemma combineSarifFiles_runs h sarifFiles merged :
  combineSarifFiles h sarifFiles = Return merged →
  ∃ v rss, Forall2 (file_runs h) sarifFiles rss ∧
           merged = Json {| version := v; runs := Some (concat rss) |}.
Proof.
  unfold combineSarifFiles.
  destruct (combine_loop h sarifFiles _) as [c|e] eqn:Hc; simpl; [|done].
  intros [= <-]. apply combine_loop_runs in Hc as (rss & Hrss & Hc).
  exists (c_version c), rss. split; [done|]. unfold JSON_stringify.
  by rewrite Hc.
Qed.

Lemma countResultsInSarif_iff sarif n :
  countResultsInSarif sarif = Return n ↔
  ∃ v rs, sarif = Json {| version := v; runs := Some rs |} ∧
          Forall has_results rs ∧
          n = sum_list (map run_results_count rs).
Proof.
  unfold countResultsInSarif.
  destruct sarif as [|[v [rs|]]]; simpl.
  - split; [done|]. by intros (? & ? & [=] & _).
  - rewrite count_loop_spec. split.
    + intros [? ->]. by exists v, rs.
    + intros (? & ? & [= <- <-] & ? & ->). done.
  - split; [done|]. by intros (? & ? & [=] & _).
Qed.

(** X4. [countResultsInSarif] returns [n] exactly when the text parses
    to a document with a [runs] array, every run of which has a [results]
    array, and [n] is the sum of the lengths of these arrays; a count is
    never negative.  A malformed text gives a SyntaxError, and a missing
    [runs] or [results] member a TypeError. *)
Theorem countResultsInSarif_spec (sarif : Text) :
  (∀ n, countResultsInSarif sarif = Return n ↔
        ∃ v rs, sarif = Json {| version := v; runs := Some rs |} ∧
                Forall has_results rs ∧
                n = sum_list (map run_results_count rs)) ∧
  (∀ n, countResultsInSarif sarif = Return n → 0 ≤ n) ∧
  (∀ e, countResultsInSarif sarif = Throw e →
        (e = SyntaxError ∧ sarif = Malformed) ∨
        (e = TypeError ∧ sarif ≠ Malformed)).
Proof.
  split; [intros n; apply countResultsInSarif_iff|]. split.
  - intros n Hn. apply countResultsInSarif_iff in Hn as (? & rs & _ & _ & ->).
    apply results_total_nonneg.
  - intros e. unfold countResultsInSarif.
    destruct sarif as [|[v [rs|]]]; simpl.
    + intros [= <-]. by left.
    + intros He. right. split; [|done].
      revert He. generalize 0.
      induction rs as [|r rs IH]; intros z; simpl; [done|].
      destruct (results r); [apply IH|]. by intros [= <-].
    + intros [= <-]. by right.
Qed.

(** X4 at work: a run without [results]. *)
Lemma countResultsInSarif_spec_witness :
  countResultsInSarif
    (Json {| version := VString "2.1.0";
             runs := Some [{| tool := None; results := None |}] |}) =
  Throw TypeError.
Proof.
  destruct (countResultsInSarif
              (Json {| version := VString "2.1.0";
                       runs := Some [{| tool := None; results := None |}] |}))
    as [n|e] eqn:H.
  - vm_compute in H. discriminate H.
  - destruct (countResultsInSarif_spec
                (Json {| version := VString "2.1.0";
                         runs := Some [{| tool := None; results := None |}] |}))
      as (_ & _ & He).
    destruct (He e H) as [[_ Hm]|[-> _]]; [discriminate Hm|reflexivity].
Defined.

(** X5. The count of a merged document is the sum of the counts of the
    files it was merged from. *)
Theorem countResultsInSarif_merge (h : Host) (sarifFiles : list string)
    (merged : Text) (counts : list Z) :
  combineSarifFiles h sarifFiles = Return merged →
  Forall2 (fun f n => ∃ t, files h f = Some t ∧
                           countResultsInSarif t = Return n)
          sarifFiles counts →
  countResultsInSarif merged = Return (sum_list counts).
Proof.
  intros Hmerge Hcounts.
  apply combineSarifFiles_runs in Hmerge as (v & rss & Hrss & ->).
  apply countResultsInSarif_iff. exists v, (concat rss). split; [done|].
  revert counts Hcounts.
  induction Hrss as [|f rs fs rss [v' Hf] Hrest IH]; intros counts Hcounts.
  - apply Forall2_nil_inv_l in Hcounts as ->. split; [constructor|done].
  - apply Forall2_cons_inv_l in Hcounts
      as (n & counts' & (t & Ht & Hn) & Hcounts & ->).
    rewrite Hf in Ht. injection Ht as <-.
    unfold countResultsInSarif in Hn. simpl in Hn.
    apply count_loop_spec in Hn as [Hres ->].
    destruct (IH counts' Hcounts) as [Hall Hsum].
    simpl. rewrite map_app, sum_list_app, <- Hsum.
    split; [by apply Forall_app|lia].
Qed.

(** X5 at work: files with 3 and 5 results merge into 8. *)
Lemma countResultsInSarif_merge_witness :
  countResultsInSarif
    (Json {| version := VString "2.1.0";
             runs := Some [run_of "ESLint" 3; run_of "CodeQL" 2;
                           run_of "ESLint" 3] |}) =
  Return 8.
Proof.
  apply (countResultsInSarif_merge (test_host [] counted_files)
           ["a.sarif"; "b.sarif"] _ [3; 5]).
  - reflexivity.
  - repeat constructor; eexists; (split; [reflexivity|reflexivity]).
Defined.

(** ** Tool names: uniqueness, and merging *)

Lemma elem_of_filter_bool {A} (p : A → bool) (l : list A) x :
  x ∈ List.filter p l ↔ x ∈ l ∧ p x = true.
Proof. rewrite !list_elem_of_In. apply filter_In. Qed.

Lemma elem_of_first_appearances l x : x ∈ first_appearances l ↔ x ∈ l.
Proof.
  induction l as [|y l IH]; simpl; [done|].
  rewrite !elem_of_cons, elem_of_filter_bool, IH.
  destruct (decide (x = y)) as [->|Hne]; [tauto|].
  apply String.eqb_neq in Hne as Hb. rewrite Hb. simpl. tauto.
Qed.

Lemma NoDup_filter_bool {A} (p : A → bool) (l : list A) :
  NoDup l → NoDup (List.filter p l).
Proof.
  induction 1 as [|x l Hx Hl IH]; simpl; [constructor|].
  destruct (p x); [|done]. constructor; [|done].
  rewrite elem_of_filter_bool. tauto.
Qed.

Lemma NoDup_first_appearances l : NoDup (first_appearances l).
Proof.
  induction l as [|y l IH]; simpl; constructor.
  - rewrite elem_of_filter_bool, String.eqb_refl. simpl. by intros [_ ?].
  - by apply NoDup_filter_bool.
Qed.

Lemma filter_partition {A} (p : A → bool) (l : list A) :
  (List.filter p l ++ List.filter (fun x => negb (p x)) l)%list ≡ₚ l.
Proof.
  induction l as [|x l IH]; simpl; [done|].
  destruct (p x); simpl.
  - by rewrite IH.
  - by rewrite <- Permutation_middle, IH.
Qed.

Lemma kept_name_spec x : kept_name x = true ↔ x ≠ "" ∧ x ≠ "__proto__".
Proof.
  unfold kept_name. rewrite andb_true_iff, !negb_true_iff, !String.eqb_neq.
  done.
Qed.

(** The names returned are, in some order, the kept driver names at their
    first appearance. *)
Lemma getToolNames_Permutation (o : SarifObject) :
  ∃ l, getToolNames (Json o) = Return l ∧
       l ≡ₚ first_appearances
              (List.filter kept_name (driver_names (default [] (runs o)))).
Proof.
  eexists. split; [apply getToolNames_keys|].
  set (names := driver_names (default [] (runs o))).
  set (ks := first_appearances (List.filter kept_name names)).
  destruct (index_keys_spec ks) as [Hsnd _].
  rewrite sort_indices_Permutation, Hsnd.
  rewrite <- (filter_both (fun n => negb (is_index n)) kept_name).
  rewrite <- filter_first_appearances. fold ks.
  apply filter_partition.
Qed.

Lemma getToolNames_elem (o : SarifObject) l x :
  getToolNames (Json o) = Return l →
  x ∈ l ↔ x ∈ driver_names (default [] (runs o)) ∧ kept_name x = true.
Proof.
  destruct (getToolNames_Permutation o) as (l' & -> & Hperm).
  intros [= <-]. rewrite Hperm, elem_of_first_appearances.
  apply elem_of_filter_bool.
Qed.

(** X6. [getToolNames] on a parsed document always returns, and what it
    returns is an array of unique names, as its documentation says: no name
    occurs twice, and the names are exactly the driver names of the runs
    that are not empty and not [__proto__]. *)
Theorem getToolNames_unique (o : SarifObject) :
  ∃ l, getToolNames (Json o) = Return l ∧ NoDup l ∧
       ∀ x, x ∈ l ↔
            x ∈ driver_names (default [] (runs o)) ∧
            x ≠ "" ∧ x ≠ "__proto__".
Proof.
  destruct (getToolNames_Permutation o) as (l & Hl & Hperm).
  exists l. split; [done|]. split.
  - rewrite Hperm. apply NoDup_first_appearances.
  - intros x. rewrite (getToolNames_elem o l x Hl), kept_name_spec. done.
Qed.

Lemma driver_names_app a b :
  driver_names (a ++ b) = (driver_names a ++ driver_names b)%list.
Proof. unfold driver_names. apply omap_app. Qed.

(** X7. The tool names of a merged document are those of the files it
    was merged from: a name is returned for the merge exactly when it is
    returned for one of the files. *)
Theorem getToolNames_merge (h : Host) (sarifFiles : list string)
    (merged : Text) (lists : list (list string)) (l : list string) :
  combineSarifFiles h sarifFiles = Return merged →
  Forall2 (fun f l' => ∃ t, files h f = Some t ∧ getToolNames t = Return l')
          sarifFiles lists →
  getToolNames merged = Return l →
  ∀ x, x ∈ l ↔ ∃ l', l' ∈ lists ∧ x ∈ l'.
Proof.
  intros Hmerge Hlists Hl x.
  apply combineSarifFiles_runs in Hmerge as (v & rss & Hrss & ->).
  rewrite (getToolNames_elem _ l x Hl). simpl. clear Hl l v.
  revert lists Hlists.
  induction Hrss as [|f rs fs rss [v' Hf] Hrest IH]; intros lists Hlists.
  - apply Forall2_nil_inv_l in Hlists as ->. simpl. split.
    + intros [H _]. by apply elem_of_nil in H.
    + intros (l' & H & _). by apply elem_of_nil in H.
  - apply Forall2_cons_inv_l in Hlists
      as (l1 & lists' & (t & Ht & Hl1) & Hlists & ->).
    rewrite Hf in Ht. injection Ht as <-.
    simpl. rewrite driver_names_app, elem_of_app.
    pose proof (getToolNames_elem _ l1 x Hl1) as H1. simpl in H1.
    specialize (IH lists' Hlists). split.
    + intros [[Hx|Hx] Hk].
      * exists l1. split; [apply list_elem_of_here|]. by apply H1.
      * destruct IH as [IH _]. destruct (IH (conj Hx Hk)) as (l' & Hl' & Hxl).
        exists l'. split; [by apply list_elem_of_further|done].
    + intros (l' & Hl' & Hxl). apply elem_of_cons in Hl' as [->|Hl'].
      * apply H1 in Hxl as [? ?]. split; [by left|done].
      * destruct IH as [_ IH]. destruct IH as [? ?]; [by exists l'|].
        split; [by right|done].
Qed.

(** X7 at work: the names of two files. *)
Lemma getToolNames_merge_witness :
  "CodeQL" ∈ ["ESLint"; "CodeQL"].
Proof.
  apply (getToolNames_merge (test_host [] counted_files)
           ["a.sarif"; "b.sarif"]
           (Json {| version := VString "2.1.0";
                    runs := Some [run_of "ESLint" 3; run_of "CodeQL" 2;
                                  run_of "ESLint" 3] |})
           [["ESLint"]; ["CodeQL"; "ESLint"]] ["ESLint"; "CodeQL"]).
  - reflexivity.
  - repeat constructor; eexists; (split; [reflexivity|reflexivity]).
  - reflexivity.
  - exists ["CodeQL"; "ESLint"].
    split; [apply list_elem_of_further, list_elem_of_here|apply list_elem_of_here].
Defined.

(** ** Validation and merging: which failure is reported *)

(** X8. A file passes [validateSarifFileSchema] exactly when it exists,
    parses and has no schema error; a missing file is reported as such and
    an unparsable one as a syntax error, before the schema is consulted.
    Validating a list stops at the first file that fails: its error is the
    result whatever files follow. *)
Theorem validate_all_first_failure (h : Host) :
  (∀ f, validateSarifFileSchema h f = Return tt ↔
        ∃ o, files h f = Some (Json o) ∧ schema_errors h o = []) ∧
  (∀ f, files h f = None →
        validateSarifFileSchema h f = Throw (SystemError "ENOENT" f)) ∧
  (∀ f, files h f = Some Malformed →
        validateSarifFileSchema h f = Throw SyntaxError) ∧
  (∀ passed f rest e,
     Forall (fun g => validateSarifFileSchema h g = Return tt) passed →
     validateSarifFileSchema h f = Throw e →
     validate_all h (passed ++ f :: rest) = Throw e).
Proof.
  split; [|split; [|split]].
  - intros f. unfold validateSarifFileSchema, readFileSync.
    destruct (files h f) as [[|o]|]; simpl.
    + split; [done|]. by intros (? & [=] & _).
    + destruct (schema_errors h o) eqn:He.
      * split; [by exists o|done].
      * split; [done|]. intros (? & [= <-] & ?). congruence.
    + split; [done|]. by intros (? & [=] & _).
  - intros f Hf. unfold validateSarifFileSchema, readFileSync. by rewrite Hf.
  - intros f Hf. unfold validateSarifFileSchema, readFileSync. by rewrite Hf.
  - intros passed f rest e Hpassed He.
    induction Hpassed as [|g passed Hg _ IH]; simpl.
    + by rewrite He.
    + by rewrite Hg.
Qed.

(** X8 at work: a missing file before a file that would fail too. *)
Lemma validate_all_first_failure_witness :
  validate_all (test_host [] mixed_files) ["a.sarif"; "gone.sarif"; "c.sarif"] =
  Throw (SystemError "ENOENT" "gone.sarif").
Proof.
  destruct (validate_all_first_failure (test_host [] mixed_files))
    as (_ & Hgone & _ & Hfirst).
  apply (Hfirst ["a.sarif"] "gone.sarif" ["c.sarif"]).
  - repeat constructor.
  - by apply Hgone.
Defined.

Lemma combine_loop_prefix_error h more :
  ∀ sarifFiles acc e,
    combine_loop h sarifFiles acc = Throw e →
    combine_loop h (sarifFiles ++ more) acc = Throw e.
Proof.
  induction sarifFiles as [|f fs IH]; intros acc e; simpl; [done|].
  destruct (readFileSync h f) as [t|e']; simpl; [|done].
  destruct (JSON_parse t) as [o|e']; simpl; [|done].
  destruct (if version_eqb (c_version acc) VNull then _ else _) as [v|e'];
    simpl; [|done].
  destruct (runs o); [apply IH|done].
Qed.

(** X9. A failure of the merge does not depend on the files that come
    after the one that caused it: if merging a list of files throws, merging
    any longer list that starts with it throws the same; so when a merge
    returns, the merge of every initial part of the list returns too. *)
Theorem combineSarifFiles_prefix (h : Host) (sarifFiles more : list string) :
  (∀ e, combineSarifFiles h sarifFiles = Throw e →
        combineSarifFiles h (sarifFiles ++ more) = Throw e) ∧
  (∀ merged, combineSarifFiles h (sarifFiles ++ more) = Return merged →
             ∃ part, combineSarifFiles h sarifFiles = Return part).
Proof.
  assert (∀ e, combineSarifFiles h sarifFiles = Throw e →
               combineSarifFiles h (sarifFiles ++ more) = Throw e) as Herr.
  { intros e. unfold combineSarifFiles.
    destruct (combine_loop h sarifFiles _) as [c|e'] eqn:Hc; simpl; [done|].
    intros [= <-]. by rewrite (combine_loop_prefix_error h more _ _ e'). }
  split; [exact Herr|].
  intros merged Hm. destruct (combineSarifFiles h sarifFiles) as [part|e] eqn:Hp.
  - by exists part.
  - rewrite (Herr e eq_refl) in Hm. done.
Qed.

(** X9 at work: a version mismatch shows whatever file follows. *)
Lemma combineSarifFiles_prefix_witness :
  combineSarifFiles (test_host [] mixed_files)
    ["a.sarif"; "c.sarif"; "gone.sarif"] =
  Throw (ThrownString "Different SARIF versions encountered: 2.1.0 and 2.0.0").
Proof.
  by apply (combineSarifFiles_prefix (test_host [] mixed_files)
              ["a.sarif"; "c.sarif"] ["gone.sarif"]).
Defined.

(** ** The ref under analysis: what the pattern matches *)

Lemma append_cons (x : ascii) (a b : string) :
  String x a +:+ b = String x (a +:+ b).
Proof. reflexivity. Qed.

Lemma append_assoc_s (a b c : string) : (a +:+ b) +:+ c = a +:+ (b +:+ c).
Proof.
  induction a as [|x a IH]; [done|]. by rewrite !append_cons, IH.
Qed.

Lemma length_append_s (a b : string) :
  String.length (a +:+ b) = (String.length a + String.length b)%nat.
Proof.
  induction a as [|x a IH]; [done|]. rewrite append_cons. simpl.
  by rewrite IH.
Qed.

Lemma strip_prefix_Some p s r : strip_prefix p s = Some r → s = p +:+ r.
Proof.
  revert s. induction p as [|a p IH]; intros s; simpl.
  - by intros [= ->].
  - destruct s as [|b s]; [done|].
    destruct (Ascii.eqb a b) eqn:Hab; [|done].
    apply Ascii.eqb_eq in Hab as ->. intros H. by rewrite (IH _ H).
Qed.

Lemma span_digits_spec s ds r :
  span_digits s = (ds, r) → s = ds +:+ r ∧ all_digits ds = true.
Proof.
  unfold all_digits. revert ds r. induction s as [|c s IH]; intros ds r; simpl.
  - by intros [= <- <-].
  - destruct (is_digit c) eqn:Hc.
    + destruct (span_digits s) as [ds' r'] eqn:Hs. intros [= <- <-].
      destruct (IH ds' r' eq_refl) as [-> Hds]. simpl. by rewrite Hc.
    + by intros [= <- <-].
Qed.

Lemma pull_ref_match_here_Some s n a :
  pull_ref_match_here s = Some (n, a) →
  s = pull_merge_ref n +:+ a ∧ n ≠ "" ∧ all_digits n = true.
Proof.
  unfold pull_ref_match_here, pull_merge_ref.
  destruct (strip_prefix "refs/pull/" s) as [r1|] eqn:H1; [|done].
  apply strip_prefix_Some in H1 as ->.
  destruct (span_digits r1) as [ds r2] eqn:H2.
  apply span_digits_spec in H2 as [-> Hds].
  destruct (String.eqb ds "") eqn:Hne; [done|].
  apply String.eqb_neq in Hne.
  destruct (strip_prefix "/merge" r2) as [r3|] eqn:H3; [|done].
  apply strip_prefix_Some in H3 as ->. intros [= <- <-].
  split; [|done]. by rewrite !append_assoc_s.
Qed.

Lemma pull_ref_match_here_complete n a :
  n ≠ "" → all_digits n = true →
  pull_ref_match_here (pull_merge_ref n +:+ a) = Some (n, a).
Proof.
  intros Hne Hn. unfold pull_ref_match_here, pull_merge_ref.
  rewrite !append_assoc_s, strip_prefix_app.
  rewrite span_digits_run by done.
  apply String.eqb_neq in Hne as ->. by rewrite strip_prefix_app.
Qed.

(** The match that [pull_ref_exec] finds is an occurrence of the pattern,
    and no occurrence starts before it. *)
Lemma pull_ref_exec_Some s :
  ∀ b n a,
    pull_ref_exec s = Some (b, n, a) →
    s = b +:+ pull_merge_ref n +:+ a ∧ n ≠ "" ∧ all_digits n = true ∧
    ∀ b' n' a', n' ≠ "" → all_digits n' = true →
                s = b' +:+ pull_merge_ref n' +:+ a' →
                (String.length b ≤ String.length b')%nat.
Proof.
  induction s as [|c s IH]; intros b n a.
  - unfold pull_ref_exec.
    destruct (pull_ref_match_here "") as [[n0 a0]|] eqn:Hm; [|done].
    intros [= <- <- <-]. apply pull_ref_match_here_Some in Hm as (? & ? & ?).
    repeat split; try done; simpl; lia.
  - simpl pull_ref_exec.
    destruct (pull_ref_match_here (String c s)) as [[n0 a0]|] eqn:Hm.
    + intros [= <- <- <-].
      apply pull_ref_match_here_Some in Hm as (? & ? & ?).
      repeat split; try done; simpl; lia.
    + destruct (pull_ref_exec s) as [[[b0 n0] a0]|] eqn:He; [|done].
      intros [= <- <- <-].
      destruct (IH b0 n0 a0 eq_refl) as (-> & Hne & Hn & Hleft).
      repeat split; try done.
      intros b' n' a' Hne' Hn' Hs. destruct b' as [|c' b'].
      * change ("" +:+ pull_merge_ref n' +:+ a')
          with (pull_merge_ref n' +:+ a') in Hs.
        rewrite Hs in Hm.
        rewrite pull_ref_match_here_complete in Hm by done. done.
      * rewrite append_cons in Hs. injection Hs as _ Hs. simpl.
        specialize (Hleft b' n' a' Hne' Hn' Hs). lia.
Qed.

Lemma pull_ref_exec_here s n a :
  pull_ref_match_here s = Some (n, a) → pull_ref_exec s = Some ("", n, a).
Proof.
  intros H. destruct s as [|c s]; [by vm_compute in H|].
  unfold pull_ref_exec; fold pull_ref_exec. by rewrite H.
Qed.

Lemma pull_ref_exec_complete b n a :
  n ≠ "" → all_digits n = true →
  pull_ref_exec (b +:+ pull_merge_ref n +:+ a) ≠ None.
Proof.
  intros Hne Hn. induction b as [|c b IH].
  - change ("" +:+ pull_merge_ref n +:+ a) with (pull_merge_ref n +:+ a).
    by rewrite (pull_ref_exec_here _ n a)
      by (by apply pull_ref_match_here_complete).
  - rewrite append_cons. unfold pull_ref_exec; fold pull_ref_exec.
    destruct (pull_ref_match_here _) as [[? ?]|]; [done|].
    by destruct (pull_ref_exec _) as [[[? ?] ?]|].
Qed.

(** X10. With [GITHUB_REF] set, [getRef] returns and leaves the state as
    it is.  It returns the ref unchanged exactly when the ref contains no
    occurrence of [refs/pull/<digits>/merge]; otherwise it returns the ref
    with [merge] replaced by [head] in one occurrence, the leftmost. *)
Theorem getRef_spec (st : State) (s : string) :
  env st !! "GITHUB_REF" = Some s → s ≠ "" →
  ∃ r, getRef st = (Return r, st) ∧
    ((r = s ∧
      ∀ b n a, n ≠ "" → all_digits n = true →
               s ≠ b +:+ pull_merge_ref n +:+ a) ∨
     (r ≠ s ∧
      ∃ b n a, n ≠ "" ∧ all_digits n = true ∧
        s = b +:+ pull_merge_ref n +:+ a ∧
        r = b +:+ pull_head_ref n +:+ a ∧
        ∀ b' n' a', n' ≠ "" → all_digits n' = true →
                    s = b' +:+ pull_merge_ref n' +:+ a' →
                    (String.length b ≤ String.length b')%nat)).
Proof.
  intros Href Hne. unfold getRef, bind.
  rewrite (getRequiredEnvParam_set _ s) by done.
  unfold pull_ref_test, pull_ref_replace.
  destruct (pull_ref_exec s) as [[[b n] a]|] eqn:He.
  - eexists. split; [reflexivity|]. right.
    apply pull_ref_exec_Some in He as (Hs & Hn0 & Hn & Hleft).
    assert (b +:+ "refs/pull/" +:+ n +:+ "/head" +:+ a =
            b +:+ pull_head_ref n +:+ a) as Hr.
    { unfold pull_head_ref. by rewrite !append_assoc_s. }
    rewrite Hr. split.
    + intros Heq. apply (f_equal String.length) in Heq. rewrite Hs in Heq.
      unfold pull_head_ref, pull_merge_ref in Heq.
      rewrite !length_append_s in Heq. simpl in Heq. lia.
    + exists b, n, a. done.
  - exists s. split; [done|]. left. split; [done|].
    intros b n a Hn0 Hn Hs. rewrite Hs in He.
    by apply (pull_ref_exec_complete b n a Hn0 Hn).
Qed.

(** X10 at work: a branch ref that does not contain the pattern. *)
Lemma getRef_spec_witness :
  ∃ r, getRef (state_of [("GITHUB_REF", "refs/heads/main")]) =
       (Return r, state_of [("GITHUB_REF", "refs/heads/main")]).
Proof.
  destruct (getRef_spec (state_of [("GITHUB_REF", "refs/heads/main")])
              "refs/heads/main") as (r & Hr & _).
  - reflexivity.
  - congruence.
  - by exists r.
Defined.

(** ** The abort check and the status report *)

(** X11. [should_abort] always returns, and changes neither the
    environment nor the trace.  It returns [true], and marks the action
    failed, exactly when [GITHUB_REF] is undefined or the init action is
    required and its marker is undefined; otherwise it returns [false] and
    leaves the state as it was.  It accepts an empty [GITHUB_REF]: after a
    [false] answer, [getRef] returns exactly when [GITHUB_REF] is not the
    empty string. *)
Theorem should_abort_spec (initCompleted actionName : string)
    (requireInit : bool) (st : State) :
  ∃ b st',
    should_abort initCompleted actionName requireInit st = (Return b, st') ∧
    env st' = env st ∧ trace st' = trace st ∧
    (b = true ↔
     env st !! "GITHUB_REF" = None ∨
     (requireInit = true ∧ env st !! initCompleted = None)) ∧
    (b = true → is_Some (failed st')) ∧
    (b = false → st' = st) ∧
    (b = false →
     (∃ r, getRef st' = (Return r, st')) ↔ env st !! "GITHUB_REF" ≠ Some "").
Proof.
  unfold should_abort, bind at 1, getenv at 1.
  destruct (env st !! "GITHUB_REF") as [ref|] eqn:Href.
  - unfold bind at 1, getenv at 1.
    destruct requireInit, (env st !! initCompleted) as [i|] eqn:Hinit; simpl.
    + exists false, st. repeat split; try done.
      * intros [?|[_ ?]]; done.
      * intros (r & Hr). intros [= ->].
        unfold getRef, bind, getRequiredEnvParam, bind, getenv in Hr.
        rewrite Href in Hr. simpl in Hr. done.
      * intros Hne. unfold getRef, bind.
        rewrite (getRequiredEnvParam_set _ ref); [|done|congruence].
        destruct (pull_ref_test ref); eauto.
    + eexists true, _. unfold bind, setFailed, ret. simpl.
      repeat split; try done; eauto.
    + exists false, st. repeat split; try done.
      * intros [?|[? _]]; done.
      * intros (r & Hr). intros [= ->].
        unfold getRef, bind, getRequiredEnvParam, bind, getenv in Hr.
        rewrite Href in Hr. simpl in Hr. done.
      * intros Hne. unfold getRef, bind.
        rewrite (getRequiredEnvParam_set _ ref); [|done|congruence].
        destruct (pull_ref_test ref); eauto.
    + exists false, st. repeat split; try done.
      * intros [?|[? _]]; done.
      * intros (r & Hr). intros [= ->].
        unfold getRef, bind, getRequiredEnvParam, bind, getenv in Hr.
        rewrite Href in Hr. simpl in Hr. done.
      * intros Hne. unfold getRef, bind.
        rewrite (getRequiredEnvParam_set _ ref); [|done|congruence].
        destruct (pull_ref_test ref); eauto.
  - eexists true, _. unfold bind, setFailed, ret. simpl.
    repeat split; try done; eauto.
Qed.

Lemma set_in_dec st p : set_in st p ∨ ¬ set_in st p.
Proof.
  unfold set_in. destruct (env st !! p) as [v|] eqn:Hv.
  - destruct (decide (v = "")) as [->|Hne].
    + right. intros (? & [= <-] & ?). done.
    + left. eauto.
  - right. by intros (? & [=] & _).
Qed.

Lemma getRequiredEnvParam_unset p st :
  ¬ set_in st p →
  getRequiredEnvParam p st =
  (Throw (Error (p +:+ " environment variable must be set")), st).
Proof.
  intros Hp.
  destruct (getRequiredEnvParam p st) as [[v|e] st'] eqn:H;
    apply getRequiredEnvParam_inv in H as [-> H].
  - destruct Hp. by exists v.
  - by subst.
Qed.

(** The run of [getWorkflowPath] in a job that names its repository and
    its run, by the answers to the two requests. *)
Lemma getWorkflowPath_run h st nwo rid :
  env st !! "GITHUB_REPOSITORY" = Some nwo → nwo ≠ "" →
  env st !! "GITHUB_RUN_ID" = Some rid → rid ≠ "" →
  let r1 := lookup_request h nwo rid in
  let a1 := response_at h st r1 0 in
  let r2 := workflow_request (data_workflow_url a1) in
  let a2 := response_at h st r2 1 in
  getWorkflowPath h st =
  if rejected a1 then (Throw (http_error a1), with_trace st [EvRequest r1])
  else (if rejected a2 then Throw (http_error a2) else Return (data_path a2),
        with_trace st [EvRequest r1; EvRequest r2]).
Proof.
  intros Hnwo Hne Hrid Hne' r1 a1 r2 a2.
  unfold getWorkflowPath, bind at 1.
  rewrite (getRequiredEnvParam_set _ nwo) by done.
  unfold bind at 1. rewrite (getRequiredEnvParam_set _ rid) by done.
  unfold bind at 1. rewrite request_eq.
  fold (lookup_request h nwo rid). fold r1. fold a1.
  destruct (rejected a1); [done|].
  unfold bind at 1. rewrite request_eq, response_at_shift.
  fold (workflow_request (data_workflow_url a1)). fold r2. fold a2.
  rewrite with_trace_app. simpl app.
  by destruct (rejected a2).
Qed.

Lemma lookups_of_app t1 t2 :
  lookups_of (t1 ++ t2) = (lookups_of t1 ++ lookups_of t2)%list.
Proof. unfold lookups_of. by rewrite requests_of_app, List.filter_app. Qed.

(** The run of [getAnalysisKey] when no key is cached, by the first
    variable that is missing and by the answers to the two requests. *)
Lemma getAnalysisKey_uncached h st :
  env st !! CODEQL_ACTION_ANALYSIS_KEY h = None →
  (¬ set_in st "GITHUB_REPOSITORY" →
   getAnalysisKey h st =
   (Throw (Error "GITHUB_REPOSITORY environment variable must be set"), st)) ∧
  (set_in st "GITHUB_REPOSITORY" → ¬ set_in st "GITHUB_RUN_ID" →
   getAnalysisKey h st =
   (Throw (Error "GITHUB_RUN_ID environment variable must be set"), st)) ∧
  (set_in st "GITHUB_REPOSITORY" → set_in st "GITHUB_RUN_ID" →
   ∃ r1 r2 a1 a2, is_lookup r1 = true ∧ is_lookup r2 = false ∧
     (rejected a1 = true →
      getAnalysisKey h st =
      (Throw (http_error a1), with_trace st [EvRequest r1])) ∧
     (rejected a1 = false → rejected a2 = true →
      getAnalysisKey h st =
      (Throw (http_error a2), with_trace st [EvRequest r1; EvRequest r2])) ∧
     (rejected a1 = false → rejected a2 = false →
      ¬ set_in st "GITHUB_JOB" →
      getAnalysisKey h st =
      (Throw (Error "GITHUB_JOB environment variable must be set"),
       with_trace st [EvRequest r1; EvRequest r2])) ∧
     (rejected a1 = false → rejected a2 = false →
      set_in st "GITHUB_JOB" → ∃ key st',
        getAnalysisKey h st = (Return key, st'))).
Proof.
  intros Hk.
  assert (getAnalysisKey h st =
          (let* workflowPath := getWorkflowPath h in
           let* jobName := getRequiredEnvParam "GITHUB_JOB" in
           let analysisKey := str_undef workflowPath +:+ ":" +:+ jobName in
           exportVariable (CODEQL_ACTION_ANALYSIS_KEY h) analysisKey >>
           ret analysisKey) st) as ->.
  { unfold getAnalysisKey, bind at 1, getenv at 1. by rewrite Hk. }
  split; [|split].
  - intros Hrepo. unfold bind at 1, getWorkflowPath. unfold bind at 1.
    by rewrite getRequiredEnvParam_unset.
  - intros (nwo & ? & ?) Hrid. unfold bind at 1, getWorkflowPath.
    unfold bind at 1. rewrite (getRequiredEnvParam_set _ nwo) by done.
    unfold bind at 1. by rewrite getRequiredEnvParam_unset.
  - intros (nwo & Hnwo & Hne) (rid & Hrid & Hne').
    pose proof (getWorkflowPath_run h st nwo rid Hnwo Hne Hrid Hne') as Hw.
    cbv zeta in Hw.
    set (r1 := lookup_request h nwo rid) in *.
    set (a1 := response_at h st r1 0) in *.
    set (r2 := workflow_request (data_workflow_url a1)) in *.
    set (a2 := response_at h st r2 1) in *.
    exists r1, r2, a1, a2.
    split; [done|]. split; [done|].
    split; [|split; [|split]].
    + intros Ha1. unfold bind at 1. by rewrite Hw, Ha1.
    + intros Ha1 Ha2. unfold bind at 1. by rewrite Hw, Ha1, Ha2.
    + intros Ha1 Ha2 Hj. unfold bind at 1. rewrite Hw, Ha1, Ha2.
      unfold bind at 1. by rewrite getRequiredEnvParam_unset.
    + intros Ha1 Ha2 (job & ? & ?). unfold bind at 1. rewrite Hw, Ha1, Ha2.
      unfold bind at 1. rewrite (getRequiredEnvParam_set _ job) by done.
      unfold bind. simpl. eauto.
Qed.

(** Without a cached key and without a job name, [getAnalysisKey] looks
    the workflow up once and throws. *)
Lemma getAnalysisKey_no_job h st :
  env st !! CODEQL_ACTION_ANALYSIS_KEY h = None →
  set_in st "GITHUB_REPOSITORY" → set_in st "GITHUB_RUN_ID" →
  ¬ set_in st "GITHUB_JOB" →
  ∃ e t, getAnalysisKey h st = (Throw e, with_trace st t) ∧
         length (lookups_of t) = 1%nat.
Proof.
  intros Hk Hrepo Hrid Hj.
  destruct (getAnalysisKey_uncached h st Hk) as (_ & _ & H3).
  destruct (H3 Hrepo Hrid)
    as (r1 & r2 & a1 & a2 & Hr1 & Hr2 & Hrej1 & Hrej2 & Hjob & _).
  destruct (rejected a1) eqn:Ha1.
  { eexists _, _. split; [by apply Hrej1|].
    unfold lookups_of. simpl. by rewrite Hr1. }
  destruct (rejected a2) eqn:Ha2.
  { eexists _, _. split; [by apply Hrej2|].
    unfold lookups_of. simpl. by rewrite Hr1, Hr2. }
  eexists _, _. split; [by apply Hjob|].
  unfold lookups_of. simpl. by rewrite Hr1, Hr2.
Qed.

(** X12. When [getAnalysisKey] throws, nothing is cached: no key was
    stored before and none is stored after, and the environment is as it
    was.  The error is that of a missing variable or the client's, for a
    lookup request that it rejected.  A missing repository or run is found
    before any request; the client's error ends the lookup at the rejected
    request, the first or the second; and when the missing variable is
    [GITHUB_JOB], both requests of the lookup have been answered all the
    same, and a further call looks the workflow up again and throws
    again. *)
Theorem getAnalysisKey_failure (h : Host) (st : State) (e : Exn) (st' : State) :
  getAnalysisKey h st = (Throw e, st') →
  env st' = env st ∧
  env st' !! CODEQL_ACTION_ANALYSIS_KEY h = None ∧
  ((e = Error "GITHUB_REPOSITORY environment variable must be set" ∧ st' = st) ∨
   (e = Error "GITHUB_RUN_ID environment variable must be set" ∧ st' = st) ∨
   (∃ r1 r2 a1 a2,
      is_lookup r1 = true ∧ is_lookup r2 = false ∧
      length (lookups_of (trace st')) = S (length (lookups_of (trace st))) ∧
      ((rejected a1 = true ∧
        e = HttpError (status a1) (x_github_request_id a1) (data a1) ∧
        st' = with_trace st [EvRequest r1]) ∨
       (rejected a1 = false ∧ rejected a2 = true ∧
        e = HttpError (status a2) (x_github_request_id a2) (data a2) ∧
        st' = with_trace st [EvRequest r1; EvRequest r2]) ∨
       (rejected a1 = false ∧ rejected a2 = false ∧
        e = Error "GITHUB_JOB environment variable must be set" ∧
        st' = with_trace st [EvRequest r1; EvRequest r2] ∧
        (∃ e', fst (getAnalysisKey h st') = Throw e') ∧
        length (lookups_of (trace (snd (getAnalysisKey h st')))) =
          S (S (length (lookups_of (trace st)))))))).
Proof.
  intros Hrun. pose proof Hrun as Hinv. apply getAnalysisKey_inv in Hinv.
  destruct (env st !! CODEQL_ACTION_ANALYSIS_KEY h) eqn:Hk;
    [by destruct Hinv|].
  clear Hinv. destruct (getAnalysisKey_uncached h st Hk) as (H1 & H2 & H3).
  destruct (set_in_dec st "GITHUB_REPOSITORY") as [Hrepo|Hrepo].
  2:{ rewrite (H1 Hrepo) in Hrun. injection Hrun as <- <-.
      split; [done|]. split; [done|]. by left. }
  destruct (set_in_dec st "GITHUB_RUN_ID") as [Hrid|Hrid].
  2:{ rewrite (H2 Hrepo Hrid) in Hrun. injection Hrun as <- <-.
      split; [done|]. split; [done|]. right. by left. }
  destruct (H3 Hrepo Hrid)
    as (r1 & r2 & a1 & a2 & Hr1 & Hr2 & Hrej1 & Hrej2 & Hjob & Hret).
  assert (length (lookups_of (trace (with_trace st [EvRequest r1]))) =
          S (length (lookups_of (trace st)))) as Hone.
  { simpl. rewrite lookups_of_app, length_app. unfold lookups_of. simpl.
    rewrite Hr1. simpl. lia. }
  assert (length (lookups_of
                    (trace (with_trace st [EvRequest r1; EvRequest r2]))) =
          S (length (lookups_of (trace st)))) as Htwo.
  { simpl. rewrite lookups_of_app, length_app. unfold lookups_of. simpl.
    rewrite Hr1, Hr2. simpl. lia. }
  destruct (rejected a1) eqn:Ha1.
  { rewrite (Hrej1 eq_refl) in Hrun. injection Hrun as <- <-.
    split; [done|]. split; [done|]. right; right.
    exists r1, r2, a1, a2. split; [done|]. split; [done|]. split; [done|].
    left. by rewrite Ha1. }
  destruct (rejected a2) eqn:Ha2.
  { rewrite (Hrej2 eq_refl eq_refl) in Hrun. injection Hrun as <- <-.
    split; [done|]. split; [done|]. right; right.
    exists r1, r2, a1, a2. split; [done|]. split; [done|]. split; [done|].
    right; left. by rewrite Ha1, Ha2. }
  destruct (set_in_dec st "GITHUB_JOB") as [Hj|Hj].
  { destruct (Hret eq_refl eq_refl Hj) as (? & ? & Heq). congruence. }
  rewrite (Hjob eq_refl eq_refl Hj) in Hrun. injection Hrun as <- <-.
  split; [done|]. split; [done|]. right; right.
  exists r1, r2, a1, a2. split; [done|]. split; [done|]. split; [done|].
  right; right. rewrite Ha1, Ha2. do 4 (split; [done|]).
  set (s1 := with_trace st [EvRequest r1; EvRequest r2]) in *.
  destruct (getAnalysisKey_no_job h s1) as (e' & t & Hagain & Hlen);
    try done.
  rewrite Hagain. split; [by exists e'|]. simpl.
  rewrite lookups_of_app, length_app, Hlen.
  change (trace st ++ [EvRequest r1; EvRequest r2])%list with (trace s1).
  lia.
Qed.

(** X12 at work: in a job without [GITHUB_JOB], and in a job whose lookup
    the server answers with a 404. *)
Lemma getAnalysisKey_failure_witness :
  env (snd (getAnalysisKey (test_host [] [])
              (state_of [("GITHUB_REPOSITORY", "octo/demo");
                         ("GITHUB_RUN_ID", "42")])))
    !! "CODEQL_ACTION_ANALYSIS_KEY" = None ∧
  env (snd (getAnalysisKey (test_host [404] []) (state_of job_env)))
    !! "CODEQL_ACTION_ANALYSIS_KEY" = None.
Proof.
  split.
  - destruct (getAnalysisKey (test_host [] [])
                (state_of [("GITHUB_REPOSITORY", "octo/demo");
                           ("GITHUB_RUN_ID", "42")])) as [[key|e] st'] eqn:H.
    + vm_compute in H. discriminate H.
    + by destruct (getAnalysisKey_failure _ _ _ _ H) as (_ & Hnone & _).
  - destruct (getAnalysisKey (test_host [404] []) (state_of job_env))
      as [[key|e] st'] eqn:H.
    + vm_compute in H. discriminate H.
    + by destruct (getAnalysisKey_failure _ _ _ _ H) as (_ & Hnone & _).
Defined.






(** X14. When [createStatusReportBase] throws, it has cached nothing:
    the environment is as it was.  When [GITHUB_REF] is unset or empty it
    throws before any effect, even before the analysis key is looked
    up. *)
Theorem createStatusReportBase_failure (h : Host) (actionName status : string)
    (started : Date) (cause exception : option string) (st : State)
    (e : Exn) (st' : State) :
  createStatusReportBase h actionName status started cause exception st =
    (Throw e, st') →
  env st' = env st ∧ exports_of (trace st') = exports_of (trace st) ∧
  (¬ set_in st "GITHUB_REF" →
   e = Error "GITHUB_REF environment variable must be set" ∧ st' = st).
Proof.
  unfold createStatusReportBase.
  unfold bind at 1, getenv at 1. unfold bind at 1.
  destruct (getRef st) as [[ref|e0] s0] eqn:Href.
  - assert (set_in st "GITHUB_REF") as Hset.
    { revert Href. unfold getRef, bind.
      destruct (getRequiredEnvParam "GITHUB_REF" st) as [[v|?] ?] eqn:Hp;
        [|done].
      apply getRequiredEnvParam_inv in Hp as [-> Hp]. intros _. by exists v. }
    pose proof (getRef_state st) as Hst. rewrite Href in Hst. simpl in Hst.
    subst s0.
    unfold bind at 1, getenv at 1. unfold bind at 1, getenv at 1.
    unfold bind at 1, getenv at 1. unfold bind at 1.
    destruct (getAnalysisKey h st) as [[key|e1] st1] eqn:Hkey.
    + unfold bind at 1, getenv at 1. unfold bind at 1.
      destruct (env st1 !! CODEQL_WORKFLOW_STARTED_AT h).
      * unfold ret at 1. unfold bind at 1.
        destruct (is_terminal status); unfold bind, now, ret; done.
      * unfold bind at 1, exportVariable at 1, ret at 1. unfold bind at 1.
        destruct (is_terminal status); unfold bind, now, ret; done.
    + intros [= <- <-]. apply getAnalysisKey_inv in Hkey.
      destruct (env st !! CODEQL_ACTION_ANALYSIS_KEY h); [by destruct Hkey|].
      destruct Hkey as (t & Hx & _ & [(? & _ & ->)|(? & [=] & _)]).
      simpl. rewrite exports_of_app, Hx, app_nil_r. done.
  - intros [= <- <-].
    pose proof (getRef_state st) as Hst. rewrite Href in Hst. simpl in Hst.
    subst s0. split; [done|]. split; [done|]. intros Hn. split; [|done].
    revert Href. unfold getRef, bind.
    rewrite getRequiredEnvParam_unset by done. by intros [= <-].
Qed.

(** X14 at work: no [GITHUB_REF]. *)
Lemma createStatusReportBase_failure_witness :
  snd (createStatusReportBase (test_host [] []) "init" "starting"
         {| toISOString := "2020-06-01T12:00:00.000Z" |} None None
         (state_of [("GITHUB_REPOSITORY", "octo/demo")])) =
  state_of [("GITHUB_REPOSITORY", "octo/demo")].
Proof.
  destruct (createStatusReportBase (test_host [] []) "init" "starting"
              {| toISOString := "2020-06-01T12:00:00.000Z" |} None None
              (state_of [("GITHUB_REPOSITORY", "octo/demo")]))
    as [[r|e] st'] eqn:H.
  - vm_compute in H. discriminate H.
  - destruct (createStatusReportBase_failure _ _ _ _ _ _ _ _ _ H)
      as (_ & _ & Hst).
    apply Hst. intros (v & Hv & _). vm_compute in Hv. discriminate Hv.
Defined.

(** ** The orchestrator: what reaches the server *)

(** A call that passes the sentinel check either throws before the
    delivery, having sent no payload, or reaches [uploadPayload] with a
    payload built from the values named here. *)
Lemma uploadFiles_delivery h sarifFiles st :
  truthy (env st !! sentinelEnvVar) = false →
  let s0 := snd (exportVariable sentinelEnvVar sentinelEnvVar st) in
  (∃ e s1, uploadFiles h sarifFiles st = (Throw e, s1) ∧
     (s1 = s0 ∨ s1 = snd (getAnalysisKey h s0))) ∨
  (∃ oid rid ref key s1 name merged wid names n,
     validate_all h sarifFiles = Return tt ∧
     getCommitOid h s0 = (Return oid, s0) ∧
     getRequiredEnvParam "GITHUB_RUN_ID" s0 = (Return rid, s0) ∧
     getRef s0 = (Return ref, s0) ∧
     getAnalysisKey h s0 = (Return key, s1) ∧
     getRequiredEnvParam "GITHUB_WORKFLOW" s1 = (Return name, s1) ∧
     combineSarifFiles h sarifFiles = Return merged ∧
     parseInt10 h rid = Some wid ∧
     getToolNames (addFingerprints h merged) = Return names ∧
     countResultsInSarif (addFingerprints h merged) = Return n ∧
     uploadFiles h sarifFiles st =
       (uploadPayload h
          (PayloadBody
             {| commit_oid := oid; ref := ref; analysis_key := key;
                analysis_name := name;
                sarif := gzip_base64 h (addFingerprints h merged);
                workflow_run_id := wid;
                checkout_uri := fileUrl h (getInput h "checkout_path");
                environment :=
                  (let m := getInput h "matrix" in
                   if String.eqb m "null" || String.eqb m "" then None
                   else Some m);
                started_at := env s1 !! CODEQL_WORKFLOW_STARTED_AT h;
                tool_names := names |}) >>
        ret {| raw_upload_size_bytes :=
                 text_length h (addFingerprints h merged);
               zipped_upload_size_bytes :=
                 Z.of_nat (String.length
                             (gzip_base64 h (addFingerprints h merged)));
               num_results_in_sarif := n |}) s1).
Proof.
  intros Hunset s0.
  remember (uploadFiles h sarifFiles st) as run eqn:Hrun.
  unfold uploadFiles, bind at 1, getenv at 1 in Hrun.
  rewrite Hunset in Hrun. unfold bind at 1 in Hrun.
  replace (exportVariable sentinelEnvVar sentinelEnvVar st)
    with (Return tt, s0) in Hrun by done.
  assert (∀ e, run = (Throw e, s0) →
            ∃ e' s1, run = (Throw e', s1) ∧
              (s1 = s0 ∨ s1 = snd (getAnalysisKey h s0)))
    as Hexit0.
  { intros e ->. exists e, s0. by split; [|left]. }
  unfold bind at 1, lift at 1 in Hrun.
  destruct (validate_all h sarifFiles) as [[]|e] eqn:Hval; [|left; eauto].
  unfold bind at 1 in Hrun.
  pose proof (getCommitOid_state h s0) as H.
  destruct (getCommitOid h s0) as [[commitOid|e] s] eqn:Hoid; simpl in H;
    subst s;
    [|left; eauto].
  unfold bind at 1 in Hrun.
  pose proof (getRequiredEnvParam_state "GITHUB_RUN_ID" s0) as H.
  destruct (getRequiredEnvParam _ s0) as [[rid|e] s] eqn:Hparam; simpl in H;
    subst s;
    [|left; eauto].
  unfold bind at 1 in Hrun.
  pose proof (getRef_state s0) as H.
  destruct (getRef s0) as [[ref|e] s] eqn:Href; simpl in H; subst s;
    [|left; eauto].
  unfold bind at 1 in Hrun.
  destruct (getAnalysisKey h s0) as [[key|e] s1] eqn:Hkey;
    [|left; exists e, s1; by split; [|right]].
  assert (∀ e, run = (Throw e, s1) →
            ∃ e' s, run = (Throw e', s) ∧
              (s = s0 ∨ s = snd (getAnalysisKey h s0)))
    as Hexit1.
  { intros e ->. exists e, s1. rewrite Hkey. by split; [|right]. }
  unfold bind at 1 in Hrun.
  pose proof (getRequiredEnvParam_state "GITHUB_WORKFLOW" s1) as H.
  destruct (getRequiredEnvParam _ s1) as [[wf|e] s] eqn:Hwf; simpl in H;
    subst s;
    [|left; eauto].
  unfold bind at 1, getenv at 1 in Hrun.
  unfold bind at 1, lift at 1 in Hrun.
  destruct (combineSarifFiles h sarifFiles) as [combined|e] eqn:Hmerge;
    [|left; eauto].
  destruct (parseInt10 h rid) as [workflowRunID|] eqn:Hrid;
    [|left; eauto].
  unfold bind at 1, lift at 1 in Hrun.
  destruct (getToolNames _) as [toolNames|e] eqn:Htools; [|left; eauto].
  unfold bind at 1, lift at 1 in Hrun.
  destruct (countResultsInSarif _) as [n|e] eqn:Hn; [|left; eauto].
  right.
  by exists commitOid, rid, ref, key, s1, wf, combined, workflowRunID,
    toolNames, n.
Qed.

(** Where each member of a payload that has been sent comes from. *)
Lemma uploadFiles_payload_inv h sarifFiles st t p :
  truthy (env st !! sentinelEnvVar) = false →
  trace (snd (uploadFiles h sarifFiles st)) = (trace st ++ t)%list →
  p ∈ payloads_of t →
  let s0 := snd (exportVariable sentinelEnvVar sentinelEnvVar st) in
  ∃ rid s1 tk tu,
    getCommitOid h s0 = (Return (commit_oid p), s0) ∧
    getRequiredEnvParam "GITHUB_RUN_ID" s0 = (Return rid, s0) ∧
    parseInt10 h rid = Some (workflow_run_id p) ∧
    getRef s0 = (Return (ref p), s0) ∧
    getAnalysisKey h s0 = (Return (analysis_key p), s1) ∧
    getRequiredEnvParam "GITHUB_WORKFLOW" s1 = (Return (analysis_name p), s1) ∧
    checkout_uri p = fileUrl h (getInput h "checkout_path") ∧
    environment p =
      (let m := getInput h "matrix" in
       if String.eqb m "null" || String.eqb m "" then None else Some m) ∧
    started_at p = env s1 !! CODEQL_WORKFLOW_STARTED_AT h ∧
    trace s1 = (trace s0 ++ tk)%list ∧
    trace (snd (uploadPayload h (PayloadBody p) s1)) = (trace s1 ++ tu)%list ∧
    t = (EvExport sentinelEnvVar sentinelEnvVar :: tk ++ tu)%list.
Proof.
  intros Hunset Ht Hp s0.
  assert (trace s0 = (trace st ++ [EvExport sentinelEnvVar sentinelEnvVar])%list)
    as Hs0 by done.
  pose proof (uploadFiles_delivery h sarifFiles st Hunset) as Hd.
  cbv zeta in Hd. fold s0 in Hd.
  destruct Hd
    as [(e & s1 & Hrun & Hs1)|
        (oid & rid & ref & key & s1 & name & merged & wid & names & n & _ &
         Hoid & Hrid & Href & Hkey & Hname & _ & Hwid & _ & _ & Hrun)];
    rewrite Hrun in Ht.
  - destruct (getAnalysisKey_no_payload h s0) as (tk & Htk & Hnone).
    assert (∃ tk, trace s1 = (trace s0 ++ tk)%list ∧ payloads_of tk = [])
      as (tk' & Htk' & Hnone').
    { destruct Hs1 as [->| ->]; [|by exists tk].
      exists []. by rewrite app_nil_r. }
    simpl in Ht. rewrite Htk', ?Hs0, <- app_assoc in Ht.
    apply app_inv_head in Ht. subst t.
    rewrite payloads_of_app, Hnone' in Hp. simpl in Hp.
    by apply elem_of_nil in Hp.
  - rewrite bind_ret_snd in Ht.
    destruct (getAnalysisKey_no_payload h s0) as (tk & Htk & Hnone).
    rewrite Hkey in Htk. simpl in Htk.
    match type of Ht with context [uploadPayload h (PayloadBody ?pl) s1] =>
      destruct (uploadPayload_payloads h pl s1) as (tu & Htu & Hsent);
      assert (p = pl) as Hpl
    end.
    { rewrite Htu, Htk, ?Hs0, <- !app_assoc in Ht.
      apply app_inv_head in Ht. subst t.
      rewrite !payloads_of_app, Hnone in Hp. simpl in Hp.
      rewrite Forall_forall in Hsent. by apply Hsent in Hp. }
    rewrite <- Hpl in Htu, Ht.
    exists rid, s1, tk, tu. subst p. simpl.
    repeat (split; [done|]).
    rewrite Htu, Htk, ?Hs0, <- !app_assoc in Ht.
    by apply app_inv_head in Ht.
Qed.

(** Delivery makes no workflow lookup. *)
Lemma upload_attempts_lookups h req remaining :
  is_lookup req = false →
  ∀ attempt st,
    ∃ t, trace (snd (upload_attempts h req remaining attempt st)) =
           (trace st ++ t)%list ∧
         lookups_of t = [].
Proof.
  intros Hbody.
  assert (lookups_of [EvRequest req] = []) as Hone.
  { unfold lookups_of. simpl. by rewrite Hbody. }
  intros attempt st. destruct remaining as [|remaining].
  - exists []. simpl. by rewrite app_nil_r.
  - rewrite upload_attempts_once. by exists [EvRequest req].
Qed.

Lemma uploadPayload_lookups h p st :
  ∃ t, trace (snd (uploadPayload h (PayloadBody p) st)) = (trace st ++ t)%list ∧
       lookups_of t = [].
Proof.
  unfold uploadPayload, bind at 1, getenv.
  destruct (bool_decide _); [exists []; simpl; by rewrite app_nil_r|].
  unfold bind.
  pose proof (getRequiredEnvParam_state "GITHUB_REPOSITORY" st) as Hst.
  destruct (getRequiredEnvParam "GITHUB_REPOSITORY" st) as [[nwo|e] st'];
    simpl in Hst; subst st'; [|exists []; simpl; by rewrite app_nil_r].
  by apply upload_attempts_lookups.
Qed.

(** [getAnalysisKey] writes no variable but its own. *)
Lemma getAnalysisKey_env h st key st' k :
  getAnalysisKey h st = (Return key, st') →
  k ≠ CODEQL_ACTION_ANALYSIS_KEY h → env st' !! k = env st !! k.
Proof.
  intros Hrun Hk. apply getAnalysisKey_inv in Hrun.
  destruct (env st !! CODEQL_ACTION_ANALYSIS_KEY h).
  - by destruct Hrun as [_ ->].
  - destruct Hrun as (t & _ & _ & [(e & [=] & _)|(k' & _ & _ & ->)]).
    simpl. by rewrite lookup_insert_ne.
Qed.

Lemma getCommitOid_inv h st oid st' :
  getCommitOid h st = (Return oid, st') →
  oid = default (default "" (env st !! "GITHUB_SHA")) (git_rev_parse_head h).
Proof.
  unfold getCommitOid. destruct (git_rev_parse_head h); simpl.
  - by intros [= <- _].
  - intros H. apply getRequiredEnvParam_inv in H as [_ [-> _]]. done.
Qed.

(** X15. Where the members of a payload that [uploadFiles] has sent come
    from: the run id is [GITHUB_RUN_ID] read as a number, and is a number;
    the commit is the checked-out one, or [GITHUB_SHA] when git gives
    none; the analysis name is not empty and is [GITHUB_WORKFLOW] when that
    is set; the matrix is never the empty string nor ["null"]; and the
    start time is the one that the environment held when [uploadFiles] was
    called: [uploadFiles] does not set it, so it is left out of the payload
    when no status report has been built before. *)
Theorem uploadFiles_payload_fields (h : Host) (sarifFiles : list string)
    (st : State) (t : list Event) (p : UploadPayload) :
  ¬ sentinel_set st →
  CODEQL_WORKFLOW_STARTED_AT h ≠ sentinelEnvVar →
  CODEQL_WORKFLOW_STARTED_AT h ≠ CODEQL_ACTION_ANALYSIS_KEY h →
  trace (snd (uploadFiles h sarifFiles st)) = (trace st ++ t)%list →
  p ∈ payloads_of t →
  (∃ rid, env st !! "GITHUB_RUN_ID" = Some rid ∧ rid ≠ "" ∧
          parseInt10 h rid = Some (workflow_run_id p)) ∧
  commit_oid p =
    default (default "" (env st !! "GITHUB_SHA")) (git_rev_parse_head h) ∧
  analysis_name p ≠ "" ∧
  (∀ v, env st !! "GITHUB_WORKFLOW" = Some v → analysis_name p = v) ∧
  checkout_uri p = fileUrl h (getInput h "checkout_path") ∧
  (environment p = None ↔
   getInput h "matrix" = "null" ∨ getInput h "matrix" = "") ∧
  (∀ m, environment p = Some m → getInput h "matrix" = m) ∧
  started_at p = env st !! CODEQL_WORKFLOW_STARTED_AT h.
Proof.
  intros Hunset Hne1 Hne2 Ht Hp.
  assert (truthy (env st !! sentinelEnvVar) = false) as Hfalse.
  { destruct (truthy _) eqn:Htr; [|done].
    by apply sentinel_set_truthy in Htr. }
  destruct (uploadFiles_payload_inv h sarifFiles st t p Hfalse Ht Hp)
    as (rid & s1 & tk & tu & Hoid & Hrid & Hwid & _ & Hkey & Hname & Huri &
        Henv & Hstart & _).
  set (s0 := snd (exportVariable sentinelEnvVar sentinelEnvVar st)) in *.
  assert (∀ k, k ≠ sentinelEnvVar → env s0 !! k = env st !! k) as Hs0.
  { intros k Hk. unfold s0. simpl. by rewrite lookup_insert_ne. }
  apply getRequiredEnvParam_inv in Hrid as [_ [Hrid Hrne]].
  apply getRequiredEnvParam_inv in Hname as [_ [Hname Hnne]].
  split. { exists rid. rewrite <- Hs0; done. }
  split. { apply getCommitOid_inv in Hoid. rewrite Hs0 in Hoid; done. }
  split; [done|]. split.
  { intros v Hv.
    assert (env s1 !! "GITHUB_WORKFLOW" = Some v) as Hv1; [|congruence].
    apply (write_once_run_keeps s0).
    - pose proof (getAnalysisKey_write_once h s0) as Hw.
      by rewrite Hkey in Hw.
    - rewrite Hs0; done. }
  split; [done|]. rewrite Henv. cbv zeta.
  split.
  { destruct (String.eqb_spec (getInput h "matrix") "null") as [->|Hn1];
      simpl; [by split; [left|]|].
    destruct (String.eqb_spec (getInput h "matrix") "") as [->|Hn2];
      simpl; [by split; [right|]|].
    split; [done|]. by intros [?|?]. }
  split.
  { intros m.
    by destruct (String.eqb (getInput h "matrix") "null" ||
                 String.eqb (getInput h "matrix") ""); intros [= <-]. }
  rewrite Hstart, (getAnalysisKey_env _ _ _ _ _ Hkey), Hs0; done.
Qed.

(** X15 at work: the first step of a job uploads one file. *)
Lemma uploadFiles_payload_fields_witness :
  let h := test_host [200; 200; 202] [("a.sarif", doc "2.1.0" ["ESLint"])] in
  let t := trace (snd (uploadFiles h ["a.sarif"] (state_of job_env))) in
  Forall (fun p => workflow_run_id p = 42 ∧ started_at p = None)
         (payloads_of t) ∧
  payloads_of t ≠ [].
Proof.
  intros h t. split.
  - apply Forall_forall. intros p Hp.
    destruct (uploadFiles_payload_fields h ["a.sarif"] (state_of job_env) t p)
      as ((rid & Hrid & _ & Hwid) & _ & _ & _ & _ & _ & _ & Hstart).
    + intros (v & Hv & _). vm_compute in Hv. congruence.
    + vm_compute. congruence.
    + vm_compute. congruence.
    + reflexivity.
    + exact Hp.
    + split.
      * vm_compute in Hrid. injection Hrid as <-.
        change (parseInt10 h "42") with (Some 42) in Hwid. congruence.
      * rewrite Hstart. reflexivity.
  - vm_compute. discriminate.
Defined.

(** X16. The upload agrees with the status report built before it: after
    [createStatusReportBase] has returned, every payload that [uploadFiles]
    sends carries the report's analysis key, start time and ref, and the
    upload makes no workflow lookup of its own. *)
Theorem uploadFiles_agrees_with_report (h : Host)
    (actionName status : string) (started : Date)
    (cause exception : option string) (st0 : State) (r : StatusReport)
    (st : State) (sarifFiles : list string) (t : list Event)
    (p : UploadPayload) :
  CODEQL_ACTION_ANALYSIS_KEY h ≠ sentinelEnvVar →
  CODEQL_WORKFLOW_STARTED_AT h ≠ sentinelEnvVar →
  createStatusReportBase h actionName status started cause exception st0 =
    (Return r, st) →
  trace (snd (uploadFiles h sarifFiles st)) = (trace st ++ t)%list →
  p ∈ payloads_of t →
  analysis_key p = sr_analysis_key r ∧
  started_at p = Some (sr_started_at r) ∧
  ref p = sr_ref r ∧
  lookups_of t = [].
Proof.
  intros Hne1 Hne2 Hreport Ht Hp.
  destruct (truthy (env st !! sentinelEnvVar)) eqn:Hfalse.
  { exfalso. revert Ht. unfold uploadFiles, bind at 1, getenv at 1.
    rewrite Hfalse. simpl. intros Ht.
    rewrite <- (app_nil_r (trace st)) in Ht at 1.
    apply app_inv_head in Ht. subst t. by apply elem_of_nil in Hp. }
  destruct (uploadFiles_payload_inv h sarifFiles st t p Hfalse Ht Hp)
    as (rid & s1 & tk & tu & _ & _ & _ & Href & Hkey & _ & _ & _ & Hstart &
        Htk & Htu & ->).
  set (s0 := snd (exportVariable sentinelEnvVar sentinelEnvVar st)) in *.
  assert (∀ k, k ≠ sentinelEnvVar → env s0 !! k = env st !! k) as Hs0.
  { intros k Hk. unfold s0. simpl. by rewrite lookup_insert_ne. }
  destruct (createStatusReportBase_caches _ _ _ _ _ _ _ _ _ Hreport)
    as [Hck Hcs].
  apply getAnalysisKey_inv in Hkey. rewrite Hs0, Hck in Hkey by done.
  destruct Hkey as [[= <-] ->].
  split; [done|]. split; [by rewrite Hstart, Hs0|]. split.
  - pose proof (createStatusReportBase_write_once h actionName status
                  started cause exception st0) as Hw.
    rewrite Hreport in Hw. simpl in Hw.
    apply createStatusReportBase_inv in Hreport as (st1 & Hr0 & Hk0 & Hst).
    assert (fst (getRef s0) = fst (getRef st0)) as Heq.
    { apply getRef_env. rewrite Hs0 by done.
      unfold getRef, bind in Hr0.
      destruct (getRequiredEnvParam "GITHUB_REF" st0) as [[v|?] ?] eqn:Hv;
        [|done].
      apply getRequiredEnvParam_inv in Hv as [_ [Hv _]]. rewrite Hv.
      by apply (write_once_run_keeps st0). }
    rewrite Href, Hr0 in Heq. simpl in Heq. congruence.
  - rewrite <- (app_nil_r (trace s0)) in Htk at 1.
    apply app_inv_head in Htk. subst tk.
    destruct (uploadPayload_lookups h p s0) as (tu' & Htu' & Hnone).
    rewrite Htu in Htu'. apply app_inv_head in Htu'. subst tu'.
    unfold lookups_of in *. simpl. done.
Qed.

(** X16 at work: a report is built, then one file is uploaded. *)
Lemma uploadFiles_agrees_with_report_witness :
  let h := test_host [200; 200; 202] [("a.sarif", doc "2.1.0" ["ESLint"])] in
  let first :=
    createStatusReportBase h "init" "starting"
      {| toISOString := "2020-06-01T12:00:00.000Z" |} None None
      (state_of job_env) in
  let t := drop (length (trace (snd first)))
             (trace (snd (uploadFiles h ["a.sarif"] (snd first)))) in
  Forall (fun p => started_at p = Some "2020-06-01T12:00:00.000Z" ∧
                   analysis_key p = ".github/workflows/codeql.yml:analyze")
         (payloads_of t) ∧
  payloads_of t ≠ [] ∧ lookups_of (trace (snd first)) ≠ [].
Proof.
  intros h first t. split; [|split; vm_compute; discriminate].
  apply Forall_forall. intros p Hp.
  destruct (uploadFiles_agrees_with_report h "init" "starting"
              {| toISOString := "2020-06-01T12:00:00.000Z" |} None None
              (state_of job_env)
              (match fst first with Return r => r | Throw _ => failure_report
               end)
              (snd first) ["a.sarif"] t p) as (Hkey & Hstart & _).
  - vm_compute. congruence.
  - vm_compute. congruence.
  - vm_compute. reflexivity.
  - vm_compute. reflexivity.
  - exact Hp.
  - rewrite Hkey, Hstart. split; reflexivity.
Defined.

(** ** The orchestrator: what a return means *)

(** [uploadPayload] returns in test mode, or after a request that the
    server answered with 202. *)
Lemma uploadPayload_returns h payload st st' :
  uploadPayload h payload st = (Return tt, st') →
  (env st !! "TEST_MODE" = Some "true" ∧ st' = st) ∨
  (∃ nwo t0, delivery_ready st nwo ∧ env st' = env st ∧
     trace st' = (t0 ++ [EvRequest (upload_request nwo payload)])%list ∧
     status (server h (length (requests_of t0)) (upload_request nwo payload)) =
       Some 202).
Proof.
  intros Hrun.
  destruct (decide (env st !! "TEST_MODE" = Some "true")) as [Htest|Htest].
  - left. split; [done|]. revert Hrun.
    unfold uploadPayload, bind at 1, getenv at 1.
    rewrite bool_decide_eq_true_2 by done. by intros [= <-].
  - right.
    destruct (set_in_dec st "GITHUB_REPOSITORY") as [(nwo & Hnwo & Hne)|Hrepo].
    2:{ revert Hrun. unfold uploadPayload, bind at 1, getenv at 1.
        rewrite bool_decide_eq_false_2 by done. unfold bind.
        by rewrite getRequiredEnvParam_unset. }
    assert (delivery_ready st nwo) as Hready by done.
    rewrite (uploadPayload_once _ _ _ _ Hready) in Hrun.
    injection Hrun as Hout <-. unfold upload_outcome in Hout.
    destruct (rejected _); [done|].
    destruct (bool_decide _) eqn:Hok; [|done].
    apply bool_decide_eq_true in Hok.
    exists nwo, (trace st). split; [done|]. split; [done|]. split; [done|].
    unfold response_at in Hok. by rewrite Nat.add_0_r in Hok.
Qed.

(** X17. What a return of [uploadFiles] means.  The sentinel was not set
    and is set now; every file passed validation; the statistics are those
    of the fingerprinted merge of the files, with a result count that is not
    negative; and, unless the job runs in test mode, the last effect of the
    call is an upload request that the server answered with 202 and whose
    payload has the size that the statistics report. *)
Theorem uploadFiles_returns (h : Host) (sarifFiles : list string)
    (st : State) (stats : UploadStatusReport) (st' : State) :
  uploadFiles h sarifFiles st = (Return stats, st') →
  ¬ sentinel_set st ∧
  env st' !! sentinelEnvVar = Some sentinelEnvVar ∧
  Forall (fun f => validateSarifFileSchema h f = Return tt) sarifFiles ∧
  (∃ merged,
     combineSarifFiles h sarifFiles = Return merged ∧
     raw_upload_size_bytes stats = text_length h (addFingerprints h merged) ∧
     zipped_upload_size_bytes stats =
       Z.of_nat (String.length (gzip_base64 h (addFingerprints h merged))) ∧
     countResultsInSarif (addFingerprints h merged) =
       Return (num_results_in_sarif stats)) ∧
  0 ≤ num_results_in_sarif stats ∧
  (env st' !! "TEST_MODE" = Some "true" ∨
   ∃ t0 req p,
     trace st' = (t0 ++ [EvRequest req])%list ∧
     route req = upload_route ∧ body req = PayloadBody p ∧
     status (server h (length (requests_of t0)) req) = Some 202 ∧
     Z.of_nat (String.length (sarif p)) = zipped_upload_size_bytes stats).
Proof.
  intros Hrun.
  destruct (truthy (env st !! sentinelEnvVar)) eqn:Hfalse.
  { revert Hrun. unfold uploadFiles, bind at 1, getenv at 1.
    by rewrite Hfalse. }
  pose proof (uploadFiles_after_sentinel h sarifFiles st Hfalse) as Hw.
  rewrite Hrun in Hw. simpl in Hw.
  pose proof (uploadFiles_delivery h sarifFiles st Hfalse) as Hd.
  cbv zeta in Hd.
  destruct Hd
    as [(e & s1 & Hthrow & _)|
        (oid & rid & ref & key & s1 & name & merged & wid & names & n &
         Hval & _ & _ & _ & _ & _ & Hmerge & _ & _ & Hn & Heq)];
    [congruence|].
  rewrite Heq in Hrun. clear Heq.
  match type of Hrun with context [uploadPayload h ?b] =>
    set (payload := b) in *
  end.
  unfold bind at 1 in Hrun.
  destruct (uploadPayload h payload s1) as [[[]|e] s2] eqn:Hup; [|done].
  injection Hrun as <- <-. simpl.
  split. { rewrite sentinel_set_truthy. by rewrite Hfalse. }
  split.
  { apply (write_once_run_keeps _ _ _ _ Hw). simpl.
    by rewrite lookup_insert_eq. }
  split. { by apply validate_all_ok. }
  split. { by exists merged. }
  split.
  { apply countResultsInSarif_iff in Hn as (v & rs & _ & _ & ->).
    apply results_total_nonneg. }
  apply uploadPayload_returns in Hup
    as [[Htest ->]|(nwo & t0 & Hready & Henv & Htrace & Hstatus)].
  - by left.
  - right. exists t0, (upload_request nwo payload). eexists. by repeat split.
Qed.

(** X17 at work: two files with 3 and 5 results, and a server that
    accepts the upload. *)
Lemma uploadFiles_returns_witness :
  let run := uploadFiles (test_host [200; 200; 202] counted_files)
               ["a.sarif"; "b.sarif"] (state_of job_env) in
  ∃ stats, fst run = Return stats ∧ num_results_in_sarif stats = 8 ∧
           env (snd run) !! sentinelEnvVar = Some sentinelEnvVar.
Proof.
  intros run.
  destruct run as [[stats|e] st'] eqn:Hrun.
  - exists stats. split; [reflexivity|].
    destruct (uploadFiles_returns _ _ _ _ _ Hrun)
      as (_ & Hsent & _ & (merged & Hmerge & _ & _ & Hn) & _).
    split; [|exact Hsent].
    vm_compute in Hmerge. injection Hmerge as <-.
    vm_compute in Hn. injection Hn as Hn. symmetry. exact Hn.
  - vm_compute in Hrun. discriminate Hrun.
Defined.

(** The effects of [getAnalysisKey]: at most the two requests of one
    workflow lookup, never a sleep, and nothing when the key is cached. *)
Lemma getAnalysisKey_trace h st :
  ∃ t, trace (snd (getAnalysisKey h st)) = (trace st ++ t)%list ∧
       sleeps_of t = [] ∧ payloads_of t = [] ∧
       (length (requests_of t) ≤ 2)%nat ∧
       (length (exports_of t) ≤ 1)%nat ∧
       (is_Some (env st !! CODEQL_ACTION_ANALYSIS_KEY h) → t = []).
Proof.
  destruct (getAnalysisKey h st) as [o st'] eqn:Hrun.
  pose proof Hrun as Hinv. apply getAnalysisKey_inv in Hinv.
  destruct (env st !! CODEQL_ACTION_ANALYSIS_KEY h) as [k|] eqn:Hk.
  { destruct Hinv as [_ ->]. exists []. simpl. rewrite app_nil_r.
    repeat split; try done; lia. }
  assert (∀ t, trace st' = (trace st ++ t)%list →
            sleeps_of t = [] → payloads_of t = [] →
            (length (requests_of t) ≤ 2)%nat →
            (length (exports_of t) ≤ 1)%nat →
            ∃ t, trace (o, st').2 = (trace st ++ t)%list ∧
              sleeps_of t = [] ∧ payloads_of t = [] ∧
              (length (requests_of t) ≤ 2)%nat ∧
              (length (exports_of t) ≤ 1)%nat ∧
              (is_Some (@None string) → t = []))
    as Hexit.
  { intros t ? ? ? ? ?. exists t. repeat split; try done; by intros [? ?]. }
  clear Hinv. revert Hrun.
  unfold getAnalysisKey, bind at 1, getenv. rewrite Hk.
  unfold bind at 1, getWorkflowPath. unfold bind at 1.
  pose proof (getRequiredEnvParam_state "GITHUB_REPOSITORY" st) as H.
  destruct (getRequiredEnvParam "GITHUB_REPOSITORY" st) as [[nwo|e] s];
    simpl in H; subst s.
  2:{ intros [= <- <-].
      apply (Hexit []); try done;
        [by rewrite app_nil_r|simpl; lia|simpl; lia]. }
  unfold bind at 1.
  pose proof (getRequiredEnvParam_state "GITHUB_RUN_ID" st) as H.
  destruct (getRequiredEnvParam "GITHUB_RUN_ID" st) as [[rid|e] s];
    simpl in H; subst s.
  2:{ intros [= <- <-].
      apply (Hexit []); try done;
        [by rewrite app_nil_r|simpl; lia|simpl; lia]. }
  unfold bind at 1. rewrite request_eq.
  destruct (rejected _).
  { intros [= <- <-].
    eapply Hexit; [simpl; reflexivity|done|done|simpl; lia|simpl; lia]. }
  unfold bind at 1. rewrite request_eq.
  destruct (rejected _).
  { intros [= <- <-].
    eapply Hexit;
      [simpl; rewrite <- !app_assoc; reflexivity|done|done|simpl; lia|
       simpl; lia]. }
  unfold ret at 1. unfold bind at 1.
  match goal with |- context [getRequiredEnvParam "GITHUB_JOB" ?s0] =>
    pose proof (getRequiredEnvParam_state "GITHUB_JOB" s0) as H;
    destruct (getRequiredEnvParam "GITHUB_JOB" s0) as [[job|e] s];
    simpl in H; subst s
  end.
  - unfold bind. simpl. intros [= <- <-].
    eapply Hexit;
      [simpl; rewrite <- !app_assoc; reflexivity|done|done|simpl; lia|
       simpl; lia].
  - intros [= <- <-].
    eapply Hexit;
      [simpl; rewrite <- !app_assoc; reflexivity|done|done|simpl; lia|
       simpl; lia].
Qed.

(** X18. In test mode [uploadFiles] sends no payload and never sleeps,
    whatever the files and the server: all it may send are the two requests
    of the workflow lookup, and not even those when the analysis key is
    cached. *)
Theorem uploadFiles_test_mode (h : Host) (sarifFiles : list string)
    (st : State) (t : list Event) :
  env st !! "TEST_MODE" = Some "true" →
  trace (snd (uploadFiles h sarifFiles st)) = (trace st ++ t)%list →
  payloads_of t = [] ∧ sleeps_of t = [] ∧
  (length (requests_of t) ≤ 2)%nat ∧
  (is_Some (env st !! CODEQL_ACTION_ANALYSIS_KEY h) →
   CODEQL_ACTION_ANALYSIS_KEY h ≠ sentinelEnvVar → requests_of t = []).
Proof.
  intros Htest Ht.
  destruct (truthy (env st !! sentinelEnvVar)) eqn:Hfalse.
  { revert Ht. unfold uploadFiles, bind at 1, getenv at 1.
    rewrite Hfalse. simpl. intros Ht.
    rewrite <- (app_nil_r (trace st)) in Ht at 1.
    apply app_inv_head in Ht. subst t. repeat split; try done. simpl. lia. }
  set (s0 := snd (exportVariable sentinelEnvVar sentinelEnvVar st)).
  assert (trace s0 = (trace st ++ [EvExport sentinelEnvVar sentinelEnvVar])%list)
    as Hs0 by done.
  assert (∀ k, k ≠ sentinelEnvVar → env s0 !! k = env st !! k) as Henv.
  { intros k Hk. unfold s0. simpl. by rewrite lookup_insert_ne. }
  destruct (getAnalysisKey_trace h s0)
    as (tk & Htk & Hsl & Hpl & Hrq & _ & Hc).
  assert (∀ tk', (tk' = [] ∨ tk' = tk) →
            t = (EvExport sentinelEnvVar sentinelEnvVar :: tk')%list →
            payloads_of t = [] ∧ sleeps_of t = [] ∧
            (length (requests_of t) ≤ 2)%nat ∧
            (is_Some (env st !! CODEQL_ACTION_ANALYSIS_KEY h) →
             CODEQL_ACTION_ANALYSIS_KEY h ≠ sentinelEnvVar →
             requests_of t = [])) as Hexit.
  { intros tk' [-> | ->] ->; simpl.
    - repeat split; try done. lia.
    - repeat split; try done. intros Hsome Hne.
      rewrite Hc; [done|]. by rewrite Henv. }
  pose proof (uploadFiles_delivery h sarifFiles st Hfalse) as Hd.
  cbv zeta in Hd. fold s0 in Hd.
  destruct Hd
    as [(e & s1 & Hrun & Hs1)|
        (oid & rid & ref & key & s1 & name & merged & wid & names & n & _ &
         _ & _ & _ & Hkey & _ & _ & _ & _ & _ & Hrun)];
    rewrite Hrun in Ht.
  - simpl in Ht. destruct Hs1 as [-> | ->].
    + apply (Hexit []); [by left|].
      rewrite Hs0 in Ht. by apply app_inv_head in Ht.
    + apply (Hexit tk); [by right|].
      rewrite Htk, Hs0, <- app_assoc in Ht. by apply app_inv_head in Ht.
  - rewrite bind_ret_snd in Ht. rewrite Hkey in Htk. simpl in Htk.
    assert (env s1 !! "TEST_MODE" = Some "true") as Htest1.
    { apply (write_once_run_keeps s0).
      - pose proof (getAnalysisKey_write_once h s0) as Hw.
        by rewrite Hkey in Hw.
      - by rewrite Henv. }
    revert Ht. unfold uploadPayload, bind at 1, getenv at 1.
    rewrite bool_decide_eq_true_2 by done. simpl. intros Ht.
    apply (Hexit tk); [by right|].
    rewrite Htk, ?Hs0, <- app_assoc in Ht. by apply app_inv_head in Ht.
Qed.

(** X18 at work: the job of [job_env] in test mode. *)
Lemma uploadFiles_test_mode_witness :
  let run := uploadFiles (test_host [] counted_files) ["a.sarif"; "b.sarif"]
               (state_of (("TEST_MODE", "true") :: job_env)) in
  payloads_of (trace (snd run)) = [] ∧
  ∃ stats, fst run = Return stats.
Proof.
  intros run. split.
  - by destruct (uploadFiles_test_mode (test_host [] counted_files)
                   ["a.sarif"; "b.sarif"]
                   (state_of (("TEST_MODE", "true") :: job_env))
                   (trace (snd run)) eq_refl eq_refl) as [H _].
  - eexists. vm_compute. reflexivity.
Defined.

(** ** Paths of the configuration file: the regular expressions *)

Lemma append_nil_r_s (a : string) : a +:+ "" = a.
Proof. induction a as [|x a IH]; [done|]. by rewrite append_cons, IH. Qed.

Lemma append_inv_head_s (p a b : string) : p +:+ a = p +:+ b → a = b.
Proof.
  induction p as [|x p IH]; [done|]. rewrite !append_cons. intros [= H].
  by apply IH.
Qed.

Lemma list_ascii_of_string_app (a b : string) :
  list_ascii_of_string (a +:+ b) =
  (list_ascii_of_string a ++ list_ascii_of_string b)%list.
Proof. induction a as [|x a IH]; [done|]. simpl. by rewrite <- IH. Qed.

Lemma has_char_split s c : has_char s c ↔ ∃ a b, s = a +:+ String c b.
Proof.
  unfold has_char. induction s as [|x s IH]; simpl.
  - split; [done|]. intros ([|? ?] & b & H); done.
  - split.
    + intros [->|Hin]; [by exists "", s|].
      apply IH in Hin as (a & b & ->). by exists (String x a), b.
    + intros ([|y a] & b & H); injection H as -> ->; [by left|].
      right. apply IH. by exists a, b.
Qed.

Lemma has_char_app a b c : has_char (a +:+ b) c ↔ has_char a c ∨ has_char b c.
Proof.
  unfold has_char. rewrite list_ascii_of_string_app. apply in_app_iff.
Qed.

(** [*] on a class takes a run of characters of the class, of any
    length. *)
Lemma star_match_spec p k s :
  star_match p k s = true ↔
  ∃ a b, s = a +:+ b ∧ forallb p (list_ascii_of_string a) = true ∧
         k b = true.
Proof.
  induction s as [|c s IH]; simpl.
  - split.
    + intros Hk. by exists "", "".
    + intros ([|? ?] & b & Hs & _ & Hk); [|done].
      change ("" = b) in Hs. by subst b.
  - rewrite orb_true_iff, andb_true_iff, IH. split.
    + intros [[Hc (a & b & -> & Ha & Hk)]|Hk].
      * exists (String c a), b. simpl. by rewrite Hc, Ha.
      * by exists "", (String c s).
    + intros ([|x a] & b & Hs & Ha & Hk).
      * right. change (String c s = b) in Hs. by subst b.
      * left. rewrite append_cons in Hs. injection Hs as <- ->.
        simpl in Ha. apply andb_true_iff in Ha as [Hx Ha].
        split; [done|]. by exists a, b.
Qed.

Lemma star_match_true p s : star_match p (fun _ => true) s = true.
Proof. apply star_match_spec. by exists "", s. Qed.

(** An expression is found in [s] when it matches at the head of a suffix
    of [s]. *)
Lemma regex_test_spec r s :
  regex_test r s = true ↔
  ∃ a b, s = a +:+ b ∧ rmatch r b (fun _ => true) = true.
Proof.
  induction s as [|c s IH]; simpl.
  - rewrite orb_false_r. split.
    + intros H. by exists "", "".
    + intros ([|? ?] & b & Hs & H); [|done].
      change ("" = b) in Hs. by subst b.
  - rewrite orb_true_iff, IH. split.
    + intros [H|(a & b & -> & H)].
      * by exists "", (String c s).
      * by exists (String c a), b.
    + intros ([|x a] & b & Hs & H).
      * left. change (String c s = b) in Hs. by subst b.
      * right. rewrite append_cons in Hs. injection Hs as <- ->.
        by exists a, b.
Qed.

Lemma not_slash_test c :
  class_test (NoneOf ["/"%char]) c = true ↔ c ≠ "/"%char.
Proof.
  unfold class_test, in_chars. simpl. rewrite orb_false_r.
  destruct (Ascii.eqb_spec c "/"); simpl; split; done.
Qed.

Lemma star_char_test c : class_test (Lit "*") c = true ↔ c = "*"%char.
Proof. unfold class_test. apply Ascii.eqb_eq. Qed.

(** The three alternatives of [pathStarsRegex], at the head of [s]. *)
Lemma misplaced_here_spec s :
  rmatch (Alt (Seq two_stars (Seq (Chr (NoneOf ["/"%char])) (Star Dot)))
            (Alt (Seq two_stars End)
               (Seq (Chr (NoneOf ["/"%char])) (Seq two_stars (Star Dot)))))
         s (fun _ => true) = true ↔
  (∃ c r, s = "**" +:+ String c r ∧ c ≠ "/"%char) ∨
  s = "**" ∨
  (∃ c r, s = String c ("**" +:+ r) ∧ c ≠ "/"%char).
Proof.
  cbn [rmatch two_stars]. rewrite !orb_true_iff. split.
  - intros [H|[H|H]];
      destruct s as [|x [|y [|z r]]];
      cbn -[class_test star_match] in H; try done;
      rewrite ?andb_true_iff, ?star_char_test, ?not_slash_test in H;
      destruct_and?; simplify_eq; try done.
    + left. by exists z, r.
    + by right; left.
    + right; right. by exists x, r.
  - intros [(c & r & -> & Hc)|[->|(c & r & -> & Hc)]].
    + left. change ("**" +:+ String c r)
        with (String "*" (String "*" (String c r))).
      cbn -[class_test star_match]. apply not_slash_test in Hc.
      by rewrite Hc, star_match_true.
    + right; left. done.
    + right; right. change ("**" +:+ r) with (String "*" (String "*" r)).
      cbn -[class_test star_match]. apply not_slash_test in Hc.
      by rewrite Hc, star_match_true.
Qed.

Lemma pathStarsRegex_misplaced s :
  regex_test pathStarsRegex s = true ↔ misplaced_stars s.
Proof.
  rewrite regex_test_spec. unfold pathStarsRegex.
  split.
  - intros (a & b & -> & H). cbn [rmatch] in H.
    apply star_match_spec in H as (a' & b' & -> & _ & H).
    change (rmatch (Alt (Seq two_stars (Seq (Chr (NoneOf ["/"%char])) (Star Dot)))
            (Alt (Seq two_stars End)
               (Seq (Chr (NoneOf ["/"%char])) (Seq two_stars (Star Dot)))))
         b' (fun _ => true) = true) in H.
    apply misplaced_here_spec in H
      as [(c & r & -> & Hc)|[->|(c & r & -> & Hc)]].
    + exists (a +:+ a'), (String c r). split; [by rewrite append_assoc_s|].
      right; left. by exists c, r.
    + exists (a +:+ a'), "". split; [by rewrite append_assoc_s|]. by left.
    + exists (a +:+ a' +:+ String c ""), r. split.
      * by rewrite !append_assoc_s.
      * right; right. exists (a +:+ a'), c. by rewrite append_assoc_s.
  - intros (a & b & -> & [->|[(c & b' & -> & Hc)|(a' & c & -> & Hc)]]).
    + exists a, "**". split; [done|]. cbn [rmatch].
      apply star_match_spec. exists "", "**". done.
    + exists a, ("**" +:+ String c b'). split; [done|]. cbn [rmatch].
      apply star_match_spec. exists "", ("**" +:+ String c b').
      split; [done|]. split; [done|].
      change (rmatch (Alt (Seq two_stars (Seq (Chr (NoneOf ["/"%char])) (Star Dot)))
            (Alt (Seq two_stars End)
               (Seq (Chr (NoneOf ["/"%char])) (Seq two_stars (Star Dot)))))
         ("**" +:+ String c b') (fun _ => true) = true).
      apply misplaced_here_spec. left. by exists c, b'.
    + exists a', (String c ("**" +:+ b)). split; [by rewrite !append_assoc_s|].
      cbn [rmatch].
      apply star_match_spec. exists "", (String c ("**" +:+ b)).
      split; [done|]. split; [done|].
      change (rmatch (Alt (Seq two_stars (Seq (Chr (NoneOf ["/"%char])) (Star Dot)))
            (Alt (Seq two_stars End)
               (Seq (Chr (NoneOf ["/"%char])) (Seq two_stars (Star Dot)))))
         (String c ("**" +:+ b)) (fun _ => true) = true).
      apply misplaced_here_spec. right; right. by exists c, b.
Qed.

Lemma filterPatternCharactersRegex_spec s :
  regex_test filterPatternCharactersRegex s = true ↔
  ∃ c, has_char s c ∧ in_chars c ["?"; "+"; "["; "]"; "!"]%char = true.
Proof.
  rewrite regex_test_spec. unfold filterPatternCharactersRegex. split.
  - intros (a & b & -> & H). cbn [rmatch] in H.
    apply star_match_spec in H as (a' & b' & -> & _ & H).
    destruct b' as [|c r]; [done|]. apply andb_true_iff in H as [Hc _].
    exists c. split; [|done].
    rewrite !has_char_app. right; right. apply has_char_split. by exists "", r.
  - intros (c & Hin & Hc). apply has_char_split in Hin as (a & b & ->).
    exists a, (String c b). split; [done|]. cbn [rmatch].
    apply star_match_spec. exists "", (String c b). split; [done|].
    split; [done|]. unfold class_test. rewrite Hc. simpl.
    apply star_match_true.
Qed.

(** ** Paths of the configuration file: sanitising *)

Lemma ends_with_spec s suffix :
  ends_with s suffix = true ↔ ∃ p, s = p +:+ suffix.
Proof.
  induction s as [|c s IH]; cbn [ends_with].
  - rewrite orb_false_r. split.
    + intros H. apply String.eqb_eq in H as <-. by exists "".
    + intros ([|? ?] & H); [|done]. change ("" = suffix) in H. subst.
      done.
  - rewrite orb_true_iff, IH. split.
    + intros [H|(p & ->)].
      * apply String.eqb_eq in H as <-. by exists "".
      * by exists (String c p).
    + intros ([|x p] & H).
      * left. change (String c s = suffix) in H. subst.
        apply String.eqb_refl.
      * right. rewrite append_cons in H. injection H as <- ->. by exists p.
Qed.

Lemma substring_prefix (a b : string) :
  String.substring 0 (String.length a) (a +:+ b) = a.
Proof.
  induction a as [|x a IH]; simpl; [by destruct b|]. by rewrite IH.
Qed.

Lemma strip_leading_slashes_spec o :
  ∃ n, o = slashes n +:+ strip_leading_slashes o ∧
       ∀ x, strip_leading_slashes o ≠ String "/" x.
Proof.
  induction o as [|c o (n & Ho & Hn)]; simpl.
  - by exists 0%nat.
  - destruct (Ascii.eqb_spec c "/") as [->|Hc].
    + exists (S n). split; [|done].
      change (String "/" o =
              String "/" (slashes n +:+ strip_leading_slashes o)).
      by rewrite <- Ho.
    + exists 0%nat. split; [done|]. intros x [= ? _]. done.
Qed.

Lemma strip_leading_slashes_id s :
  (∀ x, s ≠ String "/" x) → strip_leading_slashes s = s.
Proof.
  destruct s as [|c s]; [done|]. simpl. intros H.
  destruct (Ascii.eqb_spec c "/") as [->|Hc]; [|done]. by destruct (H s).
Qed.

Lemma strip_leading_slashes_slashes n s :
  strip_leading_slashes (slashes n +:+ s) = strip_leading_slashes s.
Proof. induction n as [|n IH]; [done|]. simpl. exact IH. Qed.

Lemma only_slashes_strip o :
  only_slashes o = true ↔ strip_leading_slashes o = "".
Proof.
  unfold only_slashes. induction o as [|c o IH]; simpl; [done|].
  destruct (Ascii.eqb c "/"); simpl; [done|]. split; done.
Qed.

Lemma indexOf_spec s c : indexOf s c = -1 ↔ ¬ has_char s c.
Proof.
  unfold has_char.
  assert (∀ s, -1 ≤ indexOf s c) as Hge.
  { clear s. induction s as [|x s IH]; simpl; [lia|].
    destruct (Ascii.eqb x c); [lia|]. destruct (Z.eqb_spec (indexOf s c) (-1)); lia. }
  induction s as [|x s IH]; simpl.
  - split; [intros _ []|done].
  - destruct (Ascii.eqb_spec x c) as [->|Hx].
    + split; [done|]. intros H. destruct H. by left.
    + destruct (Z.eqb_spec (indexOf s c) (-1)) as [Hi|Hi].
      * split; [|done]. intros _ [?|Hin]; [done|]. by apply IH in Hin.
      * split; [pose proof (Hge s); lia|].
        intros H. destruct Hi. apply IH. intros Hin. apply H. by right.
Qed.

(** The path after the two strippings: the original is some slashes, the
    path, and maybe the two stars that were taken off its end. *)
Lemma validateAndSanitisePath_unfold originalPath propertyName configFile :
  ∃ n path,
    (originalPath = slashes n +:+ path ∨
     ∃ x, path = x +:+ "/" ∧ originalPath = slashes n +:+ path +:+ "**") ∧
    (∀ x, path ≠ String "/" x) ∧
    (path = "" → strip_leading_slashes originalPath = "") ∧
    validateAndSanitisePath originalPath propertyName configFile =
      if String.eqb path "" then
        ([], Throw (Error (getConfigFilePropertyError configFile propertyName
                             (empty_path_error originalPath))))
      else if regex_test pathStarsRegex path then
        ([], Throw (Error (getConfigFilePropertyError configFile propertyName
                             (invalid_stars_error originalPath))))
      else if negb (indexOf path backslash =? -1) then
        (if regex_test filterPatternCharactersRegex path
         then [getConfigFilePropertyError configFile propertyName
                 (unsupported_character_error originalPath)]
         else [],
         Throw (Error (getConfigFilePropertyError configFile propertyName
                         (backslash_error originalPath))))
      else
        (if regex_test filterPatternCharactersRegex path
         then [getConfigFilePropertyError configFile propertyName
                 (unsupported_character_error originalPath)]
         else [],
         Return path).
Proof.
  destruct (strip_leading_slashes_spec originalPath) as (n & Ho & Hn).
  unfold validateAndSanitisePath. cbv zeta.
  destruct (ends_with (strip_leading_slashes originalPath) "/**") eqn:Hends.
  - apply ends_with_spec in Hends as (x & Hx).
    assert (String.substring 0
              (String.length (strip_leading_slashes originalPath) - 2)
              (strip_leading_slashes originalPath) = x +:+ "/") as ->.
    { rewrite Hx.
      replace (String.length (x +:+ "/**") - 2)%nat
        with (String.length (x +:+ "/")).
      - replace (x +:+ "/**") with ((x +:+ "/") +:+ "**")
          by (by rewrite append_assoc_s).
        apply substring_prefix.
      - rewrite !length_append_s. simpl. lia. }
    exists n, (x +:+ "/"). split; [|split; [|split]].
    + right. exists x. split; [done|]. rewrite Ho at 1. rewrite Hx.
      by rewrite !append_assoc_s.
    + intros y Hy. destruct x as [|c x].
      * by destruct (Hn "**").
      * rewrite append_cons in Hy. injection Hy as -> _.
        rewrite Hx in Hn. by destruct (Hn (x +:+ "/**")).
    + by destruct x.
    + by destruct (regex_test filterPatternCharactersRegex _).
  - exists n, (strip_leading_slashes originalPath).
    split; [by left|]. split; [done|]. split; [done|].
    by destruct (regex_test filterPatternCharactersRegex _).
Qed.

Lemma slashes_no_char n c : c ≠ "/"%char → ¬ has_char (slashes n) c.
Proof.
  intros Hc. unfold has_char. induction n as [|n IH]; simpl; [tauto|].
  intros [?|?]; [congruence|]. by apply IH.
Qed.

Lemma in_chars_In c cs : in_chars c cs = true ↔ In c cs.
Proof.
  unfold in_chars. rewrite existsb_exists. split.
  - intros (x & Hin & Heq). by apply Ascii.eqb_eq in Heq as ->.
  - intros Hin. exists c. split; [done|]. apply Ascii.eqb_refl.
Qed.

(** The messages of the three errors differ. *)
Lemma config_errors_differ configFile propertyName originalPath :
  let E := getConfigFilePropertyError configFile propertyName in
  E (invalid_stars_error originalPath) ≠ E (empty_path_error originalPath) ∧
  E (backslash_error originalPath) ≠ E (empty_path_error originalPath).
Proof.
  unfold getConfigFilePropertyError, invalid_stars_error, backslash_error,
    empty_path_error.
  split; intros H; repeat apply append_inv_head_s in H; by vm_compute in H.
Qed.

(** X19. [pathStarsRegex] is found in a path exactly when the path has a
    [**] that ends it, or that is followed by a character other than a
    slash, or that is preceded by one.  So a path that ends with [**] is
    always refused by the expression, whatever precedes the stars. *)
Theorem pathStarsRegex_spec (s : string) :
  (regex_test pathStarsRegex s = true ↔ misplaced_stars s) ∧
  regex_test pathStarsRegex (s +:+ "**") = true.
Proof.
  split; [apply pathStarsRegex_misplaced|].
  apply pathStarsRegex_misplaced. exists s, "". split; [done|]. by left.
Qed.

(** X20. A path that [validateAndSanitisePath] returns is sanitised: it
    is not empty, does not start with a slash, holds no backslash and no
    misplaced [**]; it is the original without its leading slashes, and
    without the [**] of a trailing [/**].  A warning is given exactly when
    it holds one of [? + [ ] !].  Sanitising it again returns it
    unchanged. *)
Theorem validateAndSanitisePath_sanitised
    (originalPath propertyName configFile : string) (warnings : list string)
    (path : string) :
  validateAndSanitisePath originalPath propertyName configFile =
    (warnings, Return path) →
  path ≠ "" ∧ (∀ x, path ≠ String "/" x) ∧
  ¬ has_char path backslash ∧ ¬ misplaced_stars path ∧
  (∃ n, originalPath = slashes n +:+ path ∨
        (ends_with path "/" = true ∧
         originalPath = slashes n +:+ path +:+ "**")) ∧
  (warnings ≠ [] ↔
   ∃ c, has_char path c ∧ In c ["?"; "+"; "["; "]"; "!"]%char) ∧
  (∀ propertyName' configFile',
     snd (validateAndSanitisePath path propertyName' configFile') =
     Return path).
Proof.
  intros Hrun.
  destruct (validateAndSanitisePath_unfold originalPath propertyName
              configFile) as (n & cand & Horig & Hslash & _ & Heq).
  rewrite Heq in Hrun. clear Heq.
  destruct (String.eqb_spec cand "") as [|Hne]; [done|].
  destruct (regex_test pathStarsRegex cand) eqn:Hstars; [done|].
  destruct (Z.eqb_spec (indexOf cand backslash) (-1)) as [Hback|];
    [|done].
  simpl in Hrun. injection Hrun as Hw <-.
  assert (¬ misplaced_stars cand) as Hmis.
  { intros H. apply pathStarsRegex_misplaced in H. congruence. }
  split; [done|]. split; [done|].
  split; [by apply indexOf_spec|]. split; [done|]. split.
  { exists n. destruct Horig as [?|(x & -> & ?)]; [by left|]. right.
    split; [|done]. apply ends_with_spec. by exists x. }
  split.
  { rewrite <- Hw.
    destruct (regex_test filterPatternCharactersRegex cand) eqn:Hf.
    - split; [|done]. intros _.
      apply filterPatternCharactersRegex_spec in Hf as (c & Hc & Hin).
      exists c. split; [done|]. by apply in_chars_In.
    - split; [done|]. intros (c & Hc & Hin).
      assert (regex_test filterPatternCharactersRegex cand = true);
        [|congruence].
      apply filterPatternCharactersRegex_spec. exists c. split; [done|].
      by apply in_chars_In. }
  intros p' c'. unfold validateAndSanitisePath. cbv zeta.
  rewrite (strip_leading_slashes_id cand Hslash).
  destruct (ends_with cand "/**") eqn:Hends.
  { destruct Hmis. apply ends_with_spec in Hends as (x & ->).
    exists (x +:+ "/"), "". split; [by rewrite append_assoc_s|]. by left. }
  destruct (String.eqb_spec cand "") as [|_]; [done|].
  rewrite Hstars, Hback. simpl.
  by destruct (regex_test filterPatternCharactersRegex cand).
Qed.

(** X20 at work: leading slashes and the stars of a trailing [/**] are
    taken off. *)
Lemma validateAndSanitisePath_sanitised_witness :
  validateAndSanitisePath "//src/**" "paths" "codeql.yml" =
    ([], Return "src/") ∧
  snd (validateAndSanitisePath "src/" "paths-ignore" "other.yml") =
    Return "src/".
Proof.
  split; [reflexivity|].
  by destruct (validateAndSanitisePath_sanitised "//src/**" "paths"
                 "codeql.yml" [] "src/" eq_refl)
    as (_ & _ & _ & _ & _ & _ & H).
Defined.

(** X21. What [validateAndSanitisePath] refuses.  It throws the
    empty-path error exactly when the original is made of slashes only (the
    empty string included); a backslash anywhere in the original always
    ends in an error; an error is always one of the three of the function;
    and one more leading slash never changes the path that is returned. *)
Theorem validateAndSanitisePath_rejects
    (originalPath propertyName configFile : string) :
  let run := validateAndSanitisePath originalPath propertyName configFile in
  let E := getConfigFilePropertyError configFile propertyName in
  (snd run = Throw (Error (E (empty_path_error originalPath))) ↔
   only_slashes originalPath = true) ∧
  (has_char originalPath backslash → ∃ e, snd run = Throw e) ∧
  (∀ e, snd run = Throw e →
     e = Error (E (empty_path_error originalPath)) ∨
     e = Error (E (invalid_stars_error originalPath)) ∨
     e = Error (E (backslash_error originalPath))) ∧
  (∀ path,
     snd (validateAndSanitisePath (String "/" originalPath) propertyName
            configFile) = Return path ↔
     snd run = Return path).
Proof.
  intros run E. subst run.
  destruct (config_errors_differ configFile propertyName originalPath)
    as [Hd1 Hd2]. fold E in Hd1, Hd2.
  destruct (validateAndSanitisePath_unfold originalPath propertyName
              configFile) as (n & cand & Horig & Hslash & Hempty & Heq).
  fold E in Heq.
  split; [|split; [|split]].
  - rewrite only_slashes_strip. split.
    + rewrite Heq. destruct (String.eqb_spec cand "") as [->|Hne]; [auto|].
      destruct (regex_test pathStarsRegex cand); simpl; [congruence|].
      destruct (negb _); simpl; [congruence|done].
    + intros Hs. unfold validateAndSanitisePath. rewrite Hs. done.
  - intros Hback. rewrite Heq.
    assert (has_char cand backslash) as Hc.
    { destruct Horig as [->|(x & _ & ->)]; rewrite !has_char_app in Hback;
        destruct Hback as [Hb|Hb]; try done.
      - by apply slashes_no_char in Hb.
      - by apply slashes_no_char in Hb.
      - destruct Hb as [Hb|Hb]; [done|]. unfold has_char in Hb.
        simpl in Hb. by destruct Hb as [?|[?|?]]. }
    destruct (String.eqb_spec cand "") as [->|Hne]; [eauto|].
    destruct (regex_test pathStarsRegex cand); [eauto|].
    destruct (Z.eqb_spec (indexOf cand backslash) (-1)) as [Hi|Hi];
      simpl; [|eauto].
    by apply indexOf_spec in Hi.
  - intros e. rewrite Heq.
    destruct (String.eqb cand ""); [intros [= <-]; auto|].
    destruct (regex_test pathStarsRegex cand); [intros [= <-]; auto|].
    destruct (negb _); simpl; [intros [= <-]; auto|done].
  - intros path. unfold validateAndSanitisePath. cbv zeta.
    change (strip_leading_slashes (String "/" originalPath))
      with (strip_leading_slashes originalPath).
    match goal with |- context [String.eqb ?x ""] => generalize x end.
    clear. intros q.
    destruct (String.eqb q ""); simpl; [by split|].
    destruct (regex_test pathStarsRegex q); simpl; [by split|].
    destruct (negb _); simpl; by split.
Qed.

(** ** The entry point *)

(** A call of [uploadFiles] that changes the state found the sentinel
    unset and leaves it set. *)
Lemma uploadFiles_changed h sarifFiles st :
  snd (uploadFiles h sarifFiles st) ≠ st →
  ¬ sentinel_set st ∧ sentinel_set (snd (uploadFiles h sarifFiles st)).
Proof.
  intros Hne.
  destruct (truthy (env st !! sentinelEnvVar)) eqn:Hfalse.
  { destruct Hne. unfold uploadFiles, bind at 1, getenv at 1.
    by rewrite Hfalse. }
  split. { rewrite sentinel_set_truthy. by rewrite Hfalse. }
  exists sentinelEnvVar. split; [|done].
  apply (write_once_run_keeps _ _ _ _
           (uploadFiles_after_sentinel h sarifFiles st Hfalse)).
  simpl. by rewrite lookup_insert_eq.
Qed.

Lemma filter_sarif_nil entries :
  List.filter (fun f => ends_with f ".sarif") entries = [] ↔
  ∀ p, p +:+ ".sarif" ∉ entries.
Proof.
  induction entries as [|f entries IH]; simpl.
  - split; [|done]. intros _ p Hp. by apply elem_of_nil in Hp.
  - destruct (ends_with f ".sarif") eqn:Hf.
    + split; [done|]. intros H. apply ends_with_spec in Hf as (p & ->).
      destruct (H p). by left.
    + rewrite IH. split.
      * intros H p Hp. apply elem_of_cons in Hp as [Hp|Hp]; [|by apply (H p)].
        assert (ends_with f ".sarif" = true); [|congruence].
        apply ends_with_spec. by exists p.
      * intros H p Hp. apply (H p). by right.
Qed.

Lemma upload_unfold d h input st :
  upload d h input st =
  match lstat_isDirectory d input with
  | Throw e => (Throw e, st)
  | Return false => uploadFiles h [input] st
  | Return true =>
      match readdirSync d input with
      | Throw e => (Throw e, st)
      | Return entries =>
          match List.filter (fun f => ends_with f ".sarif") entries with
          | [] => (Throw (Error (no_sarif_message input)), st)
          | found => uploadFiles h (map (path_resolve d input) found) st
          end
      end
  end.
Proof.
  unfold upload, bind, lift.
  destruct (lstat_isDirectory d input) as [[|]|e0]; try done.
  destruct (readdirSync d input) as [entries|e1]; try done.
  by destruct (List.filter _ entries).
Qed.

(** X22. [upload] leaves the state untouched unless it finds something to
    upload.  A path that cannot be examined throws the error of the file
    system, and a directory with no entry that ends in [.sarif] throws
    [No SARIF files found], both without any effect and before the sentinel
    is looked at; when a call has changed the state, the sentinel was unset
    and is now set, and the input was a file, or a directory with such an
    entry. *)
Theorem upload_effects (d : Disk) (h : Host) (input : string) (st : State) :
  let run := upload d h input st in
  (∀ e, lstat_isDirectory d input = Throw e → run = (Throw e, st)) ∧
  (∀ entries,
     lstat_isDirectory d input = Return true →
     readdirSync d input = Return entries →
     (∀ p, p +:+ ".sarif" ∉ entries) →
     run = (Throw (Error (no_sarif_message input)), st)) ∧
  (snd run ≠ st →
   ¬ sentinel_set st ∧ sentinel_set (snd run) ∧
   (lstat_isDirectory d input = Return false ∨
    ∃ entries p,
      lstat_isDirectory d input = Return true ∧
      readdirSync d input = Return entries ∧ p +:+ ".sarif" ∈ entries)).
Proof.
  intros run. subst run. rewrite upload_unfold.
  destruct (lstat_isDirectory d input) as [[|]|e0] eqn:Hstat.
  - destruct (readdirSync d input) as [entries|e1] eqn:Hdir.
    + destruct (List.filter _ entries) as [|f found] eqn:Hfound.
      * split; [done|]. split; [done|]. done.
      * split; [done|]. split.
        { intros entries' _ [= <-] Hnone.
          apply filter_sarif_nil in Hnone. congruence. }
        intros Hne. apply uploadFiles_changed in Hne as [Hunset Hset].
        split; [done|]. split; [done|]. right.
        assert (f ∈ List.filter (fun f => ends_with f ".sarif") entries)
          as Hin by (rewrite Hfound; by left).
        apply list_elem_of_In, filter_In in Hin as [Hin Hf].
        apply ends_with_spec in Hf as (p & ->).
        exists entries, p. split; [done|]. split; [done|].
        by apply list_elem_of_In.
    + split; [done|]. split; [done|]. done.
  - split; [done|]. split; [done|].
    intros Hne. apply uploadFiles_changed in Hne as [Hunset Hset].
    split; [done|]. split; [done|]. by left.
  - split; [by intros e [= <-]|]. split; [done|]. done.
Qed.

(** X22 at work: a directory without any SARIF file. *)
Lemma upload_effects_witness :
  upload (results_dir ["notes.txt"; "a.sarif.bak"]) (test_host [] [])
    "results" (state_of job_env) =
  (Throw (Error (no_sarif_message "results")), state_of job_env).
Proof.
  destruct (upload_effects (results_dir ["notes.txt"; "a.sarif.bak"])
              (test_host [] []) "results" (state_of job_env)) as (_ & H & _).
  apply (H ["notes.txt"; "a.sarif.bak"]); [reflexivity|reflexivity|].
  intros p Hp. apply list_elem_of_In in Hp.
  assert (∀ f, In f ["notes.txt"; "a.sarif.bak"] →
               ends_with f ".sarif" = false) as Hnone.
  { intros f [<-|[<-|[]]]; reflexivity. }
  apply Hnone in Hp.
  assert (ends_with (p +:+ ".sarif") ".sarif" = true); [|congruence].
  apply ends_with_spec. by exists p.
Defined.

(** ** The memory and threads flags *)

Lemma Qfloor_minus_Z (x : Q) (k : Z) :
  Qfloor (x - inject_Z k) = Qfloor x - k.
Proof.
  apply Z.le_antisymm.
  - assert (Qfloor (x - inject_Z k) + k ≤ Qfloor x); [|lia].
    rewrite <- (Qfloor_Z (Qfloor (x - inject_Z k) + k)).
    apply Qfloor_resp_le. rewrite inject_Z_plus.
    pose proof (Qfloor_le (x - inject_Z k)). lra.
  - rewrite <- (Qfloor_Z (Qfloor x - k)).
    apply Qfloor_resp_le. unfold Z.sub. rewrite inject_Z_plus, inject_Z_opp.
    pose proof (Qfloor_le x). lra.
Qed.

Lemma js_lt_Num x y : js_lt (Num x) (Num y) = true ↔ (x < y)%Q.
Proof.
  simpl. rewrite negb_true_iff, <- not_true_iff_false, Qle_bool_iff.
  split; [apply Qnot_le_lt|apply Qlt_not_le].
Qed.

(** X23. The number that [getThreadsFlag] prints.  Without a [threads]
    input it is 1, whatever the number of processors.  With an input that
    is not a number the call throws.  Otherwise the number is finite and
    lies between minus the number of processors and that number, and it is
    the input itself when the input lies in that range: an infinite or
    too large input is capped. *)
Theorem getThreadsFlag_clamped (os : Os) (h : Host) :
  let s := getInput h "threads" in
  let max := inject_Z (Z.of_nat (cpus_length os)) in
  (s = "" →
   getThreadsFlag os h = Return ("--threads=" +:+ ToString os (Num 1))) ∧
  (s ≠ "" → ToNumber os s = NaN →
   getThreadsFlag os h = Throw (Error (invalid_threads_message s))) ∧
  (s ≠ "" → ToNumber os s ≠ NaN →
   ∃ q, getThreadsFlag os h =
          Return ("--threads=" +:+ ToString os (Num q)) ∧
        (- max <= q)%Q ∧ (q <= max)%Q ∧
        (∀ x, ToNumber os s = Num x → (- max <= x)%Q → (x <= max)%Q →
              q = x)).
Proof.
  intros s max. unfold getThreadsFlag. fold s. fold max.
  assert (0 <= max)%Q as Hmax.
  { unfold max. rewrite <- (Zle_Qle 0). lia. }
  split; [by intros ->|].
  split.
  { intros Hs Hnan. apply String.eqb_neq in Hs. by rewrite Hs, Hnan. }
  intros Hs Hnan. apply String.eqb_neq in Hs. rewrite Hs. simpl negb.
  cbv iota. destruct (ToNumber os s) as [|x|[|]] eqn:Hn; [done| | |].
  - cbn [isNaN]. cbv iota zeta.
    destruct (js_lt (Num max) (Num x)) eqn:Hgt.
    + apply js_lt_Num in Hgt.
      destruct (js_lt (Num max) (Num (- max))) eqn:Hlt.
      { apply js_lt_Num in Hlt. lra. }
      exists max. split; [done|]. split; [lra|]. split; [lra|].
      intros y [= <-] _ Hy. lra.
    + apply not_true_iff_false in Hgt. rewrite js_lt_Num in Hgt.
      apply Qnot_lt_le in Hgt.
      destruct (js_lt (Num x) (Num (- max))) eqn:Hlt.
      * apply js_lt_Num in Hlt. exists (- max)%Q. split; [done|].
        split; [lra|]. split; [lra|]. intros y [= <-] Hy _. lra.
      * apply not_true_iff_false in Hlt. rewrite js_lt_Num in Hlt.
        apply Qnot_lt_le in Hlt. exists x. split; [done|].
        split; [done|]. split; [done|]. by intros y [= <-].
  - cbn [isNaN js_lt negb]. cbv iota zeta. cbn [js_lt]. cbv iota.
    exists (- max)%Q. split; [done|]. split; [lra|]. split; [lra|]. done.
  - assert (js_lt (Num max) (Num (- max)) = false) as Hlt.
    { apply not_true_iff_false. rewrite js_lt_Num. lra. }
    cbn [isNaN js_lt negb]. cbv iota zeta.
    change (negb (Qle_bool (- max) max))
      with (js_lt (Num max) (Num (- max))).
    rewrite Hlt.
    exists max. split; [done|]. split; [lra|]. split; [lra|]. done.
Qed.

(** X23 at work: 64 threads are asked for on a machine with 4
    processors. *)
Lemma getThreadsFlag_clamped_witness :
  let os := test_os 4 0 in
  let h := host_with_inputs [("threads", "64")] in
  ∃ q, getThreadsFlag os h = Return ("--threads=" +:+ ToString os (Num q)) ∧
       (q <= inject_Z 4)%Q ∧
       getThreadsFlag os h = Return "--threads=4".
Proof.
  intros os h.
  destruct (getThreadsFlag_clamped os h) as (_ & _ & H).
  destruct H as (q & Hq & _ & Hhi & _).
  - vm_compute. discriminate.
  - vm_compute. discriminate.
  - exists q. split; [exact Hq|]. split; [exact Hhi|]. reflexivity.
Defined.

(** X24. The number that [getMemoryFlag] prints.  Without a [ram] input
    it is the whole number of mebibytes of the machine minus 256, which
    is negative on a machine with less than 256 MiB.  With an input, the
    call throws unless the input is a number above zero, and then prints
    its floor, which is not negative, or [Infinity] unchanged. *)
Theorem getMemoryFlag_spec (os : Os) (h : Host) :
  let s := getInput h "ram" in
  let total := Z.of_N (totalmem os) in
  (s = "" →
   getMemoryFlag os h =
     Return ("--ram=" +:+
             ToString os (Num (inject_Z (total / 1048576 - 256))))) ∧
  (total < 256 * 1048576 ↔ total / 1048576 - 256 < 0) ∧
  (s ≠ "" →
   (ToNumber os s = NaN ∨ ToNumber os s = Infinity true ∨
    ∃ q, ToNumber os s = Num q ∧ (q <= 0)%Q) →
   getMemoryFlag os h = Throw (Error (invalid_ram_message s))) ∧
  (s ≠ "" → ∀ q, ToNumber os s = Num q → (0 < q)%Q →
   getMemoryFlag os h =
     Return ("--ram=" +:+ ToString os (Num (inject_Z (Qfloor q)))) ∧
   0 ≤ Qfloor q) ∧
  (s ≠ "" → ToNumber os s = Infinity false →
   getMemoryFlag os h = Return ("--ram=" +:+ ToString os (Infinity false))).
Proof.
  intros s total. unfold getMemoryFlag. fold s. fold total.
  split.
  { intros ->. cbn -[Qfloor Qdiv Qminus inject_Z Z.mul].
    rewrite Qfloor_minus_Z. change (1024 * 1024) with 1048576.
    by rewrite <- Zdiv_Qdiv. }
  split.
  { split; intros H.
    - assert (total / 1048576 < 256); [|lia].
      apply Z.div_lt_upper_bound; lia.
    - assert (total / 1048576 < 256) as H' by lia.
      destruct (Z.lt_ge_cases total (256 * 1048576)) as [?|Hge]; [done|].
      apply (Z.div_le_mono _ _ 1048576) in Hge; [|lia].
      rewrite Z.div_mul in Hge by lia. lia. }
  split.
  { intros Hs Hbad. apply String.eqb_neq in Hs. rewrite Hs. simpl negb.
    cbv iota.
    destruct Hbad as [-> | [-> | (q & -> & Hq)]]; [done|done|].
    cbn [isNaN js_le orb]. apply Qle_bool_iff in Hq. by rewrite Hq. }
  split.
  { intros Hs q Hq Hpos. apply String.eqb_neq in Hs. rewrite Hs, Hq.
    simpl negb. cbv iota. cbn [isNaN js_le orb].
    destruct (Qle_bool q 0) eqn:Hle.
    { apply Qle_bool_iff in Hle. lra. }
    split; [done|].
    rewrite <- (Qfloor_Z 0). apply Qfloor_resp_le.
    by apply Qlt_le_weak. }
  intros Hs Hinf. apply String.eqb_neq in Hs. by rewrite Hs, Hinf.
Qed.

(** X24 at work: a machine with 128 MiB and no [ram] input. *)
Lemma getMemoryFlag_spec_witness :
  getMemoryFlag (test_os 1 134217728) (host_with_inputs []) =
  Return "--ram=-128".
Proof.
  destruct (getMemoryFlag_spec (test_os 1 134217728) (host_with_inputs []))
    as (H & _).
  rewrite H by reflexivity. reflexivity.
Defined.

(** ** The languages of the repository *)

Lemma LangValue_eqb_spec a b : LangValue_eqb a b = true ↔ a = b.
Proof.
  destruct a as [x|x], b as [y|y]; simpl; try (split; done);
    rewrite String.eqb_eq; split; congruence.
Qed.

Lemma elem_of_first_values l x : x ∈ first_values l ↔ x ∈ l.
Proof.
  induction l as [|y l IH]; simpl; [done|].
  rewrite !elem_of_cons, elem_of_filter_bool, IH, negb_true_iff.
  split.
  - intros [?|[? _]]; auto.
  - intros [?|Hin]; [by left|].
    destruct (LangValue_eqb x y) eqn:Hxy; [|by right].
    left. by apply LangValue_eqb_spec.
Qed.

Lemma NoDup_first_values l : NoDup (first_values l).
Proof.
  induction l as [|y l IH]; simpl; [constructor|].
  constructor.
  - rewrite elem_of_filter_bool, negb_true_iff. intros [_ H].
    apply not_true_iff_false in H. apply H. by apply LangValue_eqb_spec.
  - by apply NoDup_filter_bool.
Qed.

Lemma existsb_LangValue x l :
  existsb (LangValue_eqb x) l = true ↔ x ∈ l.
Proof.
  rewrite existsb_exists. split.
  - intros (y & Hin & Heq). apply LangValue_eqb_spec in Heq as ->.
    by apply list_elem_of_In.
  - intros Hin. exists x. split; [by apply list_elem_of_In|].
    by apply LangValue_eqb_spec.
Qed.

(** A [Set] filled in a loop holds the values in the order of their first
    appearance. *)
Lemma fold_Set_add (l : list LangValue) :
  ∀ acc,
    fold_left Set_add l acc =
    (acc ++ List.filter (fun y => negb (existsb (LangValue_eqb y) acc))
              (first_values l))%list.
Proof.
  induction l as [|x l IH]; intros acc; simpl.
  - by rewrite app_nil_r.
  - rewrite IH. unfold Set_add.
    destruct (existsb (LangValue_eqb x) acc) eqn:Hx; simpl.
    + f_equal. symmetry. apply filter_implied. intros y Hy.
      apply negb_true_iff. apply negb_true_iff in Hy.
      apply not_true_iff_false. intros Heq.
      apply LangValue_eqb_spec in Heq as ->. congruence.
    + rewrite <- app_assoc. simpl. f_equal. f_equal.
      rewrite filter_both. apply filter_ext. intros y.
      rewrite existsb_app. simpl. rewrite orb_false_r, negb_orb.
      apply andb_comm.
Qed.

Lemma fold_codeqlLanguages (names : list string) :
  ∀ acc,
    fold_left (fun languages lang =>
                 match codeqlLanguages_get lang with
                 | Some v => Set_add languages v
                 | None => languages
                 end) names acc =
    fold_left Set_add (omap codeqlLanguages_get names) acc.
Proof.
  induction names as [|name names IH]; intros acc; simpl; [done|].
  rewrite IH. by destruct (codeqlLanguages_get name).
Qed.

Lemma codeqlLanguages_get_Lang name l :
  codeqlLanguages_get name = Some (Lang l) ↔ (name, l) ∈ codeqlLanguages.
Proof.
  unfold codeqlLanguages_get. split.
  - destruct (List.find _ codeqlLanguages) as [[k v]|] eqn:Hfind.
    + intros [= <-]. apply find_some in Hfind as [Hin Hk].
      apply String.eqb_eq in Hk. simpl in Hk. subst k.
      by apply list_elem_of_In.
    + by destruct (existsb _ _).
  - intros Hin. apply list_elem_of_In in Hin. simpl in Hin.
    repeat (destruct Hin as [[= <- <-]|Hin]; [reflexivity|]). done.
Qed.

(** X25. [getLanguagesInRepo] without [GITHUB_REPOSITORY] returns no
    language and asks nothing.  Otherwise it makes one request.  When the
    client rejects the answer, the call throws the client's error.  When
    the request is answered, the call returns the CodeQL languages of the
    names in the answer, each once, in the order in which the answer first
    names them: a language is returned exactly when one of its names is in
    the answer, so C and C++ give one [cpp]; and when no name of the answer
    is one that objects inherit, all that is returned is a language of
    CodeQL. *)
Theorem getLanguagesInRepo_spec (data_keys : Response → list string)
    (h : Host) (st : State) :
  let run := getLanguagesInRepo data_keys h st in
  (env st !! "GITHUB_REPOSITORY" = None → run = (Return [], st)) ∧
  (∀ nwo, env st !! "GITHUB_REPOSITORY" = Some nwo →
     let req := {| route := languages_route;
                   owner := split_slash nwo !! 0%nat;
                   repo := split_slash nwo !! 1%nat; body := NoBody |} in
     let answer := response_at h st req 0 in
     let names := data_keys answer in
     snd run = with_trace st [EvRequest req] ∧
     (rejected answer = true →
      fst run = Throw (HttpError (status answer) (x_github_request_id answer)
                         (data answer))) ∧
     (rejected answer = false →
      ∃ langs,
        run = (Return langs, with_trace st [EvRequest req]) ∧
        langs = first_values (omap codeqlLanguages_get names) ∧
        NoDup langs ∧
        (∀ l, Lang l ∈ langs ↔
              ∃ name, name ∈ names ∧ (name, l) ∈ codeqlLanguages) ∧
        ((∀ name, name ∈ names → name ∉ Object_prototype_names) →
         ∀ v, v ∈ langs →
           ∃ l, v = Lang l ∧
                l ∈ ["cpp"; "csharp"; "go"; "java"; "javascript"; "python"]))).
Proof.
  intros run.
  assert (run =
          match env st !! "GITHUB_REPOSITORY" with
          | None => (Return [], st)
          | Some nwo =>
              let req := {| route := languages_route;
                            owner := split_slash nwo !! 0%nat;
                            repo := split_slash nwo !! 1%nat;
                            body := NoBody |} in
              (if rejected (response_at h st req 0)
               then Throw (http_error (response_at h st req 0))
               else Return (first_values
                              (omap codeqlLanguages_get
                                 (data_keys (response_at h st req 0)))),
               with_trace st [EvRequest req])
          end) as ->.
  { unfold run, getLanguagesInRepo, bind, getenv.
    destruct (env st !! "GITHUB_REPOSITORY"); [|done].
    rewrite request_eq. cbv zeta. destruct (rejected _); [done|].
    unfold ret.
    rewrite fold_codeqlLanguages, fold_Set_add. simpl app.
    by rewrite filter_all. }
  split.
  { by intros ->. }
  intros nwo Hnwo req answer names. rewrite Hnwo. cbv zeta.
  fold req. fold answer. fold names.
  split; [done|]. split; [by intros ->|]. intros ->.
  eexists. split; [reflexivity|]. split; [done|].
  split; [apply NoDup_first_values|]. split.
  - intros l. rewrite elem_of_first_values, list_elem_of_omap.
    split.
    + intros (name & Hin & Hget). exists name. split; [done|].
      by apply codeqlLanguages_get_Lang.
    + intros (name & Hin & Htab). exists name. split; [done|].
      by apply codeqlLanguages_get_Lang.
  - intros Hnone v Hv.
    apply elem_of_first_values, list_elem_of_omap in Hv
      as (name & Hin & Hget).
    unfold codeqlLanguages_get in Hget.
    destruct (List.find _ codeqlLanguages) as [[k l]|] eqn:Hfind.
    + injection Hget as <-. exists l. split; [done|].
      apply find_some in Hfind as [Htab _]. simpl in Htab.
      repeat (destruct Htab as [[= <- <-]|Htab];
              [apply list_elem_of_In; simpl; tauto|]).
      done.
    + destruct (existsb _ _) eqn:Hex; [|done].
      apply existsb_exists in Hex as (x & Hx & Heq).
      apply String.eqb_eq in Heq as <-.
      destruct (Hnone name Hin). by apply list_elem_of_In.
Qed.

(** X25 at work: TypeScript and JavaScript are one language, and so are C
    and C++; HTML is none; and a 404 is the client's error. *)
Lemma getLanguagesInRepo_spec_witness :
  fst (getLanguagesInRepo
         (fun _ => ["TypeScript"; "C"; "JavaScript"; "HTML"; "C++"])
         (test_host [] []) (state_of job_env)) =
  Return [Lang "javascript"; Lang "cpp"] ∧
  fst (getLanguagesInRepo (fun _ => ["Go"]) (test_host [404] [])
         (state_of job_env)) =
  Throw (HttpError (Some 404) (Some "F00D") "{}").
Proof.
  split.
  - destruct (getLanguagesInRepo_spec
                (fun _ => ["TypeScript"; "C"; "JavaScript"; "HTML"; "C++"])
                (test_host [] []) (state_of job_env)) as [_ H].
    destruct (H "octo/demo" eq_refl) as (_ & _ & Hret).
    destruct (Hret eq_refl) as (langs & -> & -> & _). reflexivity.
  - destruct (getLanguagesInRepo_spec (fun _ => ["Go"]) (test_host [404] [])
                (state_of job_env)) as [_ H].
    destruct (H "octo/demo" eq_refl) as (_ & Hthrow & _).
    rewrite (Hthrow eq_refl). reflexivity.
Defined.

(** ** The orchestrator: what a call may cost *)

(** One delivery: at most four requests and 21 seconds of sleep, and no
    export. *)
Lemma uploadPayload_budget h payload st :
  ∃ t, trace (snd (uploadPayload h payload st)) = (trace st ++ t)%list ∧
       (length (requests_of t) ≤ 4)%nat ∧
       0 ≤ sum_list (sleeps_of t) ≤ 21000 ∧
       exports_of t = [].
Proof.
  assert (∃ t, trace st = (trace st ++ t)%list ∧
               (length (requests_of t) ≤ 4)%nat ∧
               0 ≤ sum_list (sleeps_of t) ≤ 21000 ∧ exports_of t = [])
    as Hnone.
  { exists []. rewrite app_nil_r. repeat split; simpl; try done; lia. }
  destruct (decide (env st !! "TEST_MODE" = Some "true")) as [Htest|Htest].
  { unfold uploadPayload, bind at 1, getenv at 1.
    by rewrite bool_decide_eq_true_2. }
  destruct (set_in_dec st "GITHUB_REPOSITORY") as [(nwo & Hnwo & Hne)|Hrepo].
  2:{ unfold uploadPayload, bind at 1, getenv at 1.
      rewrite bool_decide_eq_false_2 by done. unfold bind.
      by rewrite getRequiredEnvParam_unset. }
  assert (delivery_ready st nwo) as Hready by done.
  rewrite (uploadPayload_once _ _ _ _ Hready).
  exists [EvRequest (upload_request nwo payload)]. split; [done|].
  simpl. repeat split; try done; lia.
Qed.

(** X26. What one call of [uploadFiles] may cost, whatever the files, the
    environment and the server: at most six requests (two for the workflow
    lookup and four deliveries), at most 21 seconds of sleep, and at most
    two exported variables (the sentinel and the analysis key); and the
    trace only grows. *)
Theorem uploadFiles_budget (h : Host) (sarifFiles : list string) (st : State) :
  ∃ t, trace (snd (uploadFiles h sarifFiles st)) = (trace st ++ t)%list ∧
       (length (requests_of t) ≤ 6)%nat ∧
       0 ≤ sum_list (sleeps_of t) ≤ 21000 ∧
       (length (exports_of t) ≤ 2)%nat.
Proof.
  destruct (truthy (env st !! sentinelEnvVar)) eqn:Hfalse.
  { exists []. unfold uploadFiles, bind at 1, getenv at 1. rewrite Hfalse.
    simpl. rewrite app_nil_r. repeat split; try done; lia. }
  set (s0 := snd (exportVariable sentinelEnvVar sentinelEnvVar st)).
  assert (trace s0 = (trace st ++ [EvExport sentinelEnvVar sentinelEnvVar])%list)
    as Hs0 by done.
  destruct (getAnalysisKey_trace h s0)
    as (tk & Htk & Hsl & _ & Hrq & Hex & _).
  assert (∀ s1, s1 = s0 ∨ s1 = snd (getAnalysisKey h s0) →
            ∃ t, trace s1 = (trace st ++ t)%list ∧
              (length (requests_of t) ≤ 2)%nat ∧
              sum_list (sleeps_of t) = 0 ∧
              (length (exports_of t) ≤ 2)%nat) as Hprep.
  { intros s1 [-> | ->].
    - exists [EvExport sentinelEnvVar sentinelEnvVar]. split; [done|].
      simpl. repeat split; try done; lia.
    - exists (EvExport sentinelEnvVar sentinelEnvVar :: tk).
      rewrite Htk, Hs0, <- app_assoc. split; [done|].
      change (EvExport sentinelEnvVar sentinelEnvVar :: tk)
        with ([EvExport sentinelEnvVar sentinelEnvVar] ++ tk)%list.
      rewrite requests_of_app, sleeps_of_app, exports_of_app, Hsl.
      simpl. repeat split; try done; lia. }
  pose proof (uploadFiles_delivery h sarifFiles st Hfalse) as Hd.
  cbv zeta in Hd. fold s0 in Hd.
  destruct Hd
    as [(e & s1 & Hrun & Hs1)|
        (oid & rid & ref & key & s1 & name & merged & wid & names & n & _ &
         _ & _ & _ & Hkey & _ & _ & _ & _ & _ & Hrun)];
    rewrite Hrun.
  - destruct (Hprep s1 Hs1) as (t & Ht & Hr & Hz & He).
    exists t. simpl. split; [done|]. split; [lia|]. split; [lia|done].
  - rewrite bind_ret_snd.
    destruct (Hprep s1) as (t1 & Ht1 & Hr1 & Hz1 & He1).
    { right. by rewrite Hkey. }
    match goal with |- context [uploadPayload h ?b s1] =>
      destruct (uploadPayload_budget h b s1) as (t2 & Ht2 & Hr2 & Hz2 & He2)
    end.
    exists (t1 ++ t2)%list. rewrite Ht2, Ht1, <- app_assoc.
    split; [done|].
    rewrite requests_of_app, sleeps_of_app, exports_of_app, !length_app,
      sum_list_app, He2. simpl. split; [lia|]. split; [lia|lia].
Qed.
